(** * Email deliverability tester and email sender: a shallow embedding

  The development follows the two TypeScript modules of the package:
  [email-tester.ts] (class [EmailDeliverabilityTester]) and
  [email-sender.ts] (class [EmailSender]).

  - JavaScript strings are sequences of UTF-16 code units ([list N]).
  - The external collaborators (DNS resolver, SES client, nodemailer
    transports, the clock, the console) are oracles of an environment
    record; every call to one of them is recorded as an event, and an
    oracle sees the history of events that precede its call, so that
    its answers may change over time.
  - [async] methods are computations of a small monad that reads the
    history, emits events and either returns a value or throws. *)

From Stdlib Require Import List NArith ZArith Bool Ascii String Lia.
Import ListNotations.

Set Implicit Arguments.

(** ** JavaScript strings *)

Definition jsstring := list N.

(** A string literal of the source, all of whose characters are ASCII. *)
Definition lit (s : string) : jsstring :=
  List.map N_of_ascii (list_ascii_of_string s).

Definition jsstring_eqb (a b : jsstring) : bool :=
  if list_eq_dec N.eq_dec a b then true else false.

(** Truthiness of a string: only the empty string is falsy. *)
Definition nonempty (s : jsstring) : bool :=
  match s with [] => false | _ :: _ => true end.

(** [s.startsWith(p)] *)
Fixpoint startsWith (s p : jsstring) : bool :=
  match p, s with
  | [], _ => true
  | _ :: _, [] => false
  | c :: p', d :: s' => N.eqb c d && startsWith s' p'
  end.

(** [s.includes(p)] *)
Fixpoint includes (s p : jsstring) : bool :=
  startsWith s p ||
  match s with
  | [] => false
  | _ :: s' => includes s' p
  end.

(** [parts.join('')] *)
Definition join (parts : list jsstring) : jsstring := List.concat parts.

(** [s.toLowerCase()].  The letters A-Z are mapped to a-z.  The few code
  units outside ASCII whose lower-case form is an ASCII letter (U+212A
  gives k, U+0130 gives i followed by a combining dot) are left alone;
  the source only compares the result with the prefixes [v=spf1] and
  [v=dmarc1], which contain neither letter. *)
Definition lower_unit (c : N) : N :=
  if (65 <=? c)%N && (c <=? 90)%N then (c + 32)%N else c.

Definition toLowerCase (s : jsstring) : jsstring := List.map lower_unit s.

(** [s.split(sep)] for a separator of one code unit: the pieces between
  the occurrences of [sep]; always at least one piece. *)
Fixpoint split (sep : N) (s : jsstring) : list jsstring :=
  match s with
  | [] => [[]]
  | c :: s' =>
      if N.eqb c sep then [] :: split sep s'
      else match split sep s' with
           | [] => [[c]]
           | piece :: pieces => (c :: piece) :: pieces
           end
  end.

(** A value interpolated in a template literal: [undefined] prints as the
  word. *)
Definition interpolate (v : option jsstring) : jsstring :=
  match v with
  | Some s => s
  | None => lit "undefined"
  end.

(** [!!v] for an optional object. *)
Definition isSome {A} (v : option A) : bool :=
  match v with Some _ => true | None => false end.

Definition AT : N := 64.   (* '@' *)
Definition DOT : N := 46.  (* '.' *)

(** ** The regular expressions of the source

  The only regular expression is a sequence of character classes, each
  taken once or repeated one or more times, between [^] and [$] and
  without flags.  [test] on such an expression asks whether the whole
  string splits into consecutive runs, one per item. *)

Inductive re_item : Type :=
  | Once (cls : N -> bool)
  | OneOrMore (cls : N -> bool).

(** [\s] of ECMAScript: white space and line terminators. *)
Definition re_space (c : N) : bool :=
  ((9 <=? c) && (c <=? 13)      (* \t \n \v \f \r *)
   || (c =? 32)                 (* space *)
   || (c =? 160)                (* U+00A0 *)
   || (c =? 5760)               (* U+1680 *)
   || ((8192 <=? c) && (c <=? 8202))   (* U+2000 - U+200A *)
   || (c =? 8232) || (c =? 8233)       (* U+2028, U+2029 *)
   || (c =? 8239)               (* U+202F *)
   || (c =? 8287)               (* U+205F *)
   || (c =? 12288)              (* U+3000 *)
   || (c =? 65279))%N.          (* U+FEFF *)

(** [[^\s@]] *)
Definition not_space_at (c : N) : bool := negb (re_space c || N.eqb c AT).

(** [\.] and [@] *)
Definition is_unit (u : N) (c : N) : bool := N.eqb c u.

(** Anchored matching, by backtracking over the length of each run. *)
Fixpoint re_test (items : list re_item) : jsstring -> bool :=
  match items with
  | [] => fun s => match s with [] => true | _ :: _ => false end
  | Once cls :: rest =>
      fun s => match s with
               | [] => false
               | c :: s' => cls c && re_test rest s'
               end
  | OneOrMore cls :: rest =>
      fix run (s : jsstring) : bool :=
        match s with
        | [] => false
        | c :: s' => cls c && (re_test rest s' || run s')
        end
  end.

(** [/^[^\s@]+@[^\s@]+\.[^\s@]+$/] *)
Definition emailRegex : list re_item :=
  [ OneOrMore not_space_at; Once (is_unit AT);
    OneOrMore not_space_at; Once (is_unit DOT);
    OneOrMore not_space_at ].

(** [validateEmailFormat(email)] *)
Definition validateEmailFormat (email : jsstring) : bool :=
  re_test emailRegex email.

(** [extractDomain(email)]: [email.split('@')[1]], which is [undefined]
  ([None]) when the string holds no ['@']. *)
Definition extractDomain (email : jsstring) : option jsstring :=
  nth_error (split AT email) 1.

(** ** Values shared by the two modules *)

(** A thrown value: an [Error] instance with its message, or anything
  else. *)
Inductive thrown : Type :=
  | ErrorInstance (message : jsstring)
  | NotAnError.

(** [error instanceof Error ? error.message : fallback] *)
Definition errorMessage (fallback : jsstring) (error : thrown) : jsstring :=
  match error with
  | ErrorInstance message => message
  | NotAnError => fallback
  end.

Record MxRecord : Type := { exchange : jsstring; priority : Z }.

(** [string | string[]] *)
Inductive OneOrMany : Type :=
  | One (address : jsstring)
  | Many (addresses : list jsstring).

(** Truthiness of a [string | string[]]: an array is always truthy. *)
Definition truthyAddresses (v : OneOrMany) : bool :=
  match v with
  | One address => nonempty address
  | Many _ => true
  end.

(** [Array.isArray(v) ? v : [v]] *)
Definition toArray (v : OneOrMany) : list jsstring :=
  match v with
  | One address => [address]
  | Many addresses => addresses
  end.

Inductive AttachmentContent : Type :=
  | BufferContent (bytes : list N)
  | StringContent (text : jsstring).

Record EmailAttachment : Type := {
  filename : jsstring;
  content : AttachmentContent;
  contentType : option jsstring;
  encoding : option jsstring;
  cid : option jsstring
}.

(** The object given to [transporter.sendMail]. *)
Record MailOptions : Type := {
  mail_from : jsstring;
  mail_to : OneOrMany;
  mail_cc : option OneOrMany;
  mail_bcc : option OneOrMany;
  mail_subject : jsstring;
  mail_text : option jsstring;
  mail_html : option jsstring;
  mail_replyTo : option jsstring;
  mail_attachments : option (list EmailAttachment);
  mail_headers : option (list (jsstring * jsstring))
}.

Record SmtpAuth : Type := { user : jsstring; pass : jsstring }.

(** The object given to [nodemailer.createTransport]. *)
Inductive TransportOptions : Type :=
  | SmtpTransport (host : jsstring) (port : Z) (secure : bool)
                  (auth : option SmtpAuth)
                  (tls_rejectUnauthorized : option (option bool))
  | SendmailTransport (newline path : jsstring).

(** A transporter is known by the options it was created with. *)
Record Transporter : Type := { transportOptions : TransportOptions }.

Record SESClient : Type := {
  region : jsstring;
  accessKeyId : jsstring;
  secretAccessKey : jsstring
}.

Record Content : Type := { Charset : jsstring; Data : jsstring }.

Definition utf8 (data : jsstring) : Content :=
  {| Charset := lit "UTF-8"; Data := data |}.

(** The parameters of [SendEmailCommand], flattened. *)
Record SendEmailParams : Type := {
  ToAddresses : list jsstring;
  CcAddresses : option (list jsstring);
  BccAddresses : option (list jsstring);
  BodyHtml : option Content;
  BodyText : option Content;
  Subject : Content;
  Source : jsstring;
  ReplyToAddresses : option (list jsstring)
}.

Inductive SesCommand : Type :=
  | SendEmailCommand (params : SendEmailParams)
  | SendRawEmailCommand (rawMessage : list N).

(** ** Events, oracles and the monad of asynchronous methods *)

Inductive Event : Type :=
  | DateNow
  | ResolveMx (domain : option jsstring)
  | ResolveTxt (name : option jsstring)
  | SesSend (client : SESClient) (command : SesCommand)
  | CreateTransport (options : TransportOptions)
  | TransportVerify (transporter : Transporter)
  | TransportSendMail (transporter : Transporter) (mail : MailOptions)
  | ConsoleLog (line : jsstring).

Definition History := list Event.

Inductive Outcome (A : Type) : Type :=
  | Returned (value : A)
  | Thrown (error : thrown).

Arguments Returned {A} value.
Arguments Thrown {A} error.

(** What [transporter.sendMail] hands back.  [info_message] is the bytes
  that [Buffer.from(info.message)] yields, and [None] when [info] has no
  [message] to make a buffer from: the SMTP and sendmail transports of
  nodemailer report [envelope], [messageId] and [response] only. *)
Record SentMessageInfo : Type := {
  info_messageId : option jsstring;
  info_message : option (list N)
}.

(** The external collaborators.  Each oracle receives the events that
  happened before its call.  The argument of the DNS oracles is the value
  the source passes, which is [undefined] ([None]) when [extractDomain]
  found no domain. *)
Record Env : Type := {
  clock : History -> Z;
  dns_resolveMx : History -> option jsstring -> Outcome (list MxRecord);
  dns_resolveTxt : History -> option jsstring -> Outcome (list (list jsstring));
  ses_send : History -> SESClient -> SesCommand -> Outcome (option jsstring);
  nodemailer_createTransport : History -> TransportOptions -> Outcome Transporter;
  transporter_verify : History -> Transporter -> Outcome unit;
  transporter_sendMail : History -> Transporter -> MailOptions -> Outcome SentMessageInfo
}.

(** A computation reads the history so far and yields its outcome and the
  events it emitted, oldest first. *)
Definition M (A : Type) : Type := History -> Outcome A * list Event.

Definition ret {A} (a : A) : M A := fun _ => (Returned a, []).

Definition bind {A B} (m : M A) (k : A -> M B) : M B :=
  fun h =>
    match m h with
    | (Returned a, evs) =>
        let (r, evs') := k a (h ++ evs) in (r, evs ++ evs')
    | (Thrown e, evs) => (Thrown e, evs)
    end.

(** [try { m } catch (error) { handler }] *)
Definition try_catch {A} (m : M A) (handler : thrown -> M A) : M A :=
  fun h =>
    match m h with
    | (Returned a, evs) => (Returned a, evs)
    | (Thrown e, evs) =>
        let (r, evs') := handler e (h ++ evs) in (r, evs ++ evs')
    end.

(** [throw error] *)
Definition throw {A} (error : thrown) : M A := fun _ => (Thrown error, []).

(** One call to a collaborator. *)
Definition perform {A} (ev : Event) (oracle : History -> Outcome A) : M A :=
  fun h => (oracle h, [ev]).

Declare Scope js_scope.
Delimit Scope js_scope with js.
Notation "x <- m ;; k" := (bind m (fun x => k))
  (at level 100, m at next level, right associativity) : js_scope.
Notation "m ;;; k" := (bind m (fun _ => k))
  (at level 100, right associativity) : js_scope.
Open Scope js_scope.

(** ** Promises made by hand

  An [await] on a call of a collaborator settles: the oracle returns or
  throws.  A promise built with [new Promise] settles only when its
  executor gets to call [resolve] or [reject]; a method that awaits a
  promise that stays pending never completes, and nothing after the
  [await] runs, a [catch] included. *)
Inductive Completion (A : Type) : Type :=
  | Settled (outcome : Outcome A)
  | Pending.

Arguments Settled {A} outcome.
Arguments Pending {A}.

Definition Async (A : Type) : Type := History -> Completion A * list Event.

(** A computation that cannot stay pending. *)
Definition settles {A} (m : M A) : Async A :=
  fun h => let (outcome, evs) := m h in (Settled outcome, evs).

Definition resolved {A} (a : A) : Async A :=
  fun _ => (Settled (Returned a), []).

Definition andThen {A B} (m : Async A) (k : A -> Async B) : Async B :=
  fun h =>
    match m h with
    | (Settled (Returned a), evs) =>
        let (r, evs') := k a (h ++ evs) in (r, evs ++ evs')
    | (Settled (Thrown e), evs) => (Settled (Thrown e), evs)
    | (Pending, evs) => (Pending, evs)
    end.

(** [try { m } catch (error) { handler }] around awaited promises. *)
Definition try_await {A} (m : Async A) (handler : thrown -> Async A) : Async A :=
  fun h =>
    match m h with
    | (Settled (Returned a), evs) => (Settled (Returned a), evs)
    | (Settled (Thrown e), evs) =>
        let (r, evs') := handler e (h ++ evs) in (r, evs ++ evs')
    | (Pending, evs) => (Pending, evs)
    end.

Notation "x <~ m ;; k" := (andThen m (fun x => k))
  (at level 100, m at next level, right associativity) : js_scope.
Notation "m ~;; k" := (andThen m (fun _ => k))
  (at level 100, right associativity) : js_scope.

Section Collaborators.

Variable env : Env.

Definition Date_now : M Z :=
  perform DateNow (fun h => Returned (clock env h)).

Definition resolveMx (domain : option jsstring) : M (list MxRecord) :=
  perform (ResolveMx domain) (fun h => dns_resolveMx env h domain).

Definition resolveTxt (name : option jsstring) : M (list (list jsstring)) :=
  perform (ResolveTxt name) (fun h => dns_resolveTxt env h name).

Definition sesClient_send (client : SESClient) (command : SesCommand)
  : M (option jsstring) :=
  perform (SesSend client command) (fun h => ses_send env h client command).

Definition createTransport (options : TransportOptions) : M Transporter :=
  perform (CreateTransport options)
          (fun h => nodemailer_createTransport env h options).

Definition verify (transporter : Transporter) : M unit :=
  perform (TransportVerify transporter)
          (fun h => transporter_verify env h transporter).

Definition sendMail (transporter : Transporter) (mail : MailOptions)
  : M SentMessageInfo :=
  perform (TransportSendMail transporter mail)
          (fun h => transporter_sendMail env h transporter mail).

Definition console_log (line : jsstring) : M unit :=
  perform (ConsoleLog line) (fun _ => Returned tt).

End Collaborators.

(** The events that reach a delivery backend. *)
Definition backendEvent (ev : Event) : bool :=
  match ev with
  | SesSend _ _ | CreateTransport _ | TransportVerify _
  | TransportSendMail _ _ => true
  | DateNow | ResolveMx _ | ResolveTxt _ | ConsoleLog _ => false
  end.

Definition sesEvent (ev : Event) : bool :=
  match ev with SesSend _ _ => true | _ => false end.

Definition transportEvent (ev : Event) : bool :=
  match ev with
  | CreateTransport _ | TransportVerify _ | TransportSendMail _ _ => true
  | _ => false
  end.

Definition dnsEvent (ev : Event) : bool :=
  match ev with ResolveMx _ | ResolveTxt _ => true | _ => false end.

Definition consoleEvent (ev : Event) : bool :=
  match ev with ConsoleLog _ => true | _ => false end.

(** [transporter.verify()], the first step of every SMTP delivery. *)
Definition verifyEvent (ev : Event) : bool :=
  match ev with TransportVerify _ => true | _ => false end.

(** ** [email-tester.ts] *)

Module Tester.

Record SmtpConfig : Type := {
  host : jsstring;
  port : Z;
  secure : bool;
  auth : option SmtpAuth
}.

Definition transportOf (c : SmtpConfig) : TransportOptions :=
  SmtpTransport (host c) (port c) (secure c) (auth c) None.

Record TestMessage : Type := {
  subject : jsstring;
  text : jsstring;
  html : option jsstring
}.

Inductive Provider : Type := AwsSes | Smtp | Both.

Record EmailTestConfig : Type := {
  email : jsstring;
  provider : option Provider;
  smtpConfig : option SmtpConfig;
  testMessage : option TestMessage;
  skipActualDelivery : option bool
}.

(** One entry of [DeliveryTestResults]. *)
Record Delivery : Type := {
  success : bool;
  messageId : option jsstring;
  error : option jsstring
}.

Record DeliveryTestResults : Type := {
  awsSes : option Delivery;
  smtp : option Delivery
}.

(** The object literal [{}]. *)
Definition noTests : DeliveryTestResults := {| awsSes := None; smtp := None |}.

Record EmailTestResult : Type := {
  r_email : jsstring;
  isValid : bool;
  domainExists : bool;
  mxRecords : list MxRecord;
  spfRecord : option jsstring;
  dmarcRecord : option jsstring;
  deliverabilityTests : DeliveryTestResults;
  recommendations : list jsstring;
  testDuration : option Z
}.

(** [Partial<EmailTestResult>]: the object under construction, every
    property of which may still be missing. *)
Record PartialResult : Type := {
  p_email : option jsstring;
  p_isValid : option bool;
  p_domainExists : option bool;
  p_mxRecords : option (list MxRecord);
  p_spfRecord : option jsstring;
  p_dmarcRecord : option jsstring;
  p_deliverabilityTests : option DeliveryTestResults;
  p_recommendations : option (list jsstring);
  p_testDuration : option Z
}.

Record BatchTestResult : Type := {
  successful : nat;
  failed : nat;
  total : nat;
  results : list EmailTestResult;
  duration : Z
}.

Record InvalidEmail : Type := { i_email : jsstring; issues : list jsstring }.

Record Summary : Type := { s_total : nat; s_valid : nat; s_invalid : nat }.

Record EmailValidationResult : Type := {
  validEmails : list jsstring;
  invalidEmails : list InvalidEmail;
  summary : Summary
}.

(** The fields of an instance after construction. *)
Record EmailDeliverabilityTester : Type := {
  sesClient : option SESClient;
  defaultFromEmail : jsstring
}.

(** Assignments to the properties of the object under construction. *)
Definition set_isValid (v : bool) (r : PartialResult) : PartialResult :=
  {| p_email := p_email r; p_isValid := Some v;
     p_domainExists := p_domainExists r; p_mxRecords := p_mxRecords r;
     p_spfRecord := p_spfRecord r; p_dmarcRecord := p_dmarcRecord r;
     p_deliverabilityTests := p_deliverabilityTests r;
     p_recommendations := p_recommendations r;
     p_testDuration := p_testDuration r |}.

Definition set_domainExists (v : bool) (r : PartialResult) : PartialResult :=
  {| p_email := p_email r; p_isValid := p_isValid r;
     p_domainExists := Some v; p_mxRecords := p_mxRecords r;
     p_spfRecord := p_spfRecord r; p_dmarcRecord := p_dmarcRecord r;
     p_deliverabilityTests := p_deliverabilityTests r;
     p_recommendations := p_recommendations r;
     p_testDuration := p_testDuration r |}.

Definition set_mxRecords (v : list MxRecord) (r : PartialResult) : PartialResult :=
  {| p_email := p_email r; p_isValid := p_isValid r;
     p_domainExists := p_domainExists r; p_mxRecords := Some v;
     p_spfRecord := p_spfRecord r; p_dmarcRecord := p_dmarcRecord r;
     p_deliverabilityTests := p_deliverabilityTests r;
     p_recommendations := p_recommendations r;
     p_testDuration := p_testDuration r |}.

Definition set_spfRecord (v : option jsstring) (r : PartialResult) : PartialResult :=
  {| p_email := p_email r; p_isValid := p_isValid r;
     p_domainExists := p_domainExists r; p_mxRecords := p_mxRecords r;
     p_spfRecord := v; p_dmarcRecord := p_dmarcRecord r;
     p_deliverabilityTests := p_deliverabilityTests r;
     p_recommendations := p_recommendations r;
     p_testDuration := p_testDuration r |}.

Definition set_dmarcRecord (v : option jsstring) (r : PartialResult) : PartialResult :=
  {| p_email := p_email r; p_isValid := p_isValid r;
     p_domainExists := p_domainExists r; p_mxRecords := p_mxRecords r;
     p_spfRecord := p_spfRecord r; p_dmarcRecord := v;
     p_deliverabilityTests := p_deliverabilityTests r;
     p_recommendations := p_recommendations r;
     p_testDuration := p_testDuration r |}.

Definition set_deliverabilityTests (v : DeliveryTestResults) (r : PartialResult)
  : PartialResult :=
  {| p_email := p_email r; p_isValid := p_isValid r;
     p_domainExists := p_domainExists r; p_mxRecords := p_mxRecords r;
     p_spfRecord := p_spfRecord r; p_dmarcRecord := p_dmarcRecord r;
     p_deliverabilityTests := Some v;
     p_recommendations := p_recommendations r;
     p_testDuration := p_testDuration r |}.

Definition set_recommendations (v : list jsstring) (r : PartialResult)
  : PartialResult :=
  {| p_email := p_email r; p_isValid := p_isValid r;
     p_domainExists := p_domainExists r; p_mxRecords := p_mxRecords r;
     p_spfRecord := p_spfRecord r; p_dmarcRecord := p_dmarcRecord r;
     p_deliverabilityTests := p_deliverabilityTests r;
     p_recommendations := Some v;
     p_testDuration := p_testDuration r |}.

Definition set_testDuration (v : Z) (r : PartialResult) : PartialResult :=
  {| p_email := p_email r; p_isValid := p_isValid r;
     p_domainExists := p_domainExists r; p_mxRecords := p_mxRecords r;
     p_spfRecord := p_spfRecord r; p_dmarcRecord := p_dmarcRecord r;
     p_deliverabilityTests := p_deliverabilityTests r;
     p_recommendations := p_recommendations r;
     p_testDuration := Some v |}.

(** [result.deliverabilityTests.awsSes = v] and [....smtp = v]; the
    source makes sure the nested object exists before it assigns. *)
Definition set_awsSes (v : Delivery) (r : PartialResult) : PartialResult :=
  match p_deliverabilityTests r with
  | Some tests =>
      set_deliverabilityTests {| awsSes := Some v; smtp := smtp tests |} r
  | None => r
  end.

Definition set_smtp (v : Delivery) (r : PartialResult) : PartialResult :=
  match p_deliverabilityTests r with
  | Some tests =>
      set_deliverabilityTests {| awsSes := awsSes tests; smtp := Some v |} r
  | None => r
  end.

(** Every property the interface requires is present. *)
Definition complete (r : PartialResult) : bool :=
  match p_email r, p_isValid r, p_domainExists r, p_mxRecords r,
        p_deliverabilityTests r, p_recommendations r with
  | Some _, Some _, Some _, Some _, Some _, Some _ => true
  | _, _, _, _, _, _ => false
  end.

(** [result as EmailTestResult]: a cast, which reads the properties as
    they are.  On a [complete] object nothing is invented; the values
    given here to missing required properties are never observed
    (see [testEmailDeliverability_complete]). *)
Definition asEmailTestResult (r : PartialResult) : EmailTestResult :=
  {| r_email := match p_email r with Some v => v | None => [] end;
     isValid := match p_isValid r with Some v => v | None => false end;
     domainExists := match p_domainExists r with Some v => v | None => false end;
     mxRecords := match p_mxRecords r with Some v => v | None => [] end;
     spfRecord := p_spfRecord r;
     dmarcRecord := p_dmarcRecord r;
     deliverabilityTests :=
       match p_deliverabilityTests r with Some v => v | None => noTests end;
     recommendations :=
       match p_recommendations r with Some v => v | None => [] end;
     testDuration := p_testDuration r |}.

(** The object as [generateRecommendations] sees it at the end of
  [testEmailDeliverability]: the result without its last two
  properties. *)
Definition beforeRecommendations (r : EmailTestResult) : PartialResult :=
  {| p_email := Some (r_email r);
     p_isValid := Some (isValid r);
     p_domainExists := Some (domainExists r);
     p_mxRecords := Some (mxRecords r);
     p_spfRecord := spfRecord r;
     p_dmarcRecord := dmarcRecord r;
     p_deliverabilityTests := Some (deliverabilityTests r);
     p_recommendations := None;
     p_testDuration := None |}.

(** Truthiness of optional properties. *)
Definition truthyBool (v : option bool) : bool :=
  match v with Some b => b | None => false end.

Definition truthyString (v : option jsstring) : bool :=
  match v with Some s => nonempty s | None => false end.

(** [a || b] on strings, [a] optional. *)
Definition orElse (a : option jsstring) (b : jsstring) : jsstring :=
  match a with
  | Some s => if nonempty s then s else b
  | None => b
  end.

(** [tests?.entry?.success === false] *)
Definition failedDelivery (entry : option Delivery) : bool :=
  match entry with
  | Some d => negb (success d)
  | None => false
  end.

Definition deliveryError (entry : option Delivery) : option jsstring :=
  match entry with
  | Some d => error d
  | None => None
  end.

Definition msgInvalidFormat : jsstring :=
  lit "Email format is invalid. Please check the email address.".
Definition msgNoDomain : jsstring :=
  lit "Domain does not exist or has no MX records. Check domain configuration.".
Definition msgNoMx : jsstring :=
  lit "No MX records found. Email delivery may fail.".
Definition msgNoSpf : jsstring :=
  lit "No SPF record found. Consider adding an SPF record to improve deliverability.".
Definition msgNoDmarc : jsstring :=
  lit "No DMARC record found. Consider adding a DMARC policy for better email security.".
Definition msgSesFailed (err : option jsstring) : jsstring :=
  lit "AWS SES delivery failed: " ++ interpolate err.
Definition msgSmtpFailed (err : option jsstring) : jsstring :=
  lit "SMTP delivery failed: " ++ interpolate err.
Definition msgDeliverable : jsstring :=
  lit "Email appears to be deliverable. All tests passed successfully.".

(** [recommendations.push(line)] when [test] holds. *)
Definition pushIf (test : bool) (line : jsstring) (recommendations : list jsstring)
  : list jsstring :=
  if test then recommendations ++ [line] else recommendations.

(** [generateRecommendations(result)] *)
Definition generateRecommendations (result : PartialResult) : list jsstring :=
  let recommendations := [] in
  let recommendations :=
    pushIf (negb (truthyBool (p_isValid result))) msgInvalidFormat recommendations in
  let recommendations :=
    pushIf (negb (truthyBool (p_domainExists result))) msgNoDomain recommendations in
  let recommendations :=
    pushIf (match p_mxRecords result with
            | Some mx => (List.length mx =? 0)%nat
            | None => false
            end) msgNoMx recommendations in
  let recommendations :=
    pushIf (negb (truthyString (p_spfRecord result))) msgNoSpf recommendations in
  let recommendations :=
    pushIf (negb (truthyString (p_dmarcRecord result))) msgNoDmarc recommendations in
  let tests :=
    match p_deliverabilityTests result with Some t => t | None => noTests end in
  let recommendations :=
    pushIf (failedDelivery (awsSes tests))
           (msgSesFailed (deliveryError (awsSes tests))) recommendations in
  let recommendations :=
    pushIf (failedDelivery (smtp tests))
           (msgSmtpFailed (deliveryError (smtp tests))) recommendations in
  pushIf (List.length recommendations =? 0)%nat msgDeliverable recommendations.

Section Methods.

Variable env : Env.
Variable self : EmailDeliverabilityTester.

(** [checkDomainAndMX(domain)].  [mxRecords || []] is [mxRecords]: an
    array is truthy. *)
Definition checkDomainAndMX (domain : option jsstring)
  : M (bool * list MxRecord) :=
  try_catch
    (mxRecords <- resolveMx env domain ;;
     ret (true, mxRecords))
    (fun _ => ret (false, [])).

(** The callback of [txtRecords.find]: some chunk of the record starts,
    in lower case, with [prefix]. *)
Definition recordStartsWith (prefix : jsstring) (record : list jsstring) : bool :=
  existsb (fun txt => startsWith (toLowerCase txt) prefix) record.

(** [found ? found.join('') : undefined] *)
Definition joined (found : option (list jsstring)) : option jsstring :=
  match found with
  | Some record => Some (join record)
  | None => None
  end.

(** [checkSpfRecord(domain)] *)
Definition checkSpfRecord (domain : option jsstring) : M (option jsstring) :=
  try_catch
    (txtRecords <- resolveTxt env domain ;;
     let spfRecord := find (recordStartsWith (lit "v=spf1")) txtRecords in
     ret (joined spfRecord))
    (fun _ => ret None).

(** [checkDmarcRecord(domain)] *)
Definition checkDmarcRecord (domain : option jsstring) : M (option jsstring) :=
  try_catch
    (let dmarcDomain := lit "_dmarc." ++ interpolate domain in
     txtRecords <- resolveTxt env (Some dmarcDomain) ;;
     let dmarcRecord := find (recordStartsWith (lit "v=dmarc1")) txtRecords in
     ret (joined dmarcRecord))
    (fun _ => ret None).

Definition defaultMessage (config : EmailTestConfig) : TestMessage :=
  {| subject := lit "Email Deliverability Test";
     text := lit "This is a test email to verify deliverability for "
             ++ email config;
     html := Some (lit "<p>This is a test email to verify deliverability for <strong>"
                   ++ email config ++ lit "</strong></p>") |}.

(** [config.testMessage || defaultMessage] *)
Definition messageOf (config : EmailTestConfig) : TestMessage :=
  match testMessage config with
  | Some message => message
  | None => defaultMessage config
  end.

Definition notConfigured (reason : jsstring) : Delivery :=
  {| success := false; messageId := None; error := Some reason |}.

Definition skipped : Delivery :=
  {| success := true; messageId := Some (lit "skipped-test-mode"); error := None |}.

Definition delivered (id : option jsstring) : Delivery :=
  {| success := true; messageId := id; error := None |}.

Definition notDelivered (err : thrown) : Delivery :=
  {| success := false; messageId := None;
     error := Some (errorMessage (lit "Unknown error") err) |}.

(** [testAwsSesDelivery(config)] *)
Definition testAwsSesDelivery (config : EmailTestConfig) : M Delivery :=
  match sesClient self with
  | None => ret (notConfigured (lit "AWS SES not configured"))
  | Some client =>
      if truthyBool (skipActualDelivery config) then ret skipped
      else
        let message := messageOf config in
        let params :=
          {| ToAddresses := [email config];
             CcAddresses := None;
             BccAddresses := None;
             BodyHtml := Some (utf8 (orElse (html message) (text message)));
             BodyText := Some (utf8 (text message));
             Subject := utf8 (subject message);
             Source := defaultFromEmail self;
             ReplyToAddresses := None |} in
        try_catch
          (let command := SendEmailCommand params in
           response <- sesClient_send env client command ;;
           ret (delivered response))
          (fun error => ret (notDelivered error))
  end.

(** [testSmtpDelivery(config)] *)
Definition testSmtpDelivery (config : EmailTestConfig) : M Delivery :=
  match smtpConfig config with
  | None => ret (notConfigured (lit "SMTP configuration not provided"))
  | Some smtpConfig =>
      if truthyBool (skipActualDelivery config) then ret skipped
      else
        let message := messageOf config in
        try_catch
          (transporter <- createTransport env (transportOf smtpConfig) ;;
           verify env transporter ;;;
           info <- sendMail env transporter
             {| mail_from :=
                  orElse (option_map user (auth smtpConfig))
                         (defaultFromEmail self);
                mail_to := One (email config);
                mail_cc := None;
                mail_bcc := None;
                mail_subject := subject message;
                mail_text := Some (text message);
                mail_html := Some (orElse (html message) (text message));
                mail_replyTo := None;
                mail_attachments := None;
                mail_headers := None |} ;;
           ret (delivered (info_messageId info)))
          (fun error => ret (notDelivered error))
  end.

(** [config.provider || 'both'] *)
Definition providerOf (config : EmailTestConfig) : Provider :=
  match provider config with
  | Some p => p
  | None => Both
  end.

Definition wantsAwsSes (p : Provider) : bool :=
  match p with AwsSes | Both => true | Smtp => false end.

Definition wantsSmtp (p : Provider) : bool :=
  match p with Smtp | Both => true | AwsSes => false end.

(** [testEmailDeliverability(config)] *)
Definition testEmailDeliverability (config : EmailTestConfig)
  : M EmailTestResult :=
  startTime <- Date_now env ;;
  let result :=
    {| p_email := Some (email config); p_isValid := None;
       p_domainExists := None; p_mxRecords := None;
       p_spfRecord := None; p_dmarcRecord := None;
       p_deliverabilityTests := Some noTests;
       p_recommendations := None; p_testDuration := None |} in
  let result := set_isValid (validateEmailFormat (email config)) result in
  if negb (truthyBool (p_isValid result)) then
    let result := set_domainExists false result in
    let result := set_mxRecords [] result in
    let result := set_recommendations (generateRecommendations result) result in
    now <- Date_now env ;;
    let result := set_testDuration (now - startTime) result in
    ret (asEmailTestResult result)
  else
    let domain := extractDomain (email config) in
    domainCheck <- checkDomainAndMX domain ;;
    let result := set_domainExists (fst domainCheck) result in
    let result := set_mxRecords (snd domainCheck) result in
    spf <- checkSpfRecord domain ;;
    let result := set_spfRecord spf result in
    dmarc <- checkDmarcRecord domain ;;
    let result := set_dmarcRecord dmarc result in
    let result :=
      match p_deliverabilityTests result with
      | Some _ => result
      | None => set_deliverabilityTests noTests result
      end in
    let provider := providerOf config in
    result <-
      (if wantsAwsSes provider then
         delivery <- testAwsSesDelivery config ;;
         ret (set_awsSes delivery result)
       else ret result) ;;
    result <-
      (if wantsSmtp provider then
         delivery <- testSmtpDelivery config ;;
         ret (set_smtp delivery result)
       else ret result) ;;
    let result := set_recommendations (generateRecommendations result) result in
    now <- Date_now env ;;
    let result := set_testDuration (now - startTime) result in
    ret (asEmailTestResult result).

(** [result.isValid && result.domainExists && result.mxRecords.length > 0] *)
Definition isDeliverable (result : EmailTestResult) : bool :=
  isValid result && domainExists result
  && (0 <? List.length (mxRecords result))%nat.

(** The result pushed by the [catch] of the batch loop. *)
Definition errorResult (config : EmailTestConfig) (error : thrown)
  : EmailTestResult :=
  {| r_email := email config;
     isValid := false;
     domainExists := false;
     mxRecords := [];
     spfRecord := None;
     dmarcRecord := None;
     deliverabilityTests := noTests;
     recommendations :=
       [lit "Error testing email: " ++ errorMessage (lit "Unknown error") error];
     testDuration := None |}.

(** The local variables [results], [successful], [failed] of
    [testMultipleEmails]. *)
Record Tally : Type := {
  t_results : list EmailTestResult;
  t_successful : nat;
  t_failed : nat
}.

(** The batch methods call [this.testEmailDeliverability]; the method
    that is called is a parameter here, so that the [try]/[catch] of
    the loop is specified for any per-item test, one that throws
    included. *)
Section Batch.

Variable test : EmailTestConfig -> M EmailTestResult.

(** The body of [for (const config of configs)].  Nothing that
    follows the call of the test inside [try] can throw, so the
    [catch] sees the variables as they were before the iteration. *)
Definition iteration (config : EmailTestConfig) (acc : Tally) : M Tally :=
  try_catch
    (result <- test config ;;
     let results := t_results acc ++ [result] in
     if isDeliverable result then
       ret {| t_results := results;
              t_successful := S (t_successful acc);
              t_failed := t_failed acc |}
     else
       ret {| t_results := results;
              t_successful := t_successful acc;
              t_failed := S (t_failed acc) |})
    (fun error =>
       ret {| t_results := t_results acc ++ [errorResult config error];
              t_successful := t_successful acc;
              t_failed := S (t_failed acc) |}).

Fixpoint loop (configs : list EmailTestConfig) (acc : Tally) : M Tally :=
  match configs with
  | [] => ret acc
  | config :: rest =>
      acc' <- iteration config acc ;;
      loop rest acc'
  end.

(** [testMultipleEmails(configs)] *)
Definition testMultipleEmailsWith (configs : list EmailTestConfig)
  : M BatchTestResult :=
  startTime <- Date_now env ;;
  acc <- loop configs
           {| t_results := []; t_successful := 0; t_failed := 0 |} ;;
  now <- Date_now env ;;
  ret {| successful := t_successful acc;
         failed := t_failed acc;
         total := List.length configs;
         results := t_results acc;
         duration := now - startTime |}.

(** The callback of [batchResult.results.forEach]. *)
Definition classify (acc : list jsstring * list InvalidEmail)
           (result : EmailTestResult) : list jsstring * list InvalidEmail :=
  let isValid :=
    isValid result && domainExists result
    && (0 <? List.length (mxRecords result))%nat in
  if isValid then (fst acc ++ [r_email result], snd acc)
  else
    (fst acc,
     snd acc ++
       [{| i_email := r_email result;
           issues := filter (fun r => negb (includes r (lit "successfully")))
                            (recommendations result) |}]).

(** [validateEmails(emails)] *)
Definition validateEmailsWith (emails : list jsstring)
  : M EmailValidationResult :=
  let configs :=
    List.map (fun email =>
                {| email := email; provider := None; smtpConfig := None;
                   testMessage := None; skipActualDelivery := Some true |})
             emails in
  batchResult <- testMultipleEmailsWith configs ;;
  let lists := fold_left classify (results batchResult) ([], []) in
  let validEmails := fst lists in
  let invalidEmails := snd lists in
  ret {| validEmails := validEmails;
         invalidEmails := invalidEmails;
         summary := {| s_total := List.length emails;
                       s_valid := List.length validEmails;
                       s_invalid := List.length invalidEmails |} |}.

End Batch.

Definition testMultipleEmails : list EmailTestConfig -> M BatchTestResult :=
  testMultipleEmailsWith testEmailDeliverability.

Definition validateEmails : list jsstring -> M EmailValidationResult :=
  validateEmailsWith testEmailDeliverability.

(** [isAwsSesConfigured()] *)
Definition isAwsSesConfigured : bool :=
  match sesClient self with Some _ => true | None => false end.

End Methods.

(** [setDefaultFromEmail(email)] *)
Definition setDefaultFromEmail (address : jsstring)
           (self : EmailDeliverabilityTester) : EmailDeliverabilityTester :=
  {| sesClient := sesClient self; defaultFromEmail := address |}.

End Tester.

(** ** [email-sender.ts] *)

Module Sender.

Record EmailOptions : Type := {
  to : OneOrMany;
  from : option jsstring;
  subject : jsstring;
  text : option jsstring;
  html : option jsstring;
  cc : option OneOrMany;
  bcc : option OneOrMany;
  replyTo : option jsstring;
  attachments : option (list EmailAttachment);
  headers : option (list (jsstring * jsstring))
}.

Inductive Provider : Type := AwsSes | Smtp.

Record EmailSendResult : Type := {
  success : bool;
  messageId : option jsstring;
  error : option jsstring;
  provider : Provider
}.

(** The fields of an instance after construction. *)
Record EmailSender : Type := {
  sesClient : option SESClient;
  smtpTransporter : option Transporter;
  defaultFromEmail : jsstring
}.

Definition failure (reason : jsstring) (p : Provider) : EmailSendResult :=
  {| success := false; messageId := None; error := Some reason; provider := p |}.

Definition sent (id : option jsstring) (p : Provider) : EmailSendResult :=
  {| success := true; messageId := id; error := None; provider := p |}.

(** [a || b] on strings, [a] optional. *)
Definition orElse (a : option jsstring) (b : jsstring) : jsstring :=
  match a with
  | Some s => if nonempty s then s else b
  | None => b
  end.

(** [v ? (Array.isArray(v) ? v : [v]) : undefined] *)
Definition addressList (v : option OneOrMany) : option (list jsstring) :=
  match v with
  | Some a => if truthyAddresses a then Some (toArray a) else None
  | None => None
  end.

(** [s ? f(s) : undefined] for an optional string [s]. *)
Definition whenString {A} (s : option jsstring) (f : jsstring -> A) : option A :=
  match s with
  | Some v => if nonempty v then Some (f v) else None
  | None => None
  end.

(** [emailOptions.attachments && emailOptions.attachments.length > 0] *)
Definition hasAttachments (o : EmailOptions) : bool :=
  match attachments o with
  | Some l => (0 <? List.length l)%nat
  | None => false
  end.

Definition msgSesNotConfigured : jsstring :=
  lit "AWS SES not configured. Please provide AWS credentials.".
Definition msgSmtpNotConfigured : jsstring :=
  lit "SMTP not configured. Please provide SMTP configuration.".
Definition msgNoProvider : jsstring :=
  lit "No email provider configured. Please configure AWS SES or SMTP.".

(** The first characters of the console lines, as the source file has
    them. *)
Definition markCalled : jsstring := [240; 376; 8221; 167]%N.
Definition markUsing : jsstring := [240; 376; 8220; 164]%N.

(** The lines [send] logs before it calls a backend. *)
Definition lineExplicitSes : jsstring :=
  markUsing ++ lit " Using AWS SES (explicitly requested)".
Definition lineExplicitSmtp : jsstring :=
  markUsing ++ lit " Using SMTP (explicitly requested)".
Definition lineTryingSes : jsstring :=
  markUsing ++ lit " Auto-detecting: Trying AWS SES first".
Definition lineUsingSmtp : jsstring :=
  markUsing ++ lit " Auto-detecting: Using SMTP".

Definition showBool (b : bool) : jsstring :=
  if b then lit "true" else lit "false".

Section Methods.

Variable env : Env.
Variable self : EmailSender.

(** The object built for [sendMail] by both backends. *)
Definition mailOptionsOf (o : EmailOptions) : MailOptions :=
  {| mail_from := orElse (from o) (defaultFromEmail self);
     mail_to := to o;
     mail_cc := cc o;
     mail_bcc := bcc o;
     mail_subject := subject o;
     mail_text := text o;
     mail_html := html o;
     mail_replyTo := replyTo o;
     mail_attachments := attachments o;
     mail_headers := headers o |}.

(** The promise that [sendRawEmailWithSes] builds by hand:

    [new Promise((resolve, reject) =>
       tempTransporter.sendMail(mailOptions, (error, info) =>
         { if (error) reject(error); else resolve(Buffer.from(info.message)); }))]

    An error rejects it, and an [info] with a [message] resolves it with
    the bytes.  On an [info] without [message], [Buffer.from(undefined)]
    throws inside the callback, which runs after the executor has returned
    and outside every [try]: neither [resolve] nor [reject] is called, and
    the promise stays pending. *)
Definition rawEmailOf (tempTransporter : Transporter) (mailOptions : MailOptions)
  : Async (list N) :=
  fun h =>
    (match transporter_sendMail env h tempTransporter mailOptions with
     | Thrown error => Settled (Thrown error)
     | Returned info =>
         match info_message info with
         | Some bytes => Settled (Returned bytes)
         | None => Pending
         end
     end,
     [TransportSendMail tempTransporter mailOptions]).

(** [sendRawEmailWithSes(emailOptions)].  [this.sesClient!.send] on a
    missing client is a [TypeError], raised inside the [try]. *)
Definition sendRawEmailWithSes (emailOptions : EmailOptions)
  : Async EmailSendResult :=
  try_await
    (tempTransporter <~
       settles (createTransport env
                  (SendmailTransport (lit "unix") (lit "/usr/sbin/sendmail"))) ;;
     let mailOptions := mailOptionsOf emailOptions in
     rawEmail <~ rawEmailOf tempTransporter mailOptions ;;
     let command := SendRawEmailCommand rawEmail in
     response <~
       settles
         match sesClient self with
         | Some client => sesClient_send env client command
         | None =>
             throw (ErrorInstance
                      (lit "Cannot read properties of undefined (reading 'send')"))
         end ;;
     resolved (sent response AwsSes))
    (fun error =>
       resolved (failure (errorMessage (lit "Unknown AWS SES raw email error") error)
                         AwsSes)).

(** [sendWithSes(emailOptions)] *)
Definition sendWithSes (emailOptions : EmailOptions) : Async EmailSendResult :=
  match sesClient self with
  | None => resolved (failure msgSesNotConfigured AwsSes)
  | Some client =>
      try_await
        (let toAddresses := toArray (to emailOptions) in
         let ccAddresses := addressList (cc emailOptions) in
         let bccAddresses := addressList (bcc emailOptions) in
         if hasAttachments emailOptions then
           sendRawEmailWithSes emailOptions
         else
           let params :=
             {| ToAddresses := toAddresses;
                CcAddresses := ccAddresses;
                BccAddresses := bccAddresses;
                BodyHtml := whenString (html emailOptions) utf8;
                BodyText := whenString (text emailOptions) utf8;
                Subject := utf8 (subject emailOptions);
                Source := orElse (from emailOptions) (defaultFromEmail self);
                ReplyToAddresses :=
                  whenString (replyTo emailOptions) (fun r => [r]) |} in
           let command := SendEmailCommand params in
           response <~ settles (sesClient_send env client command) ;;
           resolved (sent response AwsSes))
        (fun error =>
           resolved (failure (errorMessage (lit "Unknown AWS SES error") error)
                             AwsSes))
  end.

(** [sendWithSmtp(emailOptions)] *)
Definition sendWithSmtp (emailOptions : EmailOptions) : M EmailSendResult :=
  match smtpTransporter self with
  | None => ret (failure msgSmtpNotConfigured Smtp)
  | Some transporter =>
      try_catch
        (verify env transporter ;;;
         let mailOptions := mailOptionsOf emailOptions in
         info <- sendMail env transporter mailOptions ;;
         ret (sent (info_messageId info) Smtp))
        (fun error =>
           ret (failure (errorMessage (lit "Unknown SMTP error") error) Smtp))
  end.

(** [provider || 'auto-detect'] *)
Definition providerName (requested : option Provider) : jsstring :=
  match requested with
  | Some AwsSes => lit "aws-ses"
  | Some Smtp => lit "smtp"
  | None => lit "auto-detect"
  end.

(** The three lines logged at the start of [send]. *)
Definition logCall (requested : option Provider) : M unit :=
  console_log (markCalled ++ lit " EmailSender.send() called with provider: "
               ++ providerName requested) ;;;
  console_log (lit "   SES Client configured: "
               ++ showBool (isSome (sesClient self))) ;;;
  console_log (lit "   SMTP Transporter configured: "
               ++ showBool (isSome (smtpTransporter self))).

(** The automatic part of [send]: the SMTP step and the last [return]. *)
Definition smtpOrNone (emailOptions : EmailOptions) : M EmailSendResult :=
  match smtpTransporter self with
  | Some _ =>
      console_log lineUsingSmtp ;;;
      sendWithSmtp emailOptions
  | None => ret (failure msgNoProvider AwsSes)
  end.

(** [send(emailOptions, provider)] *)
Definition send (emailOptions : EmailOptions) (requested : option Provider)
  : Async EmailSendResult :=
  settles (logCall requested) ~;;
  match requested with
  | Some AwsSes =>
      settles (console_log lineExplicitSes) ~;;
      sendWithSes emailOptions
  | Some Smtp =>
      settles (console_log lineExplicitSmtp) ~;;
      settles (sendWithSmtp emailOptions)
  | None =>
      match sesClient self with
      | Some _ =>
          settles (console_log lineTryingSes) ~;;
          sesResult <~ sendWithSes emailOptions ;;
          if success sesResult then resolved sesResult
          else settles (smtpOrNone emailOptions)
      | None => settles (smtpOrNone emailOptions)
      end
  end.

End Methods.

End Sender.

(** ** Concrete environments and inputs

  Used to run the embedding on explicit inputs. *)

Module Scenario.

Definition asIs (options : TransportOptions) : Transporter :=
  {| transportOptions := options |}.

Definition gmailMx : list MxRecord :=
  [ {| exchange := lit "gmail-smtp-in.l.google.com"; priority := 5 |} ].

(** No network: every lookup and every backend call throws. *)
Definition offline : Env :=
  {| clock := fun h => Z.of_nat (List.length h);
     dns_resolveMx := fun _ _ => Thrown (ErrorInstance (lit "queryMx ENOTFOUND"));
     dns_resolveTxt := fun _ _ => Thrown (ErrorInstance (lit "queryTxt ENOTFOUND"));
     ses_send := fun _ _ _ => Thrown (ErrorInstance (lit "getaddrinfo ENOTFOUND"));
     nodemailer_createTransport := fun _ o => Returned (asIs o);
     transporter_verify := fun _ _ => Thrown (ErrorInstance (lit "connect ECONNREFUSED"));
     transporter_sendMail := fun _ _ _ => Thrown (ErrorInstance (lit "connect ECONNREFUSED")) |}.

(** A network where [gmail.com] has one MX record and an SPF record, and
    where both backends accept what they are given; a transporter reports
    what the SMTP and sendmail transports report, an [info] without
    [message]. *)
Definition online : Env :=
  {| clock := fun h => Z.of_nat (List.length h);
     dns_resolveMx := fun _ d =>
       match d with
       | Some name =>
           if jsstring_eqb name (lit "gmail.com") then Returned gmailMx
           else Thrown (ErrorInstance (lit "queryMx ENOTFOUND"))
       | None => Thrown (ErrorInstance (lit "The name argument must be of type string"))
       end;
     dns_resolveTxt := fun _ d =>
       match d with
       | Some name =>
           if jsstring_eqb name (lit "gmail.com")
           then Returned [[lit "v=spf1 redirect=_spf.google.com"]]
           else Thrown (ErrorInstance (lit "queryTxt ENOTFOUND"))
       | None => Thrown (ErrorInstance (lit "The name argument must be of type string"))
       end;
     ses_send := fun _ _ _ => Returned (Some (lit "ses-0001"));
     nodemailer_createTransport := fun _ o => Returned (asIs o);
     transporter_verify := fun _ _ => Returned tt;
     transporter_sendMail := fun _ _ _ =>
       Returned {| info_messageId := Some (lit "<smtp-0001@localhost>");
                   info_message := None |} |}.

Definition client : SESClient :=
  {| region := lit "us-east-1"; accessKeyId := lit "AKIA";
     secretAccessKey := lit "secret" |}.

Definition relay : Transporter :=
  asIs (SmtpTransport (lit "smtp.example.com") 587 false None None).

(** A tester built without AWS credentials, and one built with them. *)
Definition plainTester : Tester.EmailDeliverabilityTester :=
  {| Tester.sesClient := None;
     Tester.defaultFromEmail := lit "no-reply@example.com" |}.

Definition sesTester : Tester.EmailDeliverabilityTester :=
  {| Tester.sesClient := Some client;
     Tester.defaultFromEmail := lit "no-reply@example.com" |}.

(** [{ email, provider, skipActualDelivery: true }] *)
Definition skipConfig (address : jsstring) (p : option Tester.Provider)
  : Tester.EmailTestConfig :=
  {| Tester.email := address; Tester.provider := p;
     Tester.smtpConfig := None; Tester.testMessage := None;
     Tester.skipActualDelivery := Some true |}.

(** A per-item test that throws on every address. *)
Definition brokenTest (config : Tester.EmailTestConfig)
  : M Tester.EmailTestResult :=
  throw (ErrorInstance (lit "socket hang up")).

(** Senders with no backend, with SES only, with SMTP only, with both. *)
Definition bareSender : Sender.EmailSender :=
  {| Sender.sesClient := None; Sender.smtpTransporter := None;
     Sender.defaultFromEmail := lit "no-reply@example.com" |}.

Definition sesSender : Sender.EmailSender :=
  {| Sender.sesClient := Some client; Sender.smtpTransporter := None;
     Sender.defaultFromEmail := lit "no-reply@example.com" |}.

Definition smtpSender : Sender.EmailSender :=
  {| Sender.sesClient := None; Sender.smtpTransporter := Some relay;
     Sender.defaultFromEmail := lit "no-reply@example.com" |}.

Definition fullSender : Sender.EmailSender :=
  {| Sender.sesClient := Some client; Sender.smtpTransporter := Some relay;
     Sender.defaultFromEmail := lit "no-reply@example.com" |}.

Definition hello : Sender.EmailOptions :=
  {| Sender.to := One (lit "user@example.com");
     Sender.from := None;
     Sender.subject := lit "Hello";
     Sender.text := Some (lit "Hello there");
     Sender.html := None;
     Sender.cc := None;
     Sender.bcc := None;
     Sender.replyTo := None;
     Sender.attachments := None;
     Sender.headers := None |}.

End Scenario.

(** ** Construction from the process environment

    [process.env] is a table from variable names to strings; a variable
    that is not set reads as [undefined]. *)

Definition ProcessEnv := jsstring -> option jsstring.

(** [a || b] on two optional strings. *)
Definition orOption (a b : option jsstring) : option jsstring :=
  match a with
  | Some s => if nonempty s then a else b
  | None => b
  end.

(** Truthiness of an optional string. *)
Definition isTruthy (v : option jsstring) : bool :=
  match v with Some s => nonempty s | None => false end.

(** [transporter.sendMail(...)] *)
Definition sendMailEvent (ev : Event) : bool :=
  match ev with TransportSendMail _ _ => true | _ => false end.

Module TesterSetup.

(** The first argument of the constructor of [EmailDeliverabilityTester]. *)
Record AwsConfig : Type := {
  cfg_accessKeyId : jsstring;
  cfg_secretAccessKey : jsstring;
  cfg_region : option jsstring
}.

Section Construction.

Variable processEnv : ProcessEnv.

(** [awsConfig?.region || process.env.AWS_REGION || 'us-east-1'] *)
Definition regionOf (awsConfig : option AwsConfig) : jsstring :=
  Tester.orElse
    (orOption (match awsConfig with Some c => cfg_region c | None => None end)
              (processEnv (lit "AWS_REGION")))
    (lit "us-east-1").

(** The SES client the constructor builds, if it builds one: with the
    given configuration, or else with the two credentials of the
    environment when both are set and not empty. *)
Definition clientOf (awsConfig : option AwsConfig) : option SESClient :=
  match awsConfig with
  | Some c =>
      Some {| region := regionOf awsConfig;
              accessKeyId := cfg_accessKeyId c;
              secretAccessKey := cfg_secretAccessKey c |}
  | None =>
      match processEnv (lit "AWS_ACCESS_KEY_ID"),
            processEnv (lit "AWS_SECRET_ACCESS_KEY") with
      | Some key, Some secret =>
          if nonempty key && nonempty secret
          then Some {| region := regionOf awsConfig;
                       accessKeyId := key;
                       secretAccessKey := secret |}
          else None
      | _, _ => None
      end
  end.

(** [new EmailDeliverabilityTester(awsConfig, fromEmail)] *)
Definition construct (awsConfig : option AwsConfig) (fromEmail : option jsstring)
  : Tester.EmailDeliverabilityTester :=
  {| Tester.defaultFromEmail :=
       Tester.orElse (orOption fromEmail (processEnv (lit "EMAIL_FROM")))
                     (lit "no-reply@example.com");
     Tester.sesClient := clientOf awsConfig |}.

Variable env : Env.

(** [quickEmailValidation(email)] *)
Definition quickEmailValidation (email : jsstring) : M Tester.EmailTestResult :=
  let tester := construct None None in
  Tester.testEmailDeliverability env tester
    {| Tester.email := email; Tester.provider := None;
       Tester.smtpConfig := None; Tester.testMessage := None;
       Tester.skipActualDelivery := Some true |}.

(** [quickEmailTestWithSes(email)] *)
Definition quickEmailTestWithSes (email : jsstring) : M Tester.EmailTestResult :=
  let tester := construct None None in
  Tester.testEmailDeliverability env tester
    {| Tester.email := email; Tester.provider := Some Tester.AwsSes;
       Tester.smtpConfig := None; Tester.testMessage := None;
       Tester.skipActualDelivery := None |}.

(** [quickEmailTestWithSmtp(email, smtpConfig)] *)
Definition quickEmailTestWithSmtp (email : jsstring)
           (smtpConfig : Tester.SmtpConfig) : M Tester.EmailTestResult :=
  let tester := construct None None in
  Tester.testEmailDeliverability env tester
    {| Tester.email := email; Tester.provider := Some Tester.Smtp;
       Tester.smtpConfig := Some smtpConfig; Tester.testMessage := None;
       Tester.skipActualDelivery := None |}.

(** [batchEmailValidation(emails)] *)
Definition batchEmailValidation (emails : list jsstring)
  : M Tester.EmailValidationResult :=
  let tester := construct None None in
  Tester.validateEmails env tester emails.

End Construction.

End TesterSetup.

Module SenderSetup.

(** [getConfigStatus()] *)
Record ConfigStatus : Type := {
  hasAwsSes : bool;
  hasSmtp : bool;
  defaultFrom : jsstring
}.

Definition getConfigStatus (self : Sender.EmailSender) : ConfigStatus :=
  {| hasAwsSes := isSome (Sender.sesClient self);
     hasSmtp := isSome (Sender.smtpTransporter self);
     defaultFrom := Sender.defaultFromEmail self |}.

(** The SMTP configuration read from the environment.  The port is a
    JavaScript number, possibly [NaN]; numbers are kept abstract, with
    [parseInt] and the test [port === 465] as the two operations the source
    applies. *)
Record EnvSmtpConfig (Num : Type) : Type := {
  env_host : jsstring;
  env_port : Num;
  env_secure : bool;
  env_auth : option SmtpAuth;
  env_rejectUnauthorized : bool
}.

Arguments env_host {Num} _.
Arguments env_port {Num} _.
Arguments env_secure {Num} _.
Arguments env_auth {Num} _.
Arguments env_rejectUnauthorized {Num} _.

Section Detection.

Variable processEnv : ProcessEnv.

(** [hasAwsEnvVars()] *)
Definition hasAwsEnvVars : bool :=
  isTruthy (processEnv (lit "AWS_ACCESS_KEY_ID"))
  && isTruthy (processEnv (lit "AWS_SECRET_ACCESS_KEY")).

(** [hasSmtpEnvVars()] *)
Definition hasSmtpEnvVars : bool :=
  isTruthy (orOption (processEnv (lit "SMTP_HOST")) (processEnv (lit "SMPTP_HOST")))
  && isTruthy (orOption (processEnv (lit "SMTP_USER")) (processEnv (lit "SMPT_USER")))
  && isTruthy (orOption (orOption (processEnv (lit "SMTP_PASS"))
                                  (processEnv (lit "SMTP_PASSWORD")))
                        (processEnv (lit "SMPT_PASSWORD"))).

Variable Num : Type.
Variable parseInt : jsstring -> Num.
Variable is465 : Num -> bool.

(** [getSmtpConfigFromEnv()] *)
Definition getSmtpConfigFromEnv : Outcome (EnvSmtpConfig Num) :=
  let host := orOption (processEnv (lit "SMTP_HOST")) (processEnv (lit "SMPTP_HOST")) in
  let port := parseInt (Tester.orElse (processEnv (lit "SMTP_PORT")) (lit "587")) in
  let secure :=
    match processEnv (lit "SMTP_SECURE") with
    | Some s => jsstring_eqb (toLowerCase s) (lit "true")
    | None => false
    end || is465 port in
  let user := orOption (processEnv (lit "SMTP_USER")) (processEnv (lit "SMPT_USER")) in
  let pass := orOption (orOption (processEnv (lit "SMTP_PASS"))
                                 (processEnv (lit "SMTP_PASSWORD")))
                       (processEnv (lit "SMPT_PASSWORD")) in
  match host with
  | Some h =>
      if nonempty h then
        Returned
          {| env_host := h;
             env_port := port;
             env_secure := secure;
             env_auth :=
               match user, pass with
               | Some u, Some p =>
                   if nonempty u && nonempty p
                   then Some {| user := u; pass := p |}
                   else None
               | _, _ => None
               end;
             env_rejectUnauthorized :=
               match processEnv (lit "SMTP_TLS_REJECT_UNAUTHORIZED") with
               | Some v => negb (jsstring_eqb v (lit "false"))
               | None => true
               end |}
      else Thrown (ErrorInstance (lit "SMTP host not found in environment variables"))
  | None => Thrown (ErrorInstance (lit "SMTP host not found in environment variables"))
  end.

End Detection.

End SenderSetup.

(** ** More concrete inputs *)

Module Fixture.

(** An environment with AWS credentials and an SMTP account under the
    alternate spellings of the variables. *)
Definition deployed : ProcessEnv :=
  fun name =>
    if jsstring_eqb name (lit "AWS_ACCESS_KEY_ID") then Some (lit "AKIA")
    else if jsstring_eqb name (lit "AWS_SECRET_ACCESS_KEY") then Some (lit "secret")
    else if jsstring_eqb name (lit "SMPTP_HOST") then Some (lit "smtp.example.com")
    else if jsstring_eqb name (lit "SMPT_USER") then Some (lit "mailer")
    else if jsstring_eqb name (lit "SMPT_PASSWORD") then Some (lit "hunter2")
    else if jsstring_eqb name (lit "SMTP_PORT") then Some (lit "465")
    else None.

(** An environment with nothing set. *)
Definition blank : ProcessEnv := fun _ => None.

(** A reading of decimal ports, enough for the inputs used here. *)
Definition parsePort (s : jsstring) : option Z :=
  if jsstring_eqb s (lit "465") then Some 465%Z
  else if jsstring_eqb s (lit "587") then Some 587%Z
  else None.

Definition portIs465 (n : option Z) : bool :=
  match n with Some z => Z.eqb z 465 | None => false end.

Definition account : Tester.SmtpConfig :=
  {| Tester.host := lit "smtp.example.com"; Tester.port := 587;
     Tester.secure := false;
     Tester.auth := Some {| user := lit "mailer"; pass := lit "hunter2" |} |}.

(** [{ email, provider: 'smtp', smtpConfig }] *)
Definition smtpTest (address : jsstring) : Tester.EmailTestConfig :=
  {| Tester.email := address; Tester.provider := Some Tester.Smtp;
     Tester.smtpConfig := Some account; Tester.testMessage := None;
     Tester.skipActualDelivery := None |}.

(** [{ email, provider: 'aws-ses' }] *)
Definition sesTest (address : jsstring) : Tester.EmailTestConfig :=
  {| Tester.email := address; Tester.provider := Some Tester.AwsSes;
     Tester.smtpConfig := None; Tester.testMessage := None;
     Tester.skipActualDelivery := None |}.

(** An object with nothing to report. *)
Definition healthy : Tester.PartialResult :=
  {| Tester.p_email := Some (lit "test@gmail.com");
     Tester.p_isValid := Some true;
     Tester.p_domainExists := Some true;
     Tester.p_mxRecords := Some Scenario.gmailMx;
     Tester.p_spfRecord := Some (lit "v=spf1 redirect=_spf.google.com");
     Tester.p_dmarcRecord := Some (lit "v=DMARC1; p=none");
     Tester.p_deliverabilityTests := Some Tester.noTests;
     Tester.p_recommendations := None;
     Tester.p_testDuration := None |}.

(** A message with one attachment. *)
Definition report : Sender.EmailOptions :=
  {| Sender.to := Many [lit "a@example.com"; lit "b@example.com"];
     Sender.from := Some (lit "reports@example.com");
     Sender.subject := lit "Report";
     Sender.text := Some (lit "See attachment");
     Sender.html := None;
     Sender.cc := None;
     Sender.bcc := None;
     Sender.replyTo := None;
     Sender.attachments :=
       Some [ {| filename := lit "report.txt";
                 content := StringContent (lit "42");
                 contentType := None; encoding := None; cid := None |} ];
     Sender.headers := None |}.

(** The network of [Scenario.online] with transporters that hand back the
    message they built. *)
Definition buffering : Env :=
  {| clock := clock Scenario.online;
     dns_resolveMx := dns_resolveMx Scenario.online;
     dns_resolveTxt := dns_resolveTxt Scenario.online;
     ses_send := ses_send Scenario.online;
     nodemailer_createTransport := nodemailer_createTransport Scenario.online;
     transporter_verify := transporter_verify Scenario.online;
     transporter_sendMail := fun _ _ _ =>
       Returned {| info_messageId := Some (lit "<raw-0001@localhost>");
                   info_message := Some [77; 73; 77; 69]%N |} |}.

End Fixture.

(** * Properties *)

(** ** The format check *)

Lemma re_test_nil (s : jsstring) : re_test [] s = true <-> s = [].
Proof.
  destruct s; simpl; split; intros H; congruence.
Qed.

Lemma re_test_once cls rest (s : jsstring) :
  re_test (Once cls :: rest) s = true <->
  exists c s', s = c :: s' /\ cls c = true /\ re_test rest s' = true.
Proof.
  destruct s as [|c s']; simpl.
  - split; [discriminate | intros (c & s' & H & _); discriminate].
  - rewrite andb_true_iff. split.
    + intros [Hc Hs]. exists c, s'. auto.
    + intros (c0 & s0 & H & Hc & Hs). inversion H; subst. auto.
Qed.

Lemma re_test_more cls rest (s : jsstring) :
  re_test (OneOrMore cls :: rest) s = true <->
  exists a b, s = a ++ b /\ a <> [] /\ forallb cls a = true
              /\ re_test rest b = true.
Proof.
  induction s as [|c s' IH].
  - simpl. split; [discriminate|].
    intros (a & b & H & Ha & _). destruct a; [congruence | discriminate].
  - change (re_test (OneOrMore cls :: rest) (c :: s'))
      with (cls c && (re_test rest s' || re_test (OneOrMore cls :: rest) s')).
    rewrite andb_true_iff, orb_true_iff, IH. split.
    + intros [Hc [Hs | (a & b & -> & Ha & Hall & Hb)]].
      * exists [c], s'. simpl. rewrite Hc. repeat split; auto. discriminate.
      * exists (c :: a), b. simpl. rewrite Hc, Hall.
        repeat split; auto. discriminate.
    + intros (a & b & H & Ha & Hall & Hb).
      destruct a as [|c0 a]; [congruence|].
      simpl in H, Hall. inversion H; subst.
      apply andb_true_iff in Hall as [Hc Hall]. split; [exact Hc|].
      destruct a as [|c1 a].
      * left. exact Hb.
      * right. exists (c1 :: a), b. repeat split; auto. discriminate.
Qed.

(** What the regular expression accepts: a non-empty local part, one ['@'],
  and a rest cut by a ['.'] into two non-empty parts, none of the three
  parts holding white space or ['@']. *)
Lemma validateEmailFormat_spec (email : jsstring) :
  validateEmailFormat email = true <->
  exists a b c,
    email = a ++ AT :: b ++ DOT :: c
    /\ a <> [] /\ b <> [] /\ c <> []
    /\ forallb not_space_at a = true
    /\ forallb not_space_at b = true
    /\ forallb not_space_at c = true.
Proof.
  unfold validateEmailFormat, emailRegex.
  rewrite re_test_more. split.
  - intros (a & r1 & -> & Ha & Hfa & H1).
    apply re_test_once in H1 as (x & r2 & -> & Hx & H2).
    apply N.eqb_eq in Hx. subst x.
    apply re_test_more in H2 as (b & r3 & -> & Hb & Hfb & H3).
    apply re_test_once in H3 as (y & r4 & -> & Hy & H4).
    apply N.eqb_eq in Hy. subst y.
    apply re_test_more in H4 as (c & r5 & -> & Hc & Hfc & H5).
    apply re_test_nil in H5. subst r5. rewrite app_nil_r.
    exists a, b, c. repeat split; auto.
  - intros (a & b & c & -> & Ha & Hb & Hc & Hfa & Hfb & Hfc).
    exists a, (AT :: b ++ DOT :: c). repeat split; auto.
    apply re_test_once. exists AT, (b ++ DOT :: c). repeat split; auto.
    apply re_test_more. exists b, (DOT :: c). repeat split; auto.
    apply re_test_once. exists DOT, c. repeat split; auto.
    apply re_test_more. exists c, []. rewrite app_nil_r. repeat split; auto.
Qed.

(** C8.  A string that holds no ['@'], or in which no ['.'] comes after an
  ['@'], fails the format check. *)
Theorem validateEmailFormat_rejects (email : jsstring) :
  (~ In AT email \/ (forall p q, email = p ++ AT :: q -> ~ In DOT q)) ->
  validateEmailFormat email = false.
Proof.
  intros H. apply not_true_is_false. intros Hv.
  apply validateEmailFormat_spec in Hv
    as (a & b & c & -> & _).
  destruct H as [H | H].
  - apply H. apply in_or_app. right. left. reflexivity.
  - apply (H a (b ++ DOT :: c) eq_refl).
    apply in_or_app. right. left. reflexivity.
Qed.

Lemma validateEmailFormat_rejects_witness :
  validateEmailFormat (lit "invalid-email") = false.
Proof.
  apply validateEmailFormat_rejects. left.
  vm_compute. intros H.
  repeat (destruct H as [H | H]; [discriminate H |]). exact H.
Defined.

(** ** Running computations *)

Lemma bind_returned {A B} (m : M A) (k : A -> M B) h a evs r evs' :
  m h = (Returned a, evs) ->
  k a (h ++ evs) = (r, evs') ->
  bind m k h = (r, evs ++ evs').
Proof.
  intros Hm Hk. unfold bind. rewrite Hm, Hk. reflexivity.
Qed.


Lemma Date_now_run env h :
  Date_now env h = (Returned (clock env h), [DateNow]).
Proof. reflexivity. Qed.

(** ** The record checkers *)

Section TesterFacts.

Import Tester.

Variable env : Env.
Variable self : EmailDeliverabilityTester.

Lemma checkDomainAndMX_run domain h :
  checkDomainAndMX env domain h =
  (Returned match dns_resolveMx env h domain with
            | Returned mxRecords => (true, mxRecords)
            | Thrown _ => (false, [])
            end,
   [ResolveMx domain]).
Proof.
  unfold checkDomainAndMX, try_catch, bind, resolveMx, perform, ret.
  destruct (dns_resolveMx env h domain); reflexivity.
Qed.

Lemma checkSpfRecord_run domain h :
  checkSpfRecord env domain h =
  (Returned match dns_resolveTxt env h domain with
            | Returned txtRecords =>
                joined (find (recordStartsWith (lit "v=spf1")) txtRecords)
            | Thrown _ => None
            end,
   [ResolveTxt domain]).
Proof.
  unfold checkSpfRecord, try_catch, bind, resolveTxt, perform, ret.
  destruct (dns_resolveTxt env h domain); reflexivity.
Qed.

Lemma checkDmarcRecord_run domain h :
  checkDmarcRecord env domain h =
  (Returned match dns_resolveTxt env h
                    (Some (lit "_dmarc." ++ interpolate domain)) with
            | Returned txtRecords =>
                joined (find (recordStartsWith (lit "v=dmarc1")) txtRecords)
            | Thrown _ => None
            end,
   [ResolveTxt (Some (lit "_dmarc." ++ interpolate domain))]).
Proof.
  unfold checkDmarcRecord, try_catch, bind, resolveTxt, perform, ret.
  destruct (dns_resolveTxt env h _); reflexivity.
Qed.

(** A record that was found is not the empty string: one of its chunks
    starts with a non-empty prefix. *)

Lemma join_nonempty (record : list jsstring) txt :
  In txt record -> txt <> [] -> join record <> [].
Proof.
  unfold join. induction record as [|x record IH]; intros Hin Hne; [contradiction|].
  simpl. destruct Hin as [-> | Hin].
  - destruct txt; [congruence | discriminate].
  - intros H. apply app_eq_nil in H as [_ H]. exact (IH Hin Hne H).
Qed.

Lemma joined_find_truthy prefix txtRecords v :
  prefix <> [] ->
  joined (find (recordStartsWith prefix) txtRecords) = Some v ->
  nonempty v = true.
Proof.
  intros Hp H.
  destruct (find (recordStartsWith prefix) txtRecords) as [record|] eqn:F;
    [|discriminate].
  injection H as <-.
  apply find_some in F as [_ F]. unfold recordStartsWith in F.
  apply existsb_exists in F as (txt & Hin & Hs).
  assert (txt <> []) as Htxt.
  { intros ->. simpl in Hs. destruct prefix; [congruence | discriminate]. }
  pose proof (join_nonempty record Hin Htxt) as Hj.
  destruct (join record); [congruence | reflexivity].
Qed.

Lemma checkSpfRecord_truthy domain h v evs :
  checkSpfRecord env domain h = (Returned (Some v), evs) -> nonempty v = true.
Proof.
  rewrite checkSpfRecord_run. intros H. injection H as H _.
  destruct (dns_resolveTxt env h domain); [|discriminate].
  eapply joined_find_truthy; [|exact H]. discriminate.
Qed.

Lemma checkDmarcRecord_truthy domain h v evs :
  checkDmarcRecord env domain h = (Returned (Some v), evs) -> nonempty v = true.
Proof.
  rewrite checkDmarcRecord_run. intros H. injection H as H _.
  destruct (dns_resolveTxt env h _); [|discriminate].
  eapply joined_find_truthy; [|exact H]. discriminate.
Qed.

(** ** The delivery tests *)

Lemma testAwsSesDelivery_skip config h :
  truthyBool (skipActualDelivery config) = true ->
  testAwsSesDelivery env self config h =
  (Returned match sesClient self with
            | Some _ => skipped
            | None => notConfigured (lit "AWS SES not configured")
            end, []).
Proof.
  intros Hs. unfold testAwsSesDelivery.
  destruct (sesClient self); [rewrite Hs|]; reflexivity.
Qed.

Lemma testSmtpDelivery_skip config h :
  truthyBool (skipActualDelivery config) = true ->
  testSmtpDelivery env self config h =
  (Returned match smtpConfig config with
            | Some _ => skipped
            | None => notConfigured (lit "SMTP configuration not provided")
            end, []).
Proof.
  intros Hs. unfold testSmtpDelivery.
  destruct (smtpConfig config); [rewrite Hs|]; reflexivity.
Qed.

Lemma testAwsSesDelivery_returns config h :
  exists d evs, testAwsSesDelivery env self config h = (Returned d, evs).
Proof.
  unfold testAwsSesDelivery.
  destruct (sesClient self) as [client|]; [|eexists; eexists; reflexivity].
  destruct (truthyBool (skipActualDelivery config));
    [eexists; eexists; reflexivity|].
  unfold try_catch, bind, sesClient_send, perform, ret.
  destruct (ses_send env h client _); eexists; eexists; reflexivity.
Qed.

Lemma testSmtpDelivery_returns config h :
  exists d evs, testSmtpDelivery env self config h = (Returned d, evs).
Proof.
  unfold testSmtpDelivery.
  destruct (smtpConfig config) as [cfg|]; [|eexists; eexists; reflexivity].
  destruct (truthyBool (skipActualDelivery config));
    [eexists; eexists; reflexivity|].
  unfold try_catch, bind, createTransport, verify, sendMail, perform, ret.
  destruct (nodemailer_createTransport env h _) as [t|];
    [|eexists; eexists; reflexivity].
  destruct (transporter_verify env _ t) as [[]|];
    [|eexists; eexists; reflexivity].
  destruct (transporter_sendMail env _ t _);
    eexists; eexists; reflexivity.
Qed.

(** ** The shape of a run of [testEmailDeliverability] *)

Lemma testEmailDeliverability_invalid config h :
  validateEmailFormat (email config) = false ->
  testEmailDeliverability env self config h =
  (Returned {| r_email := email config;
               isValid := false;
               domainExists := false;
               mxRecords := [];
               spfRecord := None;
               dmarcRecord := None;
               deliverabilityTests := noTests;
               recommendations :=
                 [msgInvalidFormat; msgNoDomain; msgNoMx; msgNoSpf; msgNoDmarc];
               testDuration := Some (clock env (h ++ [DateNow]) - clock env h)%Z |},
   [DateNow; DateNow]).
Proof.
  intros Hv. unfold testEmailDeliverability, bind, Date_now, perform.
  cbv beta iota zeta.
  cbn [p_isValid set_isValid truthyBool]. rewrite Hv. reflexivity.
Qed.

Lemma testEmailDeliverability_valid config h :
  validateEmailFormat (email config) = true ->
  exists r evA evS,
    let domain := extractDomain (email config) in
    let dmarcName := Some (lit "_dmarc." ++ interpolate domain) in
    let h1 := h ++ [DateNow] in
    let h2 := h1 ++ [ResolveMx domain] in
    let h3 := h2 ++ [ResolveTxt domain] in
    let h4 := h3 ++ [ResolveTxt dmarcName] in
    testEmailDeliverability env self config h =
      (Returned r,
       [DateNow; ResolveMx domain; ResolveTxt domain; ResolveTxt dmarcName]
         ++ evA ++ evS ++ [DateNow])
    /\ r_email r = email config
    /\ isValid r = true
    /\ checkDomainAndMX env domain h1 =
         (Returned (domainExists r, mxRecords r), [ResolveMx domain])
    /\ checkSpfRecord env domain h2 = (Returned (spfRecord r), [ResolveTxt domain])
    /\ checkDmarcRecord env domain h3 =
         (Returned (dmarcRecord r), [ResolveTxt dmarcName])
    /\ (if wantsAwsSes (providerOf config)
        then exists d, awsSes (deliverabilityTests r) = Some d
                       /\ testAwsSesDelivery env self config h4 = (Returned d, evA)
        else awsSes (deliverabilityTests r) = None /\ evA = [])
    /\ (if wantsSmtp (providerOf config)
        then exists d, smtp (deliverabilityTests r) = Some d
                       /\ testSmtpDelivery env self config (h4 ++ evA)
                          = (Returned d, evS)
        else smtp (deliverabilityTests r) = None /\ evS = [])
    /\ recommendations r = generateRecommendations (beforeRecommendations r)
    /\ (exists p, complete p = true /\ r = asEmailTestResult p).
Proof.
  intros Hv. unfold testEmailDeliverability, bind, Date_now, perform.
  cbv beta iota zeta.
  cbn [p_isValid set_isValid truthyBool]. rewrite Hv. cbn [negb].
  rewrite checkDomainAndMX_run. cbv beta iota zeta.
  rewrite checkSpfRecord_run. cbv beta iota zeta.
  rewrite checkDmarcRecord_run. cbv beta iota zeta.
  match goal with
  | |- context [set_mxRecords (snd ?x)] => generalize x
  end.
  intros [ex mx].
  match goal with
  | |- context [set_spfRecord ?x] => generalize x
  end.
  intros spf.
  match goal with
  | |- context [set_dmarcRecord ?x] => generalize x
  end.
  intros dmarc.
  cbn [fst snd set_isValid set_domainExists set_mxRecords set_spfRecord
       set_dmarcRecord p_deliverabilityTests p_email p_isValid p_domainExists
       p_mxRecords p_spfRecord p_dmarcRecord p_recommendations p_testDuration].
  destruct (providerOf config); cbn [wantsAwsSes wantsSmtp];
    unfold ret; cbv beta iota zeta;
    try match goal with
        | |- context [testAwsSesDelivery env self config ?hh] =>
            destruct (testAwsSesDelivery_returns config hh) as (dA & evA & EA);
            rewrite EA; cbv beta iota zeta
        end;
    try match goal with
        | |- context [testSmtpDelivery env self config ?hh] =>
            destruct (testSmtpDelivery_returns config hh) as (dS & evS & ES);
            rewrite ES; cbv beta iota zeta
        end.
  - eexists. exists evA, [].
    rewrite ?app_nil_r. cbn [app].
    repeat split; try reflexivity.
    + exists dA. split; reflexivity.
    + eexists. split; [|reflexivity]. reflexivity.
  - rewrite app_nil_r in ES. eexists. exists [], evS.
    rewrite ?app_nil_r. cbn [app].
    repeat split; try reflexivity.
    + exists dS. split; [reflexivity | exact ES].
    + eexists. split; [|reflexivity]. reflexivity.
  - rewrite app_nil_r in ES. eexists. exists evA, evS.
    rewrite ?app_nil_r. cbn [app].
    repeat split; try reflexivity.
    + exists dA. split; reflexivity.
    + exists dS. split; [reflexivity | exact ES].
    + eexists. split; [|reflexivity]. reflexivity.
Qed.

(** The cast at the end of [testEmailDeliverability] is applied to an
  object that has every required property. *)
Lemma testEmailDeliverability_complete config h :
  exists p r evs,
    testEmailDeliverability env self config h = (Returned r, evs)
    /\ complete p = true
    /\ r = asEmailTestResult p.
Proof.
  destruct (validateEmailFormat (email config)) eqn:Hv.
  - destruct (testEmailDeliverability_valid config h Hv)
      as (r & evA & evS & Hrun & _ & _ & _ & _ & _ & _ & _ & _ & p & Hp & Hr).
    exists p, r. eexists. split; [exact Hrun|]. split; assumption.
  - unfold testEmailDeliverability, bind, Date_now, perform.
    cbv beta iota zeta.
    cbn [p_isValid set_isValid truthyBool]. rewrite Hv. cbn [negb].
    eexists. eexists. eexists. split; [reflexivity|].
    split; [|reflexivity]. reflexivity.
Qed.

End TesterFacts.

(** ** Claims about [email-tester.ts] *)

Section TesterClaims.

Import Tester.

Variable env : Env.
Variable self : EmailDeliverabilityTester.

(** C3.  When the address fails the format check, [testEmailDeliverability]
  returns at once: it only reads the clock (no DNS lookup, no backend
  call), and its result has [isValid = false], [domainExists = false],
  no MX record and the invalid-format recommendation. *)
Theorem invalid_format_returns_at_once config h :
  validateEmailFormat (email config) = false ->
  exists r,
    testEmailDeliverability env self config h = (Returned r, [DateNow; DateNow])
    /\ forallb (fun ev => negb (dnsEvent ev || backendEvent ev))
               [DateNow; DateNow] = true
    /\ isValid r = false
    /\ domainExists r = false
    /\ mxRecords r = []
    /\ In msgInvalidFormat (recommendations r)
    /\ includes msgInvalidFormat (lit "invalid") = true.
Proof.
  intros Hv. eexists. split.
  - apply testEmailDeliverability_invalid. exact Hv.
  - cbn [isValid domainExists mxRecords recommendations].
    repeat split; try reflexivity. left. reflexivity.
Qed.

(** C9.  When the address fails the format check, the result holds no
  delivery entry at all, neither [awsSes] nor [smtp], whatever provider
  the configuration asks for. *)
Theorem invalid_format_runs_no_delivery_test config h :
  validateEmailFormat (email config) = false ->
  exists r evs,
    testEmailDeliverability env self config h = (Returned r, evs)
    /\ deliverabilityTests r = noTests
    /\ awsSes (deliverabilityTests r) = None
    /\ smtp (deliverabilityTests r) = None
    /\ forallb (fun ev => negb (backendEvent ev)) evs = true.
Proof.
  intros Hv. eexists. eexists. split.
  - apply testEmailDeliverability_invalid. exact Hv.
  - repeat split; reflexivity.
Qed.

(** C1, as amended.  With [skipActualDelivery] set, a run of
  [testEmailDeliverability] reaches no delivery backend.  When the
  address passes the format check, every requested backend gets the
  sentinel success if it is configured (SES client present, respectively
  [smtpConfig] given) and the not-configured failure otherwise; a backend
  that is not requested gets no entry.  When the address fails the format
  check there is no entry at all. *)
Theorem skip_mode_delivery config h :
  truthyBool (skipActualDelivery config) = true ->
  exists r evs,
    testEmailDeliverability env self config h = (Returned r, evs)
    /\ forallb (fun ev => negb (backendEvent ev)) evs = true
    /\ (validateEmailFormat (email config) = true ->
        awsSes (deliverabilityTests r) =
          (if wantsAwsSes (providerOf config)
           then Some match sesClient self with
                     | Some _ => skipped
                     | None => notConfigured (lit "AWS SES not configured")
                     end
           else None)
        /\ smtp (deliverabilityTests r) =
          (if wantsSmtp (providerOf config)
           then Some match smtpConfig config with
                     | Some _ => skipped
                     | None => notConfigured (lit "SMTP configuration not provided")
                     end
           else None))
    /\ (validateEmailFormat (email config) = false ->
        deliverabilityTests r = noTests).
Proof.
  intros Hs.
  destruct (validateEmailFormat (email config)) eqn:Hv.
  - destruct (testEmailDeliverability_valid env self config h Hv)
      as (r & evA & evS & Hrun & _ & _ & _ & _ & _ & HA & HS & _ & _).
    cbv zeta in Hrun, HA, HS.
    exists r. eexists. split; [exact Hrun|].
    assert (evA = [] /\ evS = []) as [-> ->].
    { split.
      - destruct (wantsAwsSes (providerOf config)).
        + destruct HA as (d & _ & HA).
          rewrite (testAwsSesDelivery_skip env self config _ Hs) in HA.
          congruence.
        + apply HA.
      - destruct (wantsSmtp (providerOf config)).
        + destruct HS as (d & _ & HS).
          rewrite (testSmtpDelivery_skip env self config _ Hs) in HS.
          congruence.
        + apply HS. }
    split; [reflexivity|]. split; [|discriminate].
    intros _. split.
    + destruct (wantsAwsSes (providerOf config)).
      * destruct HA as (d & -> & HA).
        rewrite (testAwsSesDelivery_skip env self config _ Hs) in HA.
        congruence.
      * apply HA.
    + destruct (wantsSmtp (providerOf config)).
      * destruct HS as (d & -> & HS).
        rewrite (testSmtpDelivery_skip env self config _ Hs) in HS.
        congruence.
      * apply HS.
  - eexists. eexists. split.
    + apply testEmailDeliverability_invalid. exact Hv.
    + split; [reflexivity|]. split; [discriminate|]. intros _. reflexivity.
Qed.

(** C6.  A failed lookup is an absence, not an exception.  When the
  resolver throws, [checkDomainAndMX] returns [exists = false] with no MX
  record, and [checkSpfRecord] and [checkDmarcRecord] return [undefined];
  and whatever the resolver does, none of the three throws. *)
Theorem lookup_failures_are_absence domain h :
  (forall e, dns_resolveMx env h domain = Thrown e ->
             checkDomainAndMX env domain h
             = (Returned (false, []), [ResolveMx domain]))
  /\ (forall e, dns_resolveTxt env h domain = Thrown e ->
                checkSpfRecord env domain h = (Returned None, [ResolveTxt domain]))
  /\ (forall e, dns_resolveTxt env h (Some (lit "_dmarc." ++ interpolate domain))
                = Thrown e ->
                checkDmarcRecord env domain h
                = (Returned None,
                   [ResolveTxt (Some (lit "_dmarc." ++ interpolate domain))]))
  /\ (exists v evs, checkDomainAndMX env domain h = (Returned v, evs))
  /\ (exists v evs, checkSpfRecord env domain h = (Returned v, evs))
  /\ (exists v evs, checkDmarcRecord env domain h = (Returned v, evs)).
Proof.
  repeat split.
  - intros e He. rewrite checkDomainAndMX_run, He. reflexivity.
  - intros e He. rewrite checkSpfRecord_run, He. reflexivity.
  - intros e He. rewrite checkDmarcRecord_run, He. reflexivity.
  - eexists. eexists. apply checkDomainAndMX_run.
  - eexists. eexists. apply checkSpfRecord_run.
  - eexists. eexists. apply checkDmarcRecord_run.
Qed.

End TesterClaims.

Lemma invalid_format_returns_at_once_witness :
  exists r,
    Tester.testEmailDeliverability Scenario.offline Scenario.plainTester
      (Scenario.skipConfig (lit "invalid-email") None) []
    = (Returned r, [DateNow; DateNow])
    /\ forallb (fun ev => negb (dnsEvent ev || backendEvent ev))
               [DateNow; DateNow] = true
    /\ Tester.isValid r = false
    /\ Tester.domainExists r = false
    /\ Tester.mxRecords r = []
    /\ In Tester.msgInvalidFormat (Tester.recommendations r)
    /\ includes Tester.msgInvalidFormat (lit "invalid") = true.
Proof.
  apply (invalid_format_returns_at_once Scenario.offline Scenario.plainTester
           (Scenario.skipConfig (lit "invalid-email") None) []).
  reflexivity.
Defined.

Lemma invalid_format_runs_no_delivery_test_witness :
  exists r evs,
    Tester.testEmailDeliverability Scenario.online Scenario.sesTester
      (Scenario.skipConfig (lit "test@example") (Some Tester.Both)) []
    = (Returned r, evs)
    /\ Tester.deliverabilityTests r = Tester.noTests
    /\ Tester.awsSes (Tester.deliverabilityTests r) = None
    /\ Tester.smtp (Tester.deliverabilityTests r) = None
    /\ forallb (fun ev => negb (backendEvent ev)) evs = true.
Proof.
  apply (invalid_format_runs_no_delivery_test Scenario.online Scenario.sesTester
           (Scenario.skipConfig (lit "test@example") (Some Tester.Both)) []).
  reflexivity.
Defined.

Lemma skip_mode_delivery_witness :
  exists r evs,
    Tester.testEmailDeliverability Scenario.online Scenario.plainTester
      (Scenario.skipConfig (lit "test@gmail.com") None) []
    = (Returned r, evs)
    /\ forallb (fun ev => negb (backendEvent ev)) evs = true
    /\ Tester.awsSes (Tester.deliverabilityTests r)
       = Some (Tester.notConfigured (lit "AWS SES not configured"))
    /\ Tester.smtp (Tester.deliverabilityTests r)
       = Some (Tester.notConfigured (lit "SMTP configuration not provided")).
Proof.
  destruct (skip_mode_delivery Scenario.online Scenario.plainTester
              (Scenario.skipConfig (lit "test@gmail.com") None) [] eq_refl)
    as (r & evs & Hrun & Hev & Hvalid & _).
  exists r, evs. split; [exact Hrun|]. split; [exact Hev|].
  exact (Hvalid eq_refl).
Defined.

(** C1, as the specification states it, fails: a tester built without AWS
  credentials that is asked, in skip mode, for the SES backend reports the
  not-configured failure, not the sentinel success. *)
Lemma skip_mode_sentinel_counterexample :
  ~ (forall env self config h r evs,
        Tester.truthyBool (Tester.skipActualDelivery config) = true ->
        Tester.testEmailDeliverability env self config h = (Returned r, evs) ->
        (Tester.wantsAwsSes (Tester.providerOf config) = true ->
         Tester.awsSes (Tester.deliverabilityTests r) = Some Tester.skipped)
        /\ (Tester.wantsSmtp (Tester.providerOf config) = true ->
            Tester.smtp (Tester.deliverabilityTests r) = Some Tester.skipped)).
Proof.
  intros H.
  destruct (Tester.testEmailDeliverability Scenario.online Scenario.plainTester
              (Scenario.skipConfig (lit "test@gmail.com") (Some Tester.AwsSes)) [])
    as [[r|e] evs] eqn:E.
  - destruct (H Scenario.online Scenario.plainTester
                (Scenario.skipConfig (lit "test@gmail.com") (Some Tester.AwsSes))
                [] r evs eq_refl E) as [Hses _].
    specialize (Hses eq_refl).
    vm_compute in E. injection E as <- <-.
    vm_compute in Hses. discriminate Hses.
  - vm_compute in E. discriminate E.
Qed.

Lemma lookup_failures_are_absence_witness :
  Tester.checkDomainAndMX Scenario.offline
    (Some (lit "nonexistentdomain12345.com")) []
  = (Returned (false, []), [ResolveMx (Some (lit "nonexistentdomain12345.com"))])
  /\ Tester.checkSpfRecord Scenario.offline
       (Some (lit "nonexistentdomain12345.com")) []
     = (Returned None, [ResolveTxt (Some (lit "nonexistentdomain12345.com"))]).
Proof.
  destruct (lookup_failures_are_absence Scenario.offline
              (Some (lit "nonexistentdomain12345.com")) [])
    as (Hmx & Hspf & _).
  split.
  - apply (Hmx (ErrorInstance (lit "queryMx ENOTFOUND"))). reflexivity.
  - apply (Hspf (ErrorInstance (lit "queryTxt ENOTFOUND"))). reflexivity.
Defined.

(** ** Recommendations *)

(** Seven conditional pushes followed by the push of the success line on an
  empty list. *)
Lemma pushIf_chain (b1 b2 b3 b4 b5 b6 b7 : bool)
      (l1 l2 l3 l4 l5 l6 l7 ok : jsstring) :
  let recs :=
    Tester.pushIf b7 l7 (Tester.pushIf b6 l6 (Tester.pushIf b5 l5
      (Tester.pushIf b4 l4 (Tester.pushIf b3 l3 (Tester.pushIf b2 l2
        (Tester.pushIf b1 l1 [])))))) in
  let final := Tester.pushIf (List.length recs =? 0)%nat ok recs in
  final <> []
  /\ (b1 = true -> In l1 final) /\ (b2 = true -> In l2 final)
  /\ (b3 = true -> In l3 final) /\ (b4 = true -> In l4 final)
  /\ (b5 = true -> In l5 final) /\ (b6 = true -> In l6 final)
  /\ (b7 = true -> In l7 final)
  /\ List.length final
     = Nat.max 1 (Nat.b2n b1 + Nat.b2n b2 + Nat.b2n b3 + Nat.b2n b4
                  + Nat.b2n b5 + Nat.b2n b6 + Nat.b2n b7)
  /\ (b1 = false -> b2 = false -> b3 = false -> b4 = false ->
      b5 = false -> b6 = false -> b7 = false -> final = [ok]).
Proof.
  destruct b1, b2, b3, b4, b5, b6, b7; cbn;
    (split; [discriminate|]);
    repeat (split; [first [discriminate | intros _; tauto]|]);
    (split; [reflexivity|]);
    first [reflexivity | discriminate | intros; discriminate | intros; reflexivity].
Qed.

Section Recommendations.

Import Tester.

Lemma generateRecommendations_nonempty (p : PartialResult) :
  generateRecommendations p <> [].
Proof.
  unfold generateRecommendations. cbv zeta.
  match goal with
  | |- pushIf _ _ (pushIf ?b7 ?l7 (pushIf ?b6 ?l6 (pushIf ?b5 ?l5 (pushIf ?b4 ?l4
         (pushIf ?b3 ?l3 (pushIf ?b2 ?l2 (pushIf ?b1 ?l1 []))))))) <> [] =>
      exact (proj1 (pushIf_chain b1 b2 b3 b4 b5 b6 b7 l1 l2 l3 l4 l5 l6 l7
                                 msgDeliverable))
  end.
Qed.

(** What the recommendations of a result say, once they are known to come
  from [generateRecommendations] and the records found are not empty
  strings. *)
Lemma recommendations_of_result (r : EmailTestResult) :
  recommendations r = generateRecommendations (beforeRecommendations r) ->
  (forall v, spfRecord r = Some v -> nonempty v = true) ->
  (forall v, dmarcRecord r = Some v -> nonempty v = true) ->
  recommendations r <> []
  /\ (isValid r = false -> In msgInvalidFormat (recommendations r))
  /\ (domainExists r = false -> In msgNoDomain (recommendations r))
  /\ (mxRecords r = [] -> In msgNoMx (recommendations r))
  /\ (spfRecord r = None -> In msgNoSpf (recommendations r))
  /\ (dmarcRecord r = None -> In msgNoDmarc (recommendations r))
  /\ (forall d, awsSes (deliverabilityTests r) = Some d -> success d = false ->
                In (msgSesFailed (error d)) (recommendations r))
  /\ (forall d, smtp (deliverabilityTests r) = Some d -> success d = false ->
                In (msgSmtpFailed (error d)) (recommendations r))
  /\ List.length (recommendations r)
     = Nat.max 1
         (Nat.b2n (negb (isValid r)) + Nat.b2n (negb (domainExists r))
          + Nat.b2n (List.length (mxRecords r) =? 0)%nat
          + Nat.b2n (negb (isSome (spfRecord r)))
          + Nat.b2n (negb (isSome (dmarcRecord r)))
          + Nat.b2n (failedDelivery (awsSes (deliverabilityTests r)))
          + Nat.b2n (failedDelivery (smtp (deliverabilityTests r))))
  /\ (isValid r = true -> domainExists r = true -> mxRecords r <> [] ->
      spfRecord r <> None -> dmarcRecord r <> None ->
      failedDelivery (awsSes (deliverabilityTests r)) = false ->
      failedDelivery (smtp (deliverabilityTests r)) = false ->
      recommendations r = [msgDeliverable]).
Proof.
  intros Hrec Hspf Hdmarc. rewrite Hrec.
  assert (truthyString (spfRecord r) = isSome (spfRecord r)) as Espf.
  { destruct (spfRecord r) as [v|]; [apply Hspf|]; reflexivity. }
  assert (truthyString (dmarcRecord r) = isSome (dmarcRecord r)) as Edmarc.
  { destruct (dmarcRecord r) as [v|]; [apply Hdmarc|]; reflexivity. }
  unfold generateRecommendations. cbv zeta.
  cbn [beforeRecommendations p_isValid p_domainExists p_mxRecords p_spfRecord
       p_dmarcRecord p_deliverabilityTests truthyBool].
  rewrite Espf, Edmarc.
  match goal with
  | |- pushIf _ _ (pushIf ?b7 ?l7 (pushIf ?b6 ?l6 (pushIf ?b5 ?l5 (pushIf ?b4 ?l4
         (pushIf ?b3 ?l3 (pushIf ?b2 ?l2 (pushIf ?b1 ?l1 []))))))) <> [] /\ _ =>
      destruct (pushIf_chain b1 b2 b3 b4 b5 b6 b7 l1 l2 l3 l4 l5 l6 l7
                             msgDeliverable)
        as (H0 & H1 & H2 & H3 & H4 & H5 & H6 & H7 & Hlen & Hok)
  end.
  cbv zeta in H0, H1, H2, H3, H4, H5, H6, H7, Hlen, Hok.
  split; [exact H0|].
  split; [intros E; apply H1; rewrite E; reflexivity|].
  split; [intros E; apply H2; rewrite E; reflexivity|].
  split; [intros E; apply H3; rewrite E; reflexivity|].
  split; [intros E; apply H4; rewrite E; reflexivity|].
  split; [intros E; apply H5; rewrite E; reflexivity|].
  split.
  { intros d Ed Es. rewrite Ed in H6. cbn [failedDelivery deliveryError] in H6.
    rewrite Ed. cbn [failedDelivery deliveryError].
    apply H6. rewrite Es. reflexivity. }
  split.
  { intros d Ed Es. rewrite Ed in H7. cbn [failedDelivery deliveryError] in H7.
    rewrite Ed. cbn [failedDelivery deliveryError].
    apply H7. rewrite Es. reflexivity. }
  split; [exact Hlen|].
  intros E1 E2 E3 E4 E5 E6 E7. apply Hok; auto.
  - rewrite E1. reflexivity.
  - rewrite E2. reflexivity.
  - destruct (mxRecords r); [congruence | reflexivity].
  - destruct (spfRecord r); [reflexivity | congruence].
  - destruct (dmarcRecord r); [reflexivity | congruence].
Qed.

End Recommendations.

(** ** The batch runner *)

Section BatchFacts.

Import Tester.

Variable env : Env.
Variable test : EmailTestConfig -> M EmailTestResult.

Lemma iteration_run config acc h :
  exists result evs,
    iteration test config acc h
    = (Returned {| t_results := t_results acc ++ [result];
                   t_successful :=
                     t_successful acc + Nat.b2n (isDeliverable result);
                   t_failed :=
                     t_failed acc + Nat.b2n (negb (isDeliverable result)) |},
       evs)
    /\ ((exists evs', test config h = (Returned result, evs'))
        \/ (exists e evs', test config h = (Thrown e, evs')
                           /\ result = errorResult config e)).
Proof.
  unfold iteration, try_catch, bind, ret.
  destruct (test config h) as [[result|e] evs] eqn:E.
  - exists result. eexists. split; [|left; eexists; reflexivity].
    destruct (isDeliverable result); cbn [Nat.b2n negb];
      rewrite ?Nat.add_0_r, ?Nat.add_1_r; reflexivity.
  - exists (errorResult config e). eexists.
    split; [|right; eexists; eexists; split; reflexivity].
    cbn [isDeliverable errorResult isValid andb Nat.b2n negb].
    rewrite ?Nat.add_0_r, ?Nat.add_1_r. reflexivity.
Qed.

Lemma loop_run configs : forall acc h,
  exists new evs,
    loop test configs acc h
    = (Returned {| t_results := t_results acc ++ new;
                   t_successful :=
                     t_successful acc + List.length (filter isDeliverable new);
                   t_failed :=
                     t_failed acc
                     + List.length (filter (fun r => negb (isDeliverable r)) new) |},
       evs)
    /\ Forall2 (fun config result =>
                  (exists h' evs', test config h' = (Returned result, evs'))
                  \/ (exists h' e evs', test config h' = (Thrown e, evs')
                                        /\ result = errorResult config e))
               configs new.
Proof.
  induction configs as [|config rest IH]; intros acc h.
  - exists [], []. split; [|constructor].
    cbn [loop ret filter List.length]. rewrite app_nil_r, !Nat.add_0_r.
    destruct acc; reflexivity.
  - destruct (iteration_run config acc h) as (result & evs1 & E1 & Hitem).
    destruct (IH {| t_results := t_results acc ++ [result];
                    t_successful :=
                      t_successful acc + Nat.b2n (isDeliverable result);
                    t_failed :=
                      t_failed acc + Nat.b2n (negb (isDeliverable result)) |}
                 (h ++ evs1)) as (new & evs2 & E2 & Hrest).
    exists (result :: new), (evs1 ++ evs2).
    split.
    2:{ constructor; [|exact Hrest].
        destruct Hitem as [(evs' & Ht) | (e & evs' & Ht & He)].
        - left. exists h, evs'. exact Ht.
        - right. exists h, e, evs'. split; assumption. }
    cbn [loop]. erewrite bind_returned; [reflexivity | exact E1 |].
    rewrite E2. cbn [t_results t_successful t_failed filter].
    rewrite <- app_assoc. cbn [app].
    destruct (isDeliverable result); cbn [negb Nat.b2n List.length];
      f_equal; f_equal; f_equal; lia.
Qed.

End BatchFacts.


Lemma classify_lengths (l : list Tester.EmailTestResult) :
  forall acc,
    List.length (fst (fold_left Tester.classify l acc))
    + List.length (snd (fold_left Tester.classify l acc))
    = List.length (fst acc) + List.length (snd acc) + List.length l.
Proof.
  induction l as [|r l IH]; intros acc; cbn [fold_left List.length]; [lia|].
  rewrite IH. unfold Tester.classify.
  destruct (Tester.isValid r && Tester.domainExists r
            && (0 <? List.length (Tester.mxRecords r))%nat);
    cbn [fst snd]; rewrite length_app; cbn [List.length]; lia.
Qed.

Section BatchClaims.

Import Tester.

Variable env : Env.
Variable self : EmailDeliverabilityTester.

Lemma testMultipleEmailsWith_run test configs h :
  exists batch evs,
    testMultipleEmailsWith env test configs h = (Returned batch, evs)
    /\ total batch = List.length configs
    /\ Forall2 (fun config result =>
                  (exists h' evs', test config h' = (Returned result, evs'))
                  \/ (exists h' e evs', test config h' = (Thrown e, evs')
                                        /\ result = errorResult config e))
               configs (results batch)
    /\ successful batch = List.length (filter isDeliverable (results batch))
    /\ failed batch
       = List.length (filter (fun r => negb (isDeliverable r)) (results batch)).
Proof.
  unfold testMultipleEmailsWith.
  destruct (loop_run test configs
              {| t_results := []; t_successful := 0; t_failed := 0 |}
              (h ++ [DateNow])) as (new & evs & E & Hitems).
  eexists. eexists. split.
  - eapply bind_returned; [apply Date_now_run|].
    eapply bind_returned; [exact E|].
    eapply bind_returned; [apply Date_now_run|]. reflexivity.
  - cbn [total results successful failed t_results t_successful t_failed app].
    repeat split; try reflexivity. exact Hitems.
Qed.


Lemma validateEmailsWith_run test emails h :
  exists v evs,
    validateEmailsWith env test emails h = (Returned v, evs)
    /\ List.length (validEmails v) + List.length (invalidEmails v)
       = List.length emails
    /\ s_total (summary v) = List.length emails
    /\ s_valid (summary v) = List.length (validEmails v)
    /\ s_invalid (summary v) = List.length (invalidEmails v).
Proof.
  unfold validateEmailsWith.
  destruct (testMultipleEmailsWith_run test
              (List.map (fun email =>
                           {| email := email; provider := None; smtpConfig := None;
                              testMessage := None;
                              skipActualDelivery := Some true |}) emails) h)
    as (batch & evs & E & _ & Hitems & _).
  eexists. eexists. split.
  - eapply bind_returned; [exact E|]. reflexivity.
  - cbn [validEmails invalidEmails summary s_total s_valid s_invalid].
    repeat split; try reflexivity.
    rewrite classify_lengths. cbn [fst snd List.length].
    apply Forall2_length in Hitems. rewrite length_map in Hitems. lia.
Qed.

(** C5.  [validateEmails] returns, for a list of [N] addresses, lists of
  valid and of invalid addresses whose lengths add up to [N], with
  [total = N], [valid] and [invalid] the lengths of the two lists; on the
  empty list the two lists are empty and the three counts are zero. *)
Theorem validateEmails_counts (emails : list jsstring) (h : History) :
  (exists v evs,
      validateEmails env self emails h = (Returned v, evs)
      /\ List.length (validEmails v) + List.length (invalidEmails v)
         = List.length emails
      /\ s_total (summary v) = List.length emails
      /\ s_valid (summary v) = List.length (validEmails v)
      /\ s_invalid (summary v) = List.length (invalidEmails v))
  /\ (exists evs,
        validateEmails env self [] h
        = (Returned {| validEmails := [];
                       invalidEmails := [];
                       summary := {| s_total := 0; s_valid := 0;
                                     s_invalid := 0 |} |}, evs)).
Proof.
  split.
  - apply validateEmailsWith_run.
  - eexists. reflexivity.
Qed.

End BatchClaims.

Section ResultClaims.

Import Tester.

Variable env : Env.
Variable self : EmailDeliverabilityTester.

(** [testEmailDeliverability] never throws, and its recommendations are
  those computed from its other properties. *)
Lemma testEmailDeliverability_result config h :
  exists r evs,
    testEmailDeliverability env self config h = (Returned r, evs)
    /\ r_email r = email config
    /\ isValid r = validateEmailFormat (email config)
    /\ recommendations r = generateRecommendations (beforeRecommendations r)
    /\ (forall v, spfRecord r = Some v -> nonempty v = true)
    /\ (forall v, dmarcRecord r = Some v -> nonempty v = true).
Proof.
  destruct (validateEmailFormat (email config)) eqn:Hv.
  - destruct (testEmailDeliverability_valid env self config h Hv)
      as (r & evA & evS & Hrun & Hemail & Hvalid & _ & Hspf & Hdmarc & _ & _ & Hrec & _).
    cbv zeta in Hrun, Hspf, Hdmarc.
    exists r. eexists. split; [exact Hrun|].
    repeat split; try assumption.
    + intros v Ev. rewrite Ev in Hspf. eapply checkSpfRecord_truthy. exact Hspf.
    + intros v Ev. rewrite Ev in Hdmarc. eapply checkDmarcRecord_truthy. exact Hdmarc.
  - eexists. eexists. split; [apply testEmailDeliverability_invalid; exact Hv|].
    repeat split; try reflexivity; intros v Ev; discriminate Ev.
Qed.

(** C7.  Every result of [testEmailDeliverability] carries a non-empty list
  of recommendations with one line per deficiency: the invalid-format line
  when [isValid] is false, the domain line when [domainExists] is false,
  and the lines for no MX record, no SPF record, no DMARC record and for
  each backend that failed; the number of lines is the number of
  deficiencies, and with no deficiency the list is the success line
  alone. *)
Theorem recommendations_report_deficiencies config h :
  exists r evs,
    testEmailDeliverability env self config h = (Returned r, evs)
    /\ recommendations r <> []
    /\ (isValid r = false ->
        In msgInvalidFormat (recommendations r)
        /\ includes msgInvalidFormat (lit "invalid") = true)
    /\ (domainExists r = false ->
        In msgNoDomain (recommendations r)
        /\ includes msgNoDomain (lit "domain") = true)
    /\ (mxRecords r = [] -> In msgNoMx (recommendations r))
    /\ (spfRecord r = None -> In msgNoSpf (recommendations r))
    /\ (dmarcRecord r = None -> In msgNoDmarc (recommendations r))
    /\ (forall d, awsSes (deliverabilityTests r) = Some d -> success d = false ->
                  In (msgSesFailed (error d)) (recommendations r))
    /\ (forall d, smtp (deliverabilityTests r) = Some d -> success d = false ->
                  In (msgSmtpFailed (error d)) (recommendations r))
    /\ List.length (recommendations r)
       = Nat.max 1
           (Nat.b2n (negb (isValid r)) + Nat.b2n (negb (domainExists r))
            + Nat.b2n (List.length (mxRecords r) =? 0)%nat
            + Nat.b2n (negb (isSome (spfRecord r)))
            + Nat.b2n (negb (isSome (dmarcRecord r)))
            + Nat.b2n (failedDelivery (awsSes (deliverabilityTests r)))
            + Nat.b2n (failedDelivery (smtp (deliverabilityTests r))))
    /\ (isValid r = true -> domainExists r = true -> mxRecords r <> [] ->
        spfRecord r <> None -> dmarcRecord r <> None ->
        failedDelivery (awsSes (deliverabilityTests r)) = false ->
        failedDelivery (smtp (deliverabilityTests r)) = false ->
        recommendations r = [msgDeliverable]).
Proof.
  destruct (testEmailDeliverability_result config h)
    as (r & evs & Hrun & _ & _ & Hrec & Hspf & Hdmarc).
  destruct (recommendations_of_result r Hrec Hspf Hdmarc)
    as (H0 & H1 & H2 & H3 & H4 & H5 & H6 & H7 & Hlen & Hok).
  exists r, evs. split; [exact Hrun|]. split; [exact H0|].
  split; [intros E; split; [exact (H1 E) | reflexivity]|].
  split; [intros E; split; [exact (H2 E) | reflexivity]|].
  repeat (split; [assumption|]). exact Hok.
Qed.

End ResultClaims.

Lemma recommendations_report_deficiencies_witness :
  exists r evs,
    Tester.testEmailDeliverability Scenario.online Scenario.sesTester
      (Scenario.skipConfig (lit "test@nonexistentdomain12345.com")
                           (Some Tester.AwsSes)) []
    = (Returned r, evs)
    /\ Tester.recommendations r
       = [Tester.msgNoDomain; Tester.msgNoMx; Tester.msgNoSpf; Tester.msgNoDmarc].
Proof.
  destruct (recommendations_report_deficiencies Scenario.online Scenario.sesTester
              (Scenario.skipConfig (lit "test@nonexistentdomain12345.com")
                                   (Some Tester.AwsSes)) [])
    as (r & evs & Hrun & _).
  exists r, evs. split; [exact Hrun|].
  vm_compute in Hrun. injection Hrun as <- _. reflexivity.
Defined.

(** ** The email sender *)

Section SenderFacts.

Import Sender.

Variable env : Env.
Variable self : EmailSender.

Lemma andThen_settled {A B} (m : Async A) (k : A -> Async B) h a evs c evs' :
  m h = (Settled (Returned a), evs) ->
  k a (h ++ evs) = (c, evs') ->
  andThen m k h = (c, evs ++ evs').
Proof.
  intros Hm Hk. unfold andThen. rewrite Hm, Hk. reflexivity.
Qed.

Lemma andThen_pending {A B} (m : Async A) (k : A -> Async B) h evs :
  m h = (Pending, evs) ->
  andThen m k h = (Pending, evs).
Proof.
  intros Hm. unfold andThen. rewrite Hm. reflexivity.
Qed.

Lemma settles_run {A} (m : M A) h o evs :
  m h = (o, evs) -> settles m h = (Settled o, evs).
Proof.
  intros Hm. unfold settles. rewrite Hm. reflexivity.
Qed.

(** What the raw path can end in: a result tagged ['aws-ses'], or a promise
  that stays pending before the SES client was called; never a throw. *)
Lemma sendRawEmailWithSes_outcome o h :
  match sendRawEmailWithSes env self o h with
  | (Settled (Returned r), evs) =>
      provider r = AwsSes
      /\ (success r = true -> error r = None /\ existsb sesEvent evs = true)
      /\ (success r = false -> messageId r = None /\ exists msg, error r = Some msg)
      /\ forallb (fun ev => negb (verifyEvent ev)) evs = true
  | (Settled (Thrown _), _) => False
  | (Pending, evs) =>
      forallb (fun ev => negb (sesEvent ev)) evs = true
      /\ forallb (fun ev => negb (verifyEvent ev)) evs = true
  end.
Proof.
  unfold sendRawEmailWithSes, try_await, andThen, settles, rawEmailOf, resolved,
    createTransport, sesClient_send, throw, perform.
  destruct (nodemailer_createTransport env h _) as [t|e1].
  2:{ cbn. repeat split; try discriminate. eexists. reflexivity. }
  destruct (transporter_sendMail env _ t _) as [info|e2].
  2:{ cbn. repeat split; try discriminate. eexists. reflexivity. }
  destruct (info_message info) as [bytes|]; [|cbn; split; reflexivity].
  destruct (sesClient self) as [client|].
  - destruct (ses_send env _ client _) as [id|e3]; cbn;
      repeat split; try discriminate. eexists. reflexivity.
  - cbn. repeat split; try discriminate. eexists. reflexivity.
Qed.

(** What [sendWithSes] can end in.  It stays pending only on the raw path. *)
Lemma sendWithSes_outcome o h :
  match sendWithSes env self o h with
  | (Settled (Returned r), evs) =>
      provider r = AwsSes
      /\ (success r = true -> error r = None /\ existsb sesEvent evs = true)
      /\ (success r = false -> messageId r = None /\ exists msg, error r = Some msg)
      /\ forallb (fun ev => negb (verifyEvent ev)) evs = true
  | (Settled (Thrown _), _) => False
  | (Pending, evs) =>
      hasAttachments o = true
      /\ sesClient self <> None
      /\ forallb (fun ev => negb (sesEvent ev)) evs = true
      /\ forallb (fun ev => negb (verifyEvent ev)) evs = true
  end.
Proof.
  unfold sendWithSes.
  destruct (sesClient self) as [client|] eqn:Hc.
  2:{ cbn. repeat split; try discriminate. eexists. reflexivity. }
  unfold try_await.
  destruct (hasAttachments o).
  - pose proof (sendRawEmailWithSes_outcome o h) as H.
    destruct (sendRawEmailWithSes env self o h) as [[[r|e]|] evs].
    + exact H.
    + contradiction.
    + destruct H as [H1 H2]. repeat split; try assumption. discriminate.
  - unfold andThen, settles, resolved, sesClient_send, perform.
    destruct (ses_send env h client _) as [id|e]; cbn;
      repeat split; try discriminate. eexists. reflexivity.
Qed.

(** Off the raw path [sendWithSes] returns. *)
Lemma sendWithSes_returns o h :
  hasAttachments o = false \/ sesClient self = None ->
  exists r evs,
    sendWithSes env self o h = (Settled (Returned r), evs)
    /\ provider r = AwsSes
    /\ (success r = false -> exists msg, error r = Some msg)
    /\ forallb (fun ev => negb (verifyEvent ev)) evs = true.
Proof.
  intros Hoff. pose proof (sendWithSes_outcome o h) as H.
  destruct (sendWithSes env self o h) as [[[r|e]|] evs].
  - destruct H as (Hp & _ & Hf & Hev). exists r, evs.
    split; [reflexivity|]. split; [exact Hp|]. split; [|exact Hev].
    intros Hs. apply Hf. exact Hs.
  - contradiction.
  - destruct H as (Ha & Hc & _). destruct Hoff as [Hoff | Hoff]; congruence.
Qed.

Lemma sendWithSmtp_returns o h :
  exists r evs,
    sendWithSmtp env self o h = (Returned r, evs)
    /\ provider r = Smtp
    /\ (success r = false -> exists msg, error r = Some msg)
    /\ forallb (fun ev => negb (sesEvent ev)) evs = true.
Proof.
  unfold sendWithSmtp.
  destruct (smtpTransporter self) as [t|].
  2:{ eexists. eexists. split; [reflexivity|].
      repeat split; try reflexivity. intros _. eexists. reflexivity. }
  unfold try_catch, bind, verify, sendMail, perform, ret.
  destruct (transporter_verify env h t) as [[]|e1].
  2:{ eexists. eexists. split; [reflexivity|].
      repeat split; try reflexivity. intros _. eexists. reflexivity. }
  destruct (transporter_sendMail env _ t _) as [info|e2].
  - eexists. eexists. split; [reflexivity|].
    repeat split; try reflexivity. discriminate.
  - eexists. eexists. split; [reflexivity|].
    repeat split; try reflexivity. intros _. eexists. reflexivity.
Qed.

Lemma logCall_run requested h :
  logCall self requested h = (Returned tt, snd (logCall self requested h)).
Proof. reflexivity. Qed.

(** [send] with an explicit provider: the console lines, then the method
  of that provider, whatever it ends in. *)
Lemma send_explicit_ses o h c evs :
  sendWithSes env self o
    (h ++ snd (logCall self (Some AwsSes) h) ++ [ConsoleLog lineExplicitSes])
  = (c, evs) ->
  send env self o (Some AwsSes) h
  = (c, snd (logCall self (Some AwsSes) h) ++ [ConsoleLog lineExplicitSes] ++ evs).
Proof.
  intros E. unfold send.
  eapply andThen_settled; [apply settles_run, logCall_run|].
  eapply andThen_settled; [reflexivity|].
  rewrite <- app_assoc. exact E.
Qed.

Lemma send_explicit_smtp o h r evs :
  sendWithSmtp env self o
    (h ++ snd (logCall self (Some Smtp) h) ++ [ConsoleLog lineExplicitSmtp])
  = (r, evs) ->
  send env self o (Some Smtp) h
  = (Settled r,
     snd (logCall self (Some Smtp) h) ++ [ConsoleLog lineExplicitSmtp] ++ evs).
Proof.
  intros E. unfold send.
  eapply andThen_settled; [apply settles_run, logCall_run|].
  eapply andThen_settled; [reflexivity|].
  apply settles_run. rewrite <- app_assoc. exact E.
Qed.

(** The SMTP step of the automatic mode. *)
Lemma smtpOrNone_configured o h t r evs :
  smtpTransporter self = Some t ->
  sendWithSmtp env self o (h ++ [ConsoleLog lineUsingSmtp]) = (r, evs) ->
  smtpOrNone env self o h = (r, [ConsoleLog lineUsingSmtp] ++ evs).
Proof.
  intros Ht E. unfold smtpOrNone. rewrite Ht.
  eapply bind_returned; [reflexivity | exact E].
Qed.

Lemma smtpOrNone_missing o h :
  smtpTransporter self = None ->
  smtpOrNone env self o h = (Returned (failure msgNoProvider AwsSes), []).
Proof.
  intros Ht. unfold smtpOrNone. rewrite Ht. reflexivity.
Qed.

(** [send] without a provider, SES client present: the result of
  [sendWithSes] decides what comes next. *)
Lemma send_auto_ses o h client r1 evs1 :
  sesClient self = Some client ->
  sendWithSes env self o
    (h ++ snd (logCall self None h) ++ [ConsoleLog lineTryingSes])
  = (Settled (Returned r1), evs1) ->
  forall r evs,
    (if success r1 then (Returned r1, [])
     else smtpOrNone env self o
            (h ++ snd (logCall self None h) ++ [ConsoleLog lineTryingSes] ++ evs1))
    = (r, evs) ->
    send env self o None h
    = (Settled r,
       snd (logCall self None h) ++ [ConsoleLog lineTryingSes] ++ evs1 ++ evs).
Proof.
  intros Hc E1 r evs E2. unfold send. rewrite Hc.
  eapply andThen_settled; [apply settles_run, logCall_run|].
  eapply andThen_settled; [reflexivity|].
  eapply andThen_settled; [rewrite <- app_assoc; exact E1|].
  destruct (success r1).
  - injection E2 as <- <-. reflexivity.
  - apply settles_run. rewrite <- E2. f_equal. rewrite <- !app_assoc. reflexivity.
Qed.

(** When [sendWithSes] stays pending, so does [send]: nothing else runs. *)
Lemma send_auto_pending o h client evs1 :
  sesClient self = Some client ->
  sendWithSes env self o
    (h ++ snd (logCall self None h) ++ [ConsoleLog lineTryingSes])
  = (Pending, evs1) ->
  send env self o None h
  = (Pending, snd (logCall self None h) ++ [ConsoleLog lineTryingSes] ++ evs1).
Proof.
  intros Hc E1. unfold send. rewrite Hc.
  rewrite <- (app_nil_r evs1).
  eapply andThen_settled; [apply settles_run, logCall_run|].
  eapply andThen_settled; [reflexivity|].
  rewrite app_nil_r. apply andThen_pending. rewrite <- app_assoc. exact E1.
Qed.

(** [send] without a provider, no SES client. *)
Lemma send_auto_no_ses o h r evs :
  sesClient self = None ->
  smtpOrNone env self o (h ++ snd (logCall self None h)) = (r, evs) ->
  send env self o None h = (Settled r, snd (logCall self None h) ++ evs).
Proof.
  intros Hc E. unfold send. rewrite Hc.
  eapply andThen_settled; [apply settles_run, logCall_run|].
  apply settles_run. exact E.
Qed.

End SenderFacts.

Section SenderClaims.

Import Sender.

Variable env : Env.
Variable self : EmailSender.

(** C4, as amended.  With an explicit provider, [send] logs and then runs
  the method of that provider and nothing else: with ['aws-ses'] its
  outcome and events are those of [sendWithSes], whatever they are, with no
  call of [verify]; with ['smtp'] they are those of [sendWithSmtp], with no
  call of the SES client.  Without a provider and with an SES client,
  [send] runs [sendWithSes] first; when that returns a success, [send]
  returns it; when it returns a failure, or when there is no SES client,
  [send] runs [sendWithSmtp] next and returns its result, provided an SMTP
  transporter is configured, and returns the no-provider failure
  otherwise. *)
Theorem send_dispatch (o : EmailOptions) (h : History) :
  (exists logs,
      forallb consoleEvent logs = true
      /\ forall c evs,
           sendWithSes env self o (h ++ logs) = (c, evs) ->
           send env self o (Some AwsSes) h = (c, logs ++ evs)
           /\ forallb (fun ev => negb (verifyEvent ev)) (logs ++ evs) = true)
  /\ (exists logs r evs,
         forallb consoleEvent logs = true
         /\ sendWithSmtp env self o (h ++ logs) = (Returned r, evs)
         /\ send env self o (Some Smtp) h = (Settled (Returned r), logs ++ evs)
         /\ forallb (fun ev => negb (sesEvent ev)) (logs ++ evs) = true)
  /\ (forall client, sesClient self = Some client ->
        exists logs,
          forallb consoleEvent logs = true
          /\ (exists rest,
                 snd (send env self o None h)
                 = logs ++ snd (sendWithSes env self o (h ++ logs)) ++ rest)
          /\ forall r1 evs1,
               sendWithSes env self o (h ++ logs) = (Settled (Returned r1), evs1) ->
               (success r1 = true ->
                send env self o None h = (Settled (Returned r1), logs ++ evs1))
               /\ (success r1 = false ->
                   forall t, smtpTransporter self = Some t ->
                     exists logs2 r2 evs2,
                       forallb consoleEvent logs2 = true
                       /\ sendWithSmtp env self o (h ++ logs ++ evs1 ++ logs2)
                          = (Returned r2, evs2)
                       /\ send env self o None h
                          = (Settled (Returned r2), logs ++ evs1 ++ logs2 ++ evs2))
               /\ (success r1 = false ->
                   smtpTransporter self = None ->
                   send env self o None h
                   = (Settled (Returned (failure msgNoProvider AwsSes)),
                      logs ++ evs1)))
  /\ (sesClient self = None ->
      (forall t, smtpTransporter self = Some t ->
         exists logs r2 evs2,
           forallb consoleEvent logs = true
           /\ sendWithSmtp env self o (h ++ logs) = (Returned r2, evs2)
           /\ send env self o None h = (Settled (Returned r2), logs ++ evs2)
           /\ forallb (fun ev => negb (sesEvent ev)) (logs ++ evs2) = true)
      /\ (smtpTransporter self = None ->
          exists logs,
            forallb consoleEvent logs = true
            /\ send env self o None h
               = (Settled (Returned (failure msgNoProvider AwsSes)), logs))).
Proof.
  split; [|split; [|split]].
  - exists (snd (logCall self (Some AwsSes) h) ++ [ConsoleLog lineExplicitSes]).
    split; [reflexivity|]. intros c evs E. split.
    + rewrite <- app_assoc. apply send_explicit_ses. exact E.
    + rewrite forallb_app. apply andb_true_iff. split; [reflexivity|].
      pose proof (sendWithSes_outcome env self o
                    (h ++ snd (logCall self (Some AwsSes) h)
                       ++ [ConsoleLog lineExplicitSes])) as H.
      rewrite E in H. destruct c as [[r|e]|].
      * apply H.
      * contradiction.
      * apply H.
  - destruct (sendWithSmtp_returns env self o
                (h ++ snd (logCall self (Some Smtp) h)
                   ++ [ConsoleLog lineExplicitSmtp]))
      as (r & evs & E & _ & _ & Hev).
    exists (snd (logCall self (Some Smtp) h) ++ [ConsoleLog lineExplicitSmtp]),
      r, evs.
    split; [reflexivity|]. split; [exact E|]. split.
    + rewrite <- app_assoc. apply send_explicit_smtp. exact E.
    + rewrite forallb_app, Hev. reflexivity.
  - intros client Hc.
    exists (snd (logCall self None h) ++ [ConsoleLog lineTryingSes]).
    split; [reflexivity|]. split.
    { pose proof (sendWithSes_outcome env self o
                    (h ++ snd (logCall self None h) ++ [ConsoleLog lineTryingSes]))
        as H.
      destruct (sendWithSes env self o
                  (h ++ snd (logCall self None h) ++ [ConsoleLog lineTryingSes]))
        as [[[r1|e]|] evs1] eqn:E1.
      - destruct (if success r1 then (Returned r1, [])
                  else smtpOrNone env self o
                         (h ++ snd (logCall self None h)
                            ++ [ConsoleLog lineTryingSes] ++ evs1))
          as [r evs] eqn:E2.
        rewrite (send_auto_ses env self o h Hc E1 E2).
        exists evs. cbn [snd]. rewrite <- !app_assoc. reflexivity.
      - contradiction.
      - rewrite (send_auto_pending env self o h Hc E1).
        exists []. cbn [snd]. rewrite app_nil_r, <- !app_assoc. reflexivity. }
    intros r1 evs1 E1.
    split; [|split].
    + intros Hs.
      rewrite (send_auto_ses env self o h Hc E1 (r := Returned r1) (evs := [])).
      * rewrite app_nil_r, <- app_assoc. reflexivity.
      * rewrite Hs. reflexivity.
    + intros Hs t Ht.
      destruct (sendWithSmtp_returns env self o
                  ((h ++ snd (logCall self None h) ++ [ConsoleLog lineTryingSes]
                      ++ evs1) ++ [ConsoleLog lineUsingSmtp]))
        as (r2 & evs2 & E2 & _).
      exists [ConsoleLog lineUsingSmtp], r2, evs2.
      split; [reflexivity|]. split.
      * rewrite <- E2. f_equal. rewrite <- !app_assoc. reflexivity.
      * rewrite (send_auto_ses env self o h Hc E1
                   (r := Returned r2) (evs := [ConsoleLog lineUsingSmtp] ++ evs2)).
        -- rewrite <- !app_assoc. reflexivity.
        -- rewrite Hs. apply smtpOrNone_configured with (t := t); assumption.
    + intros Hs Ht.
      rewrite (send_auto_ses env self o h Hc E1
                 (r := Returned (failure msgNoProvider AwsSes)) (evs := [])).
      * rewrite app_nil_r, <- app_assoc. reflexivity.
      * rewrite Hs. apply smtpOrNone_missing. exact Ht.
  - intros Hc. split.
    + intros t Ht.
      destruct (sendWithSmtp_returns env self o
                  ((h ++ snd (logCall self None h)) ++ [ConsoleLog lineUsingSmtp]))
        as (r2 & evs2 & E2 & _ & _ & Hev).
      exists (snd (logCall self None h) ++ [ConsoleLog lineUsingSmtp]), r2, evs2.
      split; [reflexivity|]. split; [rewrite app_assoc; exact E2|]. split.
      * rewrite (send_auto_no_ses env self o h Hc
                   (r := Returned r2) (evs := [ConsoleLog lineUsingSmtp] ++ evs2)).
        -- rewrite <- !app_assoc. reflexivity.
        -- apply smtpOrNone_configured with (t := t); assumption.
      * rewrite forallb_app, Hev. reflexivity.
    + intros Ht. exists (snd (logCall self None h)).
      split; [reflexivity|].
      rewrite (send_auto_no_ses env self o h Hc
                 (r := Returned (failure msgNoProvider AwsSes)) (evs := [])).
      * rewrite app_nil_r. reflexivity.
      * apply smtpOrNone_missing. exact Ht.
Qed.

End SenderClaims.

Section SenderTotality.

Import Sender.

Variable env : Env.
Variable self : EmailSender.

(** The SMTP step of the automatic mode returns, with an error message
  when it fails. *)
Lemma smtpOrNone_returns o h :
  exists r evs,
    smtpOrNone env self o h = (Returned r, evs)
    /\ (success r = false -> exists msg, error r = Some msg).
Proof.
  destruct (smtpTransporter self) as [t|] eqn:Ht.
  - destruct (sendWithSmtp_returns env self o (h ++ [ConsoleLog lineUsingSmtp]))
      as (r & evs & E & _ & Herr & _).
    exists r. eexists. split; [|exact Herr].
    apply smtpOrNone_configured with (t := t); eassumption.
  - eexists. eexists. split; [apply smtpOrNone_missing; exact Ht|].
    intros _. eexists. reflexivity.
Qed.

(** C10, as amended.  On every call that does not enter the raw-message
  path of SES (the options carry no attachment, or the provider is
  ['smtp'], or there is no SES client), [send] does not throw: it returns a
  result, and a result with [success = false] carries an error message.
  When neither backend is configured and no provider is passed, the result
  is the no-provider failure, tagged ['aws-ses'], and no backend was
  called; when a provider is passed, the result is the not-configured
  failure of that provider, tagged with it. *)
Theorem send_never_throws (o : EmailOptions) (requested : option Provider)
        (h : History) :
  hasAttachments o = false \/ requested = Some Smtp \/ sesClient self = None ->
  exists r evs,
    send env self o requested h = (Settled (Returned r), evs)
    /\ (success r = false -> exists msg, error r = Some msg)
    /\ (sesClient self = None -> smtpTransporter self = None ->
        forallb consoleEvent evs = true
        /\ success r = false
        /\ match requested with
           | None => error r = Some msgNoProvider /\ provider r = AwsSes
           | Some AwsSes => error r = Some msgSesNotConfigured /\ provider r = AwsSes
           | Some Smtp => error r = Some msgSmtpNotConfigured /\ provider r = Smtp
           end).
Proof.
  intros Hoff.
  assert (requested <> Some Smtp ->
          hasAttachments o = false \/ sesClient self = None) as Hses.
  { intros Hn. destruct Hoff as [H | [H | H]]; [left; exact H | congruence |
                                                right; exact H]. }
  destruct requested as [[|]|].
  - destruct (sendWithSes_returns env self o
                (h ++ snd (logCall self (Some AwsSes) h)
                   ++ [ConsoleLog lineExplicitSes]))
      as (r & evs & E & _ & Herr & _); [apply Hses; discriminate|].
    exists r. eexists. split; [apply send_explicit_ses; exact E|].
    split; [exact Herr|]. intros Hc _.
    unfold sendWithSes in E. rewrite Hc in E. injection E as <- <-.
    repeat split.
  - destruct (sendWithSmtp_returns env self o
                (h ++ snd (logCall self (Some Smtp) h)
                   ++ [ConsoleLog lineExplicitSmtp]))
      as (r & evs & E & _ & Herr & _).
    exists r. eexists. split; [apply send_explicit_smtp; exact E|].
    split; [exact Herr|]. intros _ Ht.
    unfold sendWithSmtp in E. rewrite Ht in E. injection E as <- <-.
    repeat split.
  - destruct (sesClient self) as [client|] eqn:Hc.
    + destruct (sendWithSes_returns env self o
                  (h ++ snd (logCall self None h) ++ [ConsoleLog lineTryingSes]))
        as (r1 & evs1 & E1 & _ & Herr1 & _).
      { rewrite Hc. apply Hses. discriminate. }
      destruct (success r1) eqn:Hs.
      * exists r1. eexists. split.
        -- apply (send_auto_ses env self o h Hc E1). rewrite Hs. reflexivity.
        -- split; [intros Hf; congruence | discriminate].
      * destruct (smtpOrNone_returns o
                    (h ++ snd (logCall self None h) ++ [ConsoleLog lineTryingSes]
                       ++ evs1)) as (r & evs & E2 & Herr).
        exists r. eexists. split.
        -- apply (send_auto_ses env self o h Hc E1). rewrite Hs. exact E2.
        -- split; [exact Herr | discriminate].
    + destruct (smtpOrNone_returns o (h ++ snd (logCall self None h)))
        as (r & evs & E & Herr).
      exists r. eexists. split; [apply send_auto_no_ses; eassumption|].
      split; [exact Herr|]. intros _ Ht.
      rewrite (smtpOrNone_missing env self o _ Ht) in E. injection E as <- <-.
      repeat split.
Qed.

End SenderTotality.

Lemma send_dispatch_witness :
  exists r evs,
    Sender.send Scenario.offline Scenario.fullSender Scenario.hello None []
    = (Settled (Returned r), evs)
    /\ Sender.provider r = Sender.Smtp
    /\ existsb sesEvent evs = true.
Proof.
  destruct (send_dispatch Scenario.offline Scenario.fullSender Scenario.hello [])
    as (_ & _ & Hauto & _).
  destruct (Hauto Scenario.client eq_refl) as (logs & Hlogs & _ & Hnext).
  destruct (Sender.sendWithSes Scenario.offline Scenario.fullSender Scenario.hello
              ([] ++ logs)) as [c1 evs1] eqn:E1.
  assert (exists r1, c1 = Settled (Returned r1)
                     /\ Sender.success r1 = false
                     /\ existsb sesEvent evs1 = true) as (r1 & -> & Hs & Hses).
  { vm_compute in E1. injection E1 as <- <-. eexists. repeat split. }
  destruct (Hnext r1 evs1 eq_refl) as (_ & Hfall & _).
  destruct (Hfall Hs Scenario.relay eq_refl)
    as (logs2 & r2 & evs2 & _ & E2 & Hsend).
  exists r2. eexists. split; [exact Hsend|]. split.
  - vm_compute in E2. injection E2 as <- _. reflexivity.
  - rewrite !existsb_app, Hses, !orb_true_r. reflexivity.
Defined.

(** C4, as the specification states it, fails: with an SES client whose
  send fails and no SMTP transporter, [send] does not return what the SMTP
  backend returns; it returns the no-provider failure tagged ['aws-ses']. *)
Lemma send_fallback_counterexample :
  ~ (forall env self o h,
        (Sender.sesClient self = None
         \/ exists h1 r1 evs1,
              Sender.sendWithSes env self o h1 = (Settled (Returned r1), evs1)
              /\ Sender.success r1 = false) ->
        exists h2 r evs evs2,
          Sender.send env self o None h = (Settled (Returned r), evs)
          /\ Sender.sendWithSmtp env self o h2 = (Returned r, evs2)).
Proof.
  intros H.
  destruct (H Scenario.offline Scenario.sesSender Scenario.hello [])
    as (h2 & r & evs & evs2 & Esend & Esmtp).
  - right. eexists [], _, _. split; reflexivity.
  - vm_compute in Esend. injection Esend as <- _.
    vm_compute in Esmtp. discriminate Esmtp.
Qed.

Lemma send_never_throws_witness :
  exists r evs,
    Sender.send Scenario.offline Scenario.bareSender Scenario.hello None []
    = (Settled (Returned r), evs)
    /\ forallb consoleEvent evs = true
    /\ Sender.success r = false
    /\ Sender.error r = Some Sender.msgNoProvider
    /\ Sender.provider r = Sender.AwsSes.
Proof.
  destruct (@send_never_throws Scenario.offline Scenario.bareSender
              Scenario.hello None [] (or_introl eq_refl))
    as (r & evs & E & _ & Hbare).
  destruct (Hbare eq_refl eq_refl) as (Hev & Hs & Herr & Hp).
  exists r, evs. repeat split; assumption.
Defined.

(** C10, as the specification states it, fails: on a sender with no backend,
  [send] called with the provider ['smtp'] returns the failure of
  [sendWithSmtp], tagged ['smtp'], not the no-provider failure tagged
  ['aws-ses']. *)
Lemma send_unconfigured_counterexample :
  ~ (forall env self o requested h r evs,
        Sender.sesClient self = None ->
        Sender.smtpTransporter self = None ->
        Sender.send env self o requested h = (Settled (Returned r), evs) ->
        Sender.success r = false
        /\ Sender.error r = Some Sender.msgNoProvider
        /\ Sender.provider r = Sender.AwsSes).
Proof.
  intros H.
  destruct (Sender.send Scenario.offline Scenario.bareSender Scenario.hello
              (Some Sender.Smtp) []) as [[[r|e]|] evs] eqn:E.
  - destruct (H Scenario.offline Scenario.bareSender Scenario.hello
                (Some Sender.Smtp) [] r evs eq_refl eq_refl E) as (_ & _ & Hp).
    vm_compute in E. injection E as <- _. discriminate Hp.
  - vm_compute in E. discriminate E.
  - vm_compute in E. discriminate E.
Qed.

(** ** The batch run with the real per-item test *)

Section BatchOfTests.

Import Tester.

Variable env : Env.
Variable self : EmailDeliverabilityTester.

(** Since [testEmailDeliverability] never throws, the [catch] of the loop is
  never taken by [testMultipleEmails]: every result of the batch is the
  result of a test. *)
Lemma testMultipleEmails_items configs h :
  exists batch evs,
    testMultipleEmails env self configs h = (Returned batch, evs)
    /\ Forall2 (fun config result =>
                  exists h' evs',
                    testEmailDeliverability env self config h'
                    = (Returned result, evs'))
               configs (results batch).
Proof.
  destruct (testMultipleEmailsWith_run env (testEmailDeliverability env self)
              configs h) as (batch & evs & E & _ & Hitems & _).
  exists batch, evs. split; [exact E|].
  eapply Forall2_impl; [|exact Hitems].
  intros config result [Hr | (h' & e & evs' & Ht & _)]; [exact Hr|].
  destruct (testEmailDeliverability_result env self config h')
    as (r & evs0 & Hrun & _).
  congruence.
Qed.

End BatchOfTests.

(** ** Runs on explicit inputs *)

(** The addresses of the test suite of the package. *)
Example accepted_formats :
  List.map validateEmailFormat
    [lit "test@example.com"; lit "user.name@domain.co.uk";
     lit "user+tag@example.org"; lit "first.last@subdomain.example.com"]
  = [true; true; true; true].
Proof. reflexivity. Qed.

Example rejected_formats :
  List.map validateEmailFormat
    [lit "invalid-email"; lit "@example.com"; lit "test@"; lit "test@example";
     lit ""; lit "a b@example.com"; lit "a@b@example.com"]
  = [false; false; false; false; false; false; false].
Proof. reflexivity. Qed.

(** A no-break space is white space for the regular expression. *)
Example rejected_no_break_space :
  validateEmailFormat (lit "a" ++ [160%N] ++ lit "b@example.com") = false.
Proof. reflexivity. Qed.

Example extractDomain_example :
  extractDomain (lit "test@gmail.com") = Some (lit "gmail.com")
  /\ extractDomain (lit "invalid-email") = None.
Proof. split; reflexivity. Qed.

(** Skip mode on a tester with credentials and an SMTP configuration: both
  entries are the sentinel. *)
Example skip_mode_configured :
  exists r evs,
    Tester.testEmailDeliverability Scenario.online Scenario.sesTester
      {| Tester.email := lit "test@gmail.com";
         Tester.provider := None;
         Tester.smtpConfig :=
           Some {| Tester.host := lit "smtp.example.com"; Tester.port := 587;
                   Tester.secure := false; Tester.auth := None |};
         Tester.testMessage := None;
         Tester.skipActualDelivery := Some true |} []
    = (Returned r, evs)
    /\ Tester.deliverabilityTests r
       = {| Tester.awsSes := Some Tester.skipped;
            Tester.smtp := Some Tester.skipped |}
    /\ Tester.recommendations r = [Tester.msgNoDmarc].
Proof.
  eexists. eexists. split; [vm_compute; reflexivity|].
  split; reflexivity.
Qed.

(** A batch whose per-item test throws: two failed results, none
  successful. *)
Example batch_of_throwing_tests :
  exists batch evs,
    Tester.testMultipleEmailsWith Scenario.offline Scenario.brokenTest
      [Scenario.skipConfig (lit "a@example.com") None;
       Scenario.skipConfig (lit "b@example.com") None] []
    = (Returned batch, evs)
    /\ Tester.total batch = 2
    /\ Tester.successful batch = 0
    /\ Tester.failed batch = 2
    /\ List.map Tester.r_email (Tester.results batch)
       = [lit "a@example.com"; lit "b@example.com"]
    /\ List.map Tester.recommendations (Tester.results batch)
       = [[lit "Error testing email: socket hang up"];
          [lit "Error testing email: socket hang up"]].
Proof.
  eexists. eexists. split; [vm_compute; reflexivity|].
  repeat split; reflexivity.
Qed.

(** The batch of the test suite, off line: every address is invalid. *)
Example validateEmails_offline :
  exists v evs,
    Tester.validateEmails Scenario.offline Scenario.plainTester
      [lit "valid@gmail.com"; lit "invalid-email";
       lit "test@nonexistentdomain12345.com"] []
    = (Returned v, evs)
    /\ Tester.validEmails v = []
    /\ List.map Tester.i_email (Tester.invalidEmails v)
       = [lit "valid@gmail.com"; lit "invalid-email";
          lit "test@nonexistentdomain12345.com"]
    /\ Tester.summary v
       = {| Tester.s_total := 3; Tester.s_valid := 0; Tester.s_invalid := 3 |}.
Proof.
  eexists. eexists. split; [vm_compute; reflexivity|].
  repeat split; reflexivity.
Qed.

(** Automatic mode with both backends on a working network: SES handles the
  message and the SMTP transporter is not touched. *)
Example send_auto_ses_first :
  exists evs,
    Sender.send Scenario.online Scenario.fullSender Scenario.hello None []
    = (Settled (Returned (Sender.sent (Some (lit "ses-0001")) Sender.AwsSes)), evs)
    /\ existsb sesEvent evs = true
    /\ existsb transportEvent evs = false.
Proof.
  eexists. split; [vm_compute; reflexivity|]. split; reflexivity.
Qed.

(** An explicit provider is not followed by a fallback: SES fails off line
  and the configured SMTP transporter is not tried. *)
Example send_explicit_no_fallback :
  exists r evs,
    Sender.send Scenario.offline Scenario.fullSender Scenario.hello
      (Some Sender.AwsSes) []
    = (Settled (Returned r), evs)
    /\ Sender.success r = false
    /\ Sender.provider r = Sender.AwsSes
    /\ existsb transportEvent evs = false.
Proof.
  eexists. eexists. split; [vm_compute; reflexivity|].
  repeat split; reflexivity.
Qed.

(** * Further properties *)

(** ** Accepted addresses and their domain *)

Lemma not_space_at_no_at (s : jsstring) :
  forallb not_space_at s = true -> ~ In AT s.
Proof.
  intros H Hin. rewrite forallb_forall in H. specialize (H AT Hin).
  discriminate H.
Qed.

Lemma not_space_at_no_space (s : jsstring) :
  forallb not_space_at s = true ->
  forallb (fun c => negb (re_space c)) s = true.
Proof.
  intros H. rewrite forallb_forall in *. intros c Hc. specialize (H c Hc).
  unfold not_space_at in H. apply negb_true_iff in H.
  apply orb_false_iff in H as [H _]. rewrite H. reflexivity.
Qed.

Lemma count_occ_absent (s : jsstring) (c : N) :
  ~ In c s -> count_occ N.eq_dec s c = 0.
Proof. apply count_occ_not_In. Qed.

(** X1.  An address that passes the format check holds exactly one ['@'], no
    white space, and at least five code units. *)
Theorem accepted_address_shape (email : jsstring) :
  validateEmailFormat email = true ->
  count_occ N.eq_dec email AT = 1
  /\ forallb (fun c => negb (re_space c)) email = true
  /\ 5 <= List.length email.
Proof.
  intros H. apply validateEmailFormat_spec in H
    as (a & b & c & -> & Ha & Hb & Hc & Hfa & Hfb & Hfc).
  split; [|split].
  - rewrite count_occ_app. cbn [count_occ].
    destruct (N.eq_dec AT AT) as [_|n]; [|congruence].
    rewrite count_occ_app. cbn [count_occ].
    destruct (N.eq_dec DOT AT) as [E|_]; [discriminate E|].
    rewrite !count_occ_absent by (apply not_space_at_no_at; assumption).
    reflexivity.
  - rewrite forallb_app. cbn [forallb]. rewrite forallb_app. cbn [forallb].
    rewrite !not_space_at_no_space by assumption. reflexivity.
  - rewrite length_app. cbn [List.length]. rewrite length_app. cbn [List.length].
    destruct a; [congruence|]. destruct b; [congruence|].
    destruct c; [congruence|]. cbn [List.length]. lia.
Qed.

Lemma accepted_address_shape_witness :
  count_occ N.eq_dec (lit "user+tag@example.org") AT = 1
  /\ forallb (fun c => negb (re_space c)) (lit "user+tag@example.org") = true
  /\ 5 <= List.length (lit "user+tag@example.org").
Proof.
  apply (accepted_address_shape (lit "user+tag@example.org")). reflexivity.
Defined.

Lemma split_not_nil (sep : N) (s : jsstring) : split sep s <> [].
Proof.
  destruct s as [|c s]; cbn [split]; [discriminate|].
  destruct (N.eqb c sep); [discriminate|].
  destruct (split sep s); discriminate.
Qed.

Lemma split_absent (sep : N) (s : jsstring) :
  ~ In sep s -> split sep s = [s].
Proof.
  induction s as [|c s IH]; intros H; [reflexivity|].
  cbn [split]. destruct (N.eqb_spec c sep) as [->|_].
  - exfalso. apply H. left. reflexivity.
  - rewrite IH; [reflexivity|]. intros Hin. apply H. right. exact Hin.
Qed.

Lemma split_at_first (sep : N) (a d : jsstring) :
  ~ In sep a -> split sep (a ++ sep :: d) = a :: split sep d.
Proof.
  induction a as [|c a IH]; intros H.
  - cbn [app split]. rewrite N.eqb_refl. reflexivity.
  - cbn [app split]. destruct (N.eqb_spec c sep) as [->|_].
    + exfalso. apply H. left. reflexivity.
    + rewrite IH; [reflexivity|]. intros Hin. apply H. right. exact Hin.
Qed.

Lemma split_length (sep : N) (s : jsstring) :
  List.length (split sep s) = S (count_occ N.eq_dec s sep).
Proof.
  induction s as [|c s IH]; [reflexivity|].
  cbn [split count_occ].
  destruct (N.eqb_spec c sep) as [->|Hne].
  - destruct (N.eq_dec sep sep) as [_|n]; [|congruence].
    cbn [List.length]. rewrite IH. reflexivity.
  - destruct (N.eq_dec c sep) as [E|_]; [congruence|].
    destruct (split sep s) eqn:E; [exfalso; exact (split_not_nil _ _ E)|].
    cbn [List.length] in *. exact IH.
Qed.

Lemma extractDomain_split (a d : jsstring) :
  ~ In AT a -> ~ In AT d -> extractDomain (a ++ AT :: d) = Some d.
Proof.
  intros Ha Hd. unfold extractDomain.
  rewrite split_at_first by exact Ha.
  rewrite split_absent by exact Hd. reflexivity.
Qed.

Lemma domain_part_no_at (b c : jsstring) :
  forallb not_space_at b = true -> forallb not_space_at c = true ->
  ~ In AT (b ++ DOT :: c).
Proof.
  intros Hfb Hfc Hin. apply in_app_or in Hin as [Hin | [E | Hin]].
  - exact (not_space_at_no_at b Hfb Hin).
  - discriminate E.
  - exact (not_space_at_no_at c Hfc Hin).
Qed.

(** X2.  For an address that passes the format check, [extractDomain] returns
    everything after the ['@']: the address is [local ++ '@' ++ domain],
    neither part holds an ['@'], and the domain holds a ['.']. *)
Theorem extractDomain_of_accepted (email : jsstring) :
  validateEmailFormat email = true ->
  exists local domain,
    email = local ++ AT :: domain
    /\ extractDomain email = Some domain
    /\ ~ In AT local /\ ~ In AT domain
    /\ In DOT domain
    /\ local <> [].
Proof.
  intros H. apply validateEmailFormat_spec in H
    as (a & b & c & -> & Ha & Hb & Hc & Hfa & Hfb & Hfc).
  pose proof (domain_part_no_at b c Hfb Hfc) as Hd.
  pose proof (not_space_at_no_at a Hfa) as Hl.
  exists a, (b ++ DOT :: c). repeat split; auto.
  - apply extractDomain_split; assumption.
  - apply in_or_app. right. left. reflexivity.
Qed.

Lemma extractDomain_of_accepted_witness :
  exists local domain,
    lit "first.last@subdomain.example.com" = local ++ AT :: domain
    /\ extractDomain (lit "first.last@subdomain.example.com") = Some domain
    /\ ~ In AT local /\ ~ In AT domain
    /\ In DOT domain
    /\ local <> [].
Proof.
  apply (extractDomain_of_accepted (lit "first.last@subdomain.example.com")).
  reflexivity.
Defined.

(** X3.  [extractDomain] is [undefined] exactly on the strings without ['@']. *)
Theorem extractDomain_undefined_iff (email : jsstring) :
  extractDomain email = None <-> ~ In AT email.
Proof.
  unfold extractDomain. rewrite nth_error_None, split_length. split.
  - intros H Hin. apply (count_occ_In N.eq_dec) in Hin. lia.
  - intros H. rewrite count_occ_absent by exact H. lia.
Qed.

(** ** Runs of the deliverability tester *)

Section TesterRuns.

Import Tester.

Variable env : Env.
Variable self : EmailDeliverabilityTester.

(** The shape of a run on an accepted address, with its duration. *)
Lemma testEmailDeliverability_timed config h :
  validateEmailFormat (email config) = true ->
  exists r evA evS,
    let domain := extractDomain (email config) in
    let dmarcName := Some (lit "_dmarc." ++ interpolate domain) in
    let lookups :=
      [DateNow; ResolveMx domain; ResolveTxt domain; ResolveTxt dmarcName] in
    testEmailDeliverability env self config h
      = (Returned r, lookups ++ evA ++ evS ++ [DateNow])
    /\ testDuration r
       = Some (clock env (h ++ lookups ++ evA ++ evS) - clock env h)%Z
    /\ (if wantsAwsSes (providerOf config)
        then exists d, awsSes (deliverabilityTests r) = Some d
                       /\ testAwsSesDelivery env self config (h ++ lookups)
                          = (Returned d, evA)
        else awsSes (deliverabilityTests r) = None /\ evA = [])
    /\ (if wantsSmtp (providerOf config)
        then exists d, smtp (deliverabilityTests r) = Some d
                       /\ testSmtpDelivery env self config (h ++ lookups ++ evA)
                          = (Returned d, evS)
        else smtp (deliverabilityTests r) = None /\ evS = []).
Proof.
  intros Hv. unfold testEmailDeliverability, bind, Date_now, perform.
  cbv beta iota zeta.
  cbn [p_isValid set_isValid truthyBool]. rewrite Hv. cbn [negb].
  rewrite checkDomainAndMX_run. cbv beta iota zeta.
  rewrite checkSpfRecord_run. cbv beta iota zeta.
  rewrite checkDmarcRecord_run. cbv beta iota zeta.
  match goal with
  | |- context [set_mxRecords (snd ?x)] => generalize x
  end.
  intros [ex mx].
  match goal with
  | |- context [set_spfRecord ?x] => generalize x
  end.
  intros spf.
  match goal with
  | |- context [set_dmarcRecord ?x] => generalize x
  end.
  intros dmarc.
  cbn [fst snd set_isValid set_domainExists set_mxRecords set_spfRecord
       set_dmarcRecord p_deliverabilityTests p_email p_isValid p_domainExists
       p_mxRecords p_spfRecord p_dmarcRecord p_recommendations p_testDuration].
  rewrite <- !app_assoc. cbn [app].
  destruct (providerOf config); cbn [wantsAwsSes wantsSmtp];
    unfold ret; cbv beta iota zeta;
    try match goal with
        | |- context [testAwsSesDelivery env self config ?hh] =>
            destruct (testAwsSesDelivery_returns env self config hh)
              as (dA & evA & EA);
            rewrite EA; cbv beta iota zeta
        end;
    try match goal with
        | |- context [testSmtpDelivery env self config ?hh] =>
            destruct (testSmtpDelivery_returns env self config hh)
              as (dS & evS & ES);
            rewrite ES; cbv beta iota zeta
        end.
  - eexists. exists evA, [].
    rewrite <- ?app_assoc, ?app_nil_r. cbn [app].
    repeat split; try reflexivity. exists dA. split; reflexivity.
  - rewrite <- ?app_assoc, ?app_nil_r in ES. cbn [app] in ES.
    eexists. exists [], evS.
    rewrite <- ?app_assoc, ?app_nil_r. cbn [app].
    repeat split; try reflexivity. exists dS. split; [reflexivity | exact ES].
  - rewrite <- ?app_assoc, ?app_nil_r in ES. cbn [app] in ES.
    eexists. exists evA, evS.
    rewrite <- ?app_assoc, ?app_nil_r. cbn [app].
    repeat split; try reflexivity.
    + exists dA. split; reflexivity.
    + exists dS. split; [reflexivity | exact ES].
Qed.

(** What the two delivery tests emit. *)
Lemma testAwsSesDelivery_events config h o evs :
  testAwsSesDelivery env self config h = (o, evs) ->
  forallb sesEvent evs = true.
Proof.
  unfold testAwsSesDelivery.
  destruct (sesClient self) as [client|];
    [|intros E; injection E as _ <-; reflexivity].
  destruct (truthyBool (skipActualDelivery config));
    [intros E; injection E as _ <-; reflexivity|].
  unfold try_catch, bind, sesClient_send, perform, ret.
  destruct (ses_send env h client _); intros E; injection E as _ <-; reflexivity.
Qed.

Lemma testSmtpDelivery_events config h o evs :
  testSmtpDelivery env self config h = (o, evs) ->
  forallb transportEvent evs = true.
Proof.
  unfold testSmtpDelivery.
  destruct (smtpConfig config) as [cfg|];
    [|intros E; injection E as _ <-; reflexivity].
  destruct (truthyBool (skipActualDelivery config));
    [intros E; injection E as _ <-; reflexivity|].
  unfold try_catch, bind, createTransport, verify, sendMail, perform, ret.
  destruct (nodemailer_createTransport env h _) as [t|];
    [|intros E; injection E as _ <-; reflexivity].
  destruct (transporter_verify env _ t) as [[]|];
    [|intros E; injection E as _ <-; reflexivity].
  destruct (transporter_sendMail env _ t _);
    intros E; injection E as _ <-; reflexivity.
Qed.

Lemma forallb_weaken {A} (p q : A -> bool) (l : list A) :
  (forall x, p x = true -> q x = true) ->
  forallb p l = true -> forallb q l = true.
Proof.
  intros Hpq H. rewrite forallb_forall in *. auto.
Qed.

(** X4.  On an accepted address the tester reads the clock, makes exactly three
    DNS lookups (MX and TXT on the domain after the ['@'], TXT on
    [_dmarc.] followed by that domain), then calls the backends, then reads
    the clock again; nothing else happens. *)
Theorem testEmailDeliverability_lookups config h :
  validateEmailFormat (email config) = true ->
  exists local domain r backend,
    email config = local ++ AT :: domain
    /\ testEmailDeliverability env self config h
       = (Returned r,
          [DateNow; ResolveMx (Some domain); ResolveTxt (Some domain);
           ResolveTxt (Some (lit "_dmarc." ++ domain))]
            ++ backend ++ [DateNow])
    /\ forallb backendEvent backend = true.
Proof.
  intros Hv.
  pose proof Hv as Hparts. apply validateEmailFormat_spec in Hparts
    as (local & b & c & Hsplit & _ & _ & _ & Hfa & Hfb & Hfc).
  set (domain := b ++ DOT :: c) in *.
  assert (extractDomain (email config) = Some domain) as Hdom.
  { rewrite Hsplit. apply extractDomain_split.
    - apply not_space_at_no_at. exact Hfa.
    - apply domain_part_no_at; assumption. }
  destruct (testEmailDeliverability_timed config h Hv)
    as (r & evA & evS & Hrun & _ & HA & HS).
  cbv zeta in Hrun, HA, HS. rewrite Hdom in Hrun. cbn [interpolate] in Hrun.
  exists local, domain, r, (evA ++ evS).
  split; [exact Hsplit|]. split; [rewrite <- app_assoc; exact Hrun|].
  rewrite forallb_app. apply andb_true_iff. split.
  - destruct (wantsAwsSes (providerOf config)).
    + destruct HA as (d & _ & HA). apply testAwsSesDelivery_events in HA.
      eapply forallb_weaken; [|exact HA]. intros [] E; try discriminate E; reflexivity.
    + destruct HA as [_ ->]. reflexivity.
  - destruct (wantsSmtp (providerOf config)).
    + destruct HS as (d & _ & HS). apply testSmtpDelivery_events in HS.
      eapply forallb_weaken; [|exact HS]. intros [] E; try discriminate E; reflexivity.
    + destruct HS as [_ ->]. reflexivity.
Qed.

(** X5.  [testEmailDeliverability] never throws, whatever the collaborators do.
    Its result repeats the address it was given, [isValid] is the verdict of
    the format check, the clock is read exactly twice, first and last, and
    [testDuration] is the difference of the two readings. *)
Theorem testEmailDeliverability_timing config h :
  exists r evs,
    testEmailDeliverability env self config h
      = (Returned r, DateNow :: evs ++ [DateNow])
    /\ r_email r = email config
    /\ isValid r = validateEmailFormat (email config)
    /\ ~ In DateNow evs
    /\ testDuration r
       = Some (clock env (h ++ DateNow :: evs) - clock env h)%Z.
Proof.
  destruct (validateEmailFormat (email config)) eqn:Hv.
  - destruct (testEmailDeliverability_timed config h Hv)
      as (r & evA & evS & Hrun & Hdur & HA & HS).
    cbv zeta in Hrun, Hdur, HA, HS.
    destruct (testEmailDeliverability_result env self config h)
      as (r' & evs' & Hrun' & Hemail & Hvalid & _).
    rewrite Hrun in Hrun'. injection Hrun' as <- _.
    exists r,
      ([ResolveMx (extractDomain (email config));
        ResolveTxt (extractDomain (email config));
        ResolveTxt
          (Some (lit "_dmarc." ++ interpolate (extractDomain (email config))))]
         ++ evA ++ evS).
    split; [|split; [exact Hemail|split; [congruence|split]]].
    + rewrite Hrun. cbn [app]. rewrite <- !app_assoc. reflexivity.
    + cbn [app]. intros [E | [E | [E | Hin]]]; try discriminate E.
      apply in_app_or in Hin as [Hin | Hin].
      * destruct (wantsAwsSes (providerOf config)).
        -- destruct HA as (d & _ & HA). apply testAwsSesDelivery_events in HA.
           rewrite forallb_forall in HA. specialize (HA _ Hin). discriminate HA.
        -- destruct HA as [_ ->]. exact Hin.
      * destruct (wantsSmtp (providerOf config)).
        -- destruct HS as (d & _ & HS). apply testSmtpDelivery_events in HS.
           rewrite forallb_forall in HS. specialize (HS _ Hin). discriminate HS.
        -- destruct HS as [_ ->]. exact Hin.
    + rewrite Hdur. reflexivity.
  - exists {| r_email := email config;
              isValid := false;
              domainExists := false;
              mxRecords := [];
              spfRecord := None;
              dmarcRecord := None;
              deliverabilityTests := noTests;
              recommendations :=
                [msgInvalidFormat; msgNoDomain; msgNoMx; msgNoSpf; msgNoDmarc];
              testDuration := Some (clock env (h ++ [DateNow]) - clock env h)%Z |},
      [].
    split; [apply testEmailDeliverability_invalid; exact Hv|].
    repeat split. intros [].
Qed.

End TesterRuns.

(** ** The delivery tests *)

Section TesterBackends.

Import Tester.

Variable env : Env.
Variable self : EmailDeliverabilityTester.

(** X6.  The provider of the configuration is respected: with ['smtp'] the SES
    client is never called and the result has no [awsSes] entry; with
    ['aws-ses'] no transporter is created or used and the result has no
    [smtp] entry. *)
Theorem provider_is_respected config h :
  exists r evs,
    testEmailDeliverability env self config h = (Returned r, evs)
    /\ (providerOf config = Smtp ->
        awsSes (deliverabilityTests r) = None
        /\ forallb (fun ev => negb (sesEvent ev)) evs = true)
    /\ (providerOf config = AwsSes ->
        smtp (deliverabilityTests r) = None
        /\ forallb (fun ev => negb (transportEvent ev)) evs = true).
Proof.
  destruct (validateEmailFormat (email config)) eqn:Hv.
  - destruct (testEmailDeliverability_timed env self config h Hv)
      as (r & evA & evS & Hrun & _ & HA & HS).
    cbv zeta in Hrun, HA, HS.
    exists r. eexists. split; [exact Hrun|]. split; intros Hp; rewrite Hp in *;
      cbn [wantsAwsSes wantsSmtp] in HA, HS.
    + destruct HA as [HA ->]. destruct HS as (d & _ & HS).
      apply testSmtpDelivery_events in HS. split; [exact HA|].
      cbn [app forallb sesEvent negb andb]. rewrite forallb_app.
      cbn [forallb sesEvent negb andb]. rewrite andb_true_r.
      eapply forallb_weaken; [|exact HS].
      intros [] E; try discriminate E; reflexivity.
    + destruct HS as [HS ->]. destruct HA as (d & _ & HA).
      apply testAwsSesDelivery_events in HA. split; [exact HS|].
      cbn [app forallb transportEvent negb andb]. rewrite forallb_app.
      cbn [forallb transportEvent negb andb]. rewrite andb_true_r.
      eapply forallb_weaken; [|exact HA].
      intros [] E; try discriminate E; reflexivity.
  - eexists. eexists. split; [apply testEmailDeliverability_invalid; exact Hv|].
    split; intros _; split; reflexivity.
Qed.

(** X7.  A real SES test is one call of the client, never retried: a
    [SendEmailCommand] addressed to the tested address alone, sent from the
    default sender.  The entry reports success with the message id the call
    returned, or failure with the message of what it threw. *)
Theorem testAwsSesDelivery_attempt config h client :
  sesClient self = Some client ->
  truthyBool (skipActualDelivery config) = false ->
  exists params,
    ToAddresses params = [email config]
    /\ CcAddresses params = None
    /\ BccAddresses params = None
    /\ Source params = defaultFromEmail self
    /\ testAwsSesDelivery env self config h
       = (Returned
            match ses_send env h client (SendEmailCommand params) with
            | Returned id =>
                {| success := true; messageId := id; error := None |}
            | Thrown e =>
                {| success := false; messageId := None;
                   error := Some (errorMessage (lit "Unknown error") e) |}
            end,
          [SesSend client (SendEmailCommand params)]).
Proof.
  intros Hc Hs. unfold testAwsSesDelivery. rewrite Hc, Hs.
  exists {| ToAddresses := [email config];
            CcAddresses := None;
            BccAddresses := None;
            BodyHtml := Some (utf8 (orElse (html (messageOf config))
                                           (text (messageOf config))));
            BodyText := Some (utf8 (text (messageOf config)));
            Subject := utf8 (subject (messageOf config));
            Source := defaultFromEmail self;
            ReplyToAddresses := None |}.
  repeat split.
  unfold try_catch, bind, sesClient_send, perform, ret.
  destruct (ses_send env h client _); reflexivity.
Qed.

(** X8.  A real SMTP test never hands a message to the transporter unless
    [verify()] succeeded on a transporter that could be created; it sends at
    most one message; it reports success only after a [sendMail], and a
    failure always carries an error message and no message id. *)
Theorem testSmtpDelivery_verifies_first config h cfg :
  smtpConfig config = Some cfg ->
  truthyBool (skipActualDelivery config) = false ->
  exists d evs,
    testSmtpDelivery env self config h = (Returned d, evs)
    /\ (existsb sendMailEvent evs = true ->
        exists t,
          nodemailer_createTransport env h (transportOf cfg) = Returned t
          /\ transporter_verify env (h ++ [CreateTransport (transportOf cfg)]) t
             = Returned tt
          /\ evs = [CreateTransport (transportOf cfg); TransportVerify t]
                   ++ filter sendMailEvent evs)
    /\ List.length (filter sendMailEvent evs) <= 1
    /\ (success d = true -> existsb sendMailEvent evs = true)
    /\ (success d = false -> messageId d = None /\ exists msg, error d = Some msg).
Proof.
  intros Hc Hs. unfold testSmtpDelivery. rewrite Hc, Hs.
  unfold try_catch, bind, createTransport, verify, sendMail, perform, ret.
  destruct (nodemailer_createTransport env h _) as [t|e1].
  2:{ eexists. eexists. split; [reflexivity|].
      cbn. repeat split; try discriminate; try lia. eexists. reflexivity. }
  destruct (transporter_verify env _ t) as [[]|e2] eqn:Ev.
  2:{ eexists. eexists. split; [reflexivity|].
      cbn. repeat split; try discriminate; try lia. eexists. reflexivity. }
  destruct (transporter_sendMail env _ t _) as [info|e3].
  - eexists. eexists. split; [reflexivity|].
    cbn. split; [|repeat split; try discriminate; lia].
    intros _. exists t. repeat split. exact Ev.
  - eexists. eexists. split; [reflexivity|].
    cbn. split; [|repeat split; try discriminate; try lia; eexists; reflexivity].
    intros _. exists t. repeat split. exact Ev.
Qed.

(** A run in skip mode reaches no backend: it reads the clock and the
    DNS only. *)
Lemma skip_run_quiet config h :
  truthyBool (skipActualDelivery config) = true ->
  exists r evs,
    testEmailDeliverability env self config h = (Returned r, evs)
    /\ forallb (fun ev => match ev with
                          | DateNow | ResolveMx _ | ResolveTxt _ => true
                          | _ => false
                          end) evs = true.
Proof.
  intros Hs. destruct (validateEmailFormat (email config)) eqn:Hv.
  - destruct (testEmailDeliverability_timed env self config h Hv)
      as (r & evA & evS & Hrun & _ & HA & HS).
    cbv zeta in Hrun, HA, HS.
    assert (evA = []) as ->.
    { destruct (wantsAwsSes (providerOf config)).
      - destruct HA as (d & _ & HA).
        rewrite (testAwsSesDelivery_skip env self config _ Hs) in HA. congruence.
      - apply HA. }
    assert (evS = []) as ->.
    { destruct (wantsSmtp (providerOf config)).
      - destruct HS as (d & _ & HS).
        rewrite (testSmtpDelivery_skip env self config _ Hs) in HS. congruence.
      - apply HS. }
    exists r. eexists. split; [exact Hrun | reflexivity].
  - eexists. eexists. split; [apply testEmailDeliverability_invalid; exact Hv|].
    reflexivity.
Qed.

Lemma missing_smtpConfig_line config h :
  validateEmailFormat (email config) = true ->
  wantsSmtp (providerOf config) = true ->
  smtpConfig config = None ->
  exists r evs,
    testEmailDeliverability env self config h = (Returned r, evs)
    /\ In (msgSmtpFailed (Some (lit "SMTP configuration not provided")))
          (recommendations r)
    /\ recommendations r <> [msgDeliverable].
Proof.
  intros Hv Hw Hc.
  destruct (testEmailDeliverability_timed env self config h Hv)
    as (r & evA & evS & Hrun & _ & _ & HS).
  cbv zeta in Hrun, HS.
  destruct (testEmailDeliverability_result env self config h)
    as (r' & evs' & Hrun' & _ & _ & Hrec & Hspf & Hdmarc).
  rewrite Hrun in Hrun'. injection Hrun' as <- _.
  destruct (recommendations_of_result r Hrec Hspf Hdmarc)
    as (_ & _ & _ & _ & _ & _ & _ & H7 & _).
  exists r. eexists. split; [exact Hrun|].
  rewrite Hw in HS. destruct HS as (d & Hd & HS).
  unfold testSmtpDelivery in HS. rewrite Hc in HS. injection HS as <- _.
  assert (In (msgSmtpFailed (Some (lit "SMTP configuration not provided")))
             (recommendations r)) as Hin.
  { apply (H7 _ Hd). reflexivity. }
  split; [exact Hin|]. intros E. rewrite E in Hin.
  destruct Hin as [E'|[]]. discriminate E'.
Qed.

Lemma missing_sesClient_line config h :
  validateEmailFormat (email config) = true ->
  wantsAwsSes (providerOf config) = true ->
  sesClient self = None ->
  exists r evs,
    testEmailDeliverability env self config h = (Returned r, evs)
    /\ In (msgSesFailed (Some (lit "AWS SES not configured")))
          (recommendations r)
    /\ recommendations r <> [msgDeliverable].
Proof.
  intros Hv Hw Hc.
  destruct (testEmailDeliverability_timed env self config h Hv)
    as (r & evA & evS & Hrun & _ & HA & _).
  cbv zeta in Hrun, HA.
  destruct (testEmailDeliverability_result env self config h)
    as (r' & evs' & Hrun' & _ & _ & Hrec & Hspf & Hdmarc).
  rewrite Hrun in Hrun'. injection Hrun' as <- _.
  destruct (recommendations_of_result r Hrec Hspf Hdmarc)
    as (_ & _ & _ & _ & _ & _ & H6 & _).
  exists r. eexists. split; [exact Hrun|].
  rewrite Hw in HA. destruct HA as (d & Hd & HA).
  unfold testAwsSesDelivery in HA. rewrite Hc in HA. injection HA as <- _.
  assert (In (msgSesFailed (Some (lit "AWS SES not configured")))
             (recommendations r)) as Hin.
  { apply (H6 _ Hd). reflexivity. }
  split; [exact Hin|]. intros E. rewrite E in Hin.
  destruct Hin as [E'|[]]. discriminate E'.
Qed.

(** X9.  A backend that is asked for but not configured is reported as a
    deficiency, also in skip mode: on an accepted address, asking for SMTP
    without an [smtpConfig] (the default provider asks for both backends)
    puts the SMTP failure line in the recommendations, and asking for SES on
    a tester without client puts the SES failure line there; in both cases
    the result is not the lone success line. *)
Theorem unconfigured_backend_is_reported config h :
  validateEmailFormat (email config) = true ->
  exists r evs,
    testEmailDeliverability env self config h = (Returned r, evs)
    /\ (wantsSmtp (providerOf config) = true -> smtpConfig config = None ->
        In (msgSmtpFailed (Some (lit "SMTP configuration not provided")))
           (recommendations r)
        /\ recommendations r <> [msgDeliverable])
    /\ (wantsAwsSes (providerOf config) = true -> sesClient self = None ->
        In (msgSesFailed (Some (lit "AWS SES not configured")))
           (recommendations r)
        /\ recommendations r <> [msgDeliverable]).
Proof.
  intros Hv.
  destruct (testEmailDeliverability_result env self config h)
    as (r & evs & Hrun & _).
  exists r, evs. split; [exact Hrun|]. split; intros Hw Hc.
  - destruct (missing_smtpConfig_line config h Hv Hw Hc) as (r' & evs' & E & H).
    rewrite Hrun in E. injection E as <- _. exact H.
  - destruct (missing_sesClient_line config h Hv Hw Hc) as (r' & evs' & E & H).
    rewrite Hrun in E. injection E as <- _. exact H.
Qed.

End TesterBackends.

Lemma provider_is_respected_witness :
  exists r evs,
    Tester.testEmailDeliverability Scenario.online Scenario.sesTester
      (Fixture.smtpTest (lit "test@gmail.com")) []
    = (Returned r, evs)
    /\ Tester.awsSes (Tester.deliverabilityTests r) = None
    /\ forallb (fun ev => negb (sesEvent ev)) evs = true
    /\ existsb sendMailEvent evs = true.
Proof.
  destruct (provider_is_respected Scenario.online Scenario.sesTester
              (Fixture.smtpTest (lit "test@gmail.com")) [])
    as (r & evs & Hrun & Hsmtp & _).
  destruct (Hsmtp eq_refl) as [Hnone Hquiet].
  exists r, evs. split; [exact Hrun|]. split; [exact Hnone|].
  split; [exact Hquiet|].
  vm_compute in Hrun. injection Hrun as _ <-. reflexivity.
Defined.

Lemma testEmailDeliverability_lookups_witness :
  exists local domain r backend,
    lit "test@gmail.com" = local ++ AT :: domain
    /\ Tester.testEmailDeliverability Scenario.online Scenario.sesTester
         (Fixture.sesTest (lit "test@gmail.com")) []
       = (Returned r,
          [DateNow; ResolveMx (Some domain); ResolveTxt (Some domain);
           ResolveTxt (Some (lit "_dmarc." ++ domain))]
            ++ backend ++ [DateNow])
    /\ forallb backendEvent backend = true.
Proof.
  apply (testEmailDeliverability_lookups Scenario.online Scenario.sesTester
           (Fixture.sesTest (lit "test@gmail.com")) []).
  reflexivity.
Defined.

Lemma testAwsSesDelivery_attempt_witness :
  exists params,
    ToAddresses params = [lit "test@gmail.com"]
    /\ Source params = lit "no-reply@example.com"
    /\ Tester.testAwsSesDelivery Scenario.offline Scenario.sesTester
         (Fixture.sesTest (lit "test@gmail.com")) []
       = (Returned {| Tester.success := false; Tester.messageId := None;
                      Tester.error := Some (lit "getaddrinfo ENOTFOUND") |},
          [SesSend Scenario.client (SendEmailCommand params)]).
Proof.
  destruct (testAwsSesDelivery_attempt Scenario.offline Scenario.sesTester
              (Fixture.sesTest (lit "test@gmail.com")) []
              (client := Scenario.client) eq_refl eq_refl)
    as (params & Hto & _ & _ & Hfrom & Hrun).
  exists params. split; [exact Hto|]. split; [exact Hfrom|]. exact Hrun.
Defined.

Lemma testSmtpDelivery_verifies_first_witness :
  exists d evs,
    Tester.testSmtpDelivery Scenario.offline Scenario.plainTester
      (Fixture.smtpTest (lit "test@gmail.com")) []
    = (Returned d, evs)
    /\ List.length (filter sendMailEvent evs) <= 1
    /\ Tester.success d = false
    /\ existsb sendMailEvent evs = false.
Proof.
  destruct (testSmtpDelivery_verifies_first Scenario.offline Scenario.plainTester
              (Fixture.smtpTest (lit "test@gmail.com")) []
              (cfg := Fixture.account) eq_refl eq_refl)
    as (d & evs & Hrun & _ & Hone & _).
  exists d, evs. split; [exact Hrun|]. split; [exact Hone|].
  vm_compute in Hrun. injection Hrun as <- <-. split; reflexivity.
Defined.

Lemma unconfigured_backend_is_reported_witness :
  exists r evs,
    Tester.testEmailDeliverability Scenario.online Scenario.sesTester
      (Scenario.skipConfig (lit "test@gmail.com") None) []
    = (Returned r, evs)
    /\ In (Tester.msgSmtpFailed (Some (lit "SMTP configuration not provided")))
          (Tester.recommendations r)
    /\ Tester.recommendations r <> [Tester.msgDeliverable].
Proof.
  destruct (unconfigured_backend_is_reported Scenario.online Scenario.sesTester
              (Scenario.skipConfig (lit "test@gmail.com") None) [] eq_refl)
    as (r & evs & Hrun & Hsmtp & _).
  exists r, evs. split; [exact Hrun|]. exact (Hsmtp eq_refl eq_refl).
Defined.

(** ** The order and the exclusiveness of the recommendations *)

Lemma pushIf_cons (b : bool) (line x : jsstring) (xs : list jsstring) :
  Tester.pushIf b line (x :: xs) = x :: Tester.pushIf b line xs.
Proof. destruct b; reflexivity. Qed.

(** X10.  When the format is not valid (or not yet known), the invalid-format
    line is the first recommendation, whatever else is reported. *)
Theorem invalid_format_line_comes_first (p : Tester.PartialResult) :
  Tester.truthyBool (Tester.p_isValid p) = false ->
  exists rest,
    Tester.generateRecommendations p = Tester.msgInvalidFormat :: rest
    /\ ~ In Tester.msgDeliverable rest.
Proof.
  intros H. unfold Tester.generateRecommendations. cbv zeta. rewrite H.
  cbn [negb].
  change (Tester.pushIf true Tester.msgInvalidFormat [])
    with [Tester.msgInvalidFormat].
  rewrite !pushIf_cons. cbn [List.length Nat.eqb].
  eexists. split; [reflexivity|].
  destruct (negb (Tester.truthyBool (Tester.p_domainExists p)));
    destruct (match Tester.p_mxRecords p with
              | Some mx => (List.length mx =? 0)%nat
              | None => false
              end);
    destruct (negb (Tester.truthyString (Tester.p_spfRecord p)));
    destruct (negb (Tester.truthyString (Tester.p_dmarcRecord p)));
    destruct (Tester.failedDelivery _);
    destruct (Tester.failedDelivery _);
    cbn [Tester.pushIf app In];
    intros Hin;
    repeat (destruct Hin as [Hin | Hin]; [vm_compute in Hin; discriminate Hin|]);
    exact Hin.
Qed.

Lemma invalid_format_line_comes_first_witness :
  exists rest,
    Tester.generateRecommendations
      (Tester.beforeRecommendations
         (Tester.errorResult (Scenario.skipConfig (lit "invalid-email") None)
                             NotAnError))
    = Tester.msgInvalidFormat :: rest
    /\ ~ In Tester.msgDeliverable rest.
Proof.
  apply invalid_format_line_comes_first. reflexivity.
Defined.

Lemma chain_success_alone (b1 b2 b3 b4 b5 b6 b7 : bool)
      (l1 l2 l3 l4 l5 l6 l7 ok : jsstring) :
  ok <> l1 -> ok <> l2 -> ok <> l3 -> ok <> l4 -> ok <> l5 -> ok <> l6 ->
  ok <> l7 ->
  let recs :=
    Tester.pushIf b7 l7 (Tester.pushIf b6 l6 (Tester.pushIf b5 l5
      (Tester.pushIf b4 l4 (Tester.pushIf b3 l3 (Tester.pushIf b2 l2
        (Tester.pushIf b1 l1 [])))))) in
  let final := Tester.pushIf (List.length recs =? 0)%nat ok recs in
  In ok final ->
  final = [ok]
  /\ b1 = false /\ b2 = false /\ b3 = false /\ b4 = false
  /\ b5 = false /\ b6 = false /\ b7 = false.
Proof.
  intros N1 N2 N3 N4 N5 N6 N7.
  destruct b1, b2, b3, b4, b5, b6, b7; cbn; intros Hin;
    try (repeat split; reflexivity);
    exfalso;
    repeat (destruct Hin as [Hin | Hin]; [congruence|]); exact Hin.
Qed.

(** X11.  The success line excludes every other line: when it appears, it is the
    whole list, the format is valid, the domain exists, the MX list is not
    empty, the SPF and DMARC records are present and no backend failed. *)
Theorem success_line_stands_alone (p : Tester.PartialResult) :
  In Tester.msgDeliverable (Tester.generateRecommendations p) ->
  Tester.generateRecommendations p = [Tester.msgDeliverable]
  /\ Tester.p_isValid p = Some true
  /\ Tester.p_domainExists p = Some true
  /\ Tester.p_mxRecords p <> Some []
  /\ Tester.truthyString (Tester.p_spfRecord p) = true
  /\ Tester.truthyString (Tester.p_dmarcRecord p) = true
  /\ (forall tests d, Tester.p_deliverabilityTests p = Some tests ->
        Tester.awsSes tests = Some d \/ Tester.smtp tests = Some d ->
        Tester.success d = true).
Proof.
  unfold Tester.generateRecommendations. cbv zeta. intros Hin.
  apply chain_success_alone in Hin
    as (Hrecs & H1 & H2 & H3 & H4 & H5 & H6 & H7);
    try (intros E; vm_compute in E; discriminate E).
  split; [exact Hrecs|].
  apply negb_false_iff in H1, H2, H4, H5.
  split; [destruct (Tester.p_isValid p) as [[]|]; try discriminate H1; reflexivity|].
  split; [destruct (Tester.p_domainExists p) as [[]|]; try discriminate H2;
          reflexivity|].
  split; [intros E; rewrite E in H3; discriminate H3|].
  split; [exact H4|]. split; [exact H5|].
  intros tests d Et [Ed | Ed]; rewrite Et in *.
  - rewrite Ed in H6. cbn [Tester.failedDelivery] in H6.
    apply negb_false_iff in H6. exact H6.
  - rewrite Ed in H7. cbn [Tester.failedDelivery] in H7.
    apply negb_false_iff in H7. exact H7.
Qed.

Lemma success_line_stands_alone_witness :
  Tester.generateRecommendations Fixture.healthy = [Tester.msgDeliverable]
  /\ Tester.p_isValid Fixture.healthy = Some true.
Proof.
  destruct (success_line_stands_alone Fixture.healthy) as (H & Hv & _).
  - left. reflexivity.
  - split; assumption.
Defined.

(** ** Batches *)

Section BatchRuns.

Import Tester.

Variable env : Env.
Variable self : EmailDeliverabilityTester.

(** The events of a batch are the clock reads and the events of the tests. *)
Lemma loop_events (P : Event -> bool) test configs :
  (forall config h o evs,
      In config configs -> test config h = (o, evs) -> forallb P evs = true) ->
  forall acc h o evs,
    loop test configs acc h = (o, evs) -> forallb P evs = true.
Proof.
  induction configs as [|config rest IH]; intros Htest acc h o evs E.
  - injection E as _ <-. reflexivity.
  - cbn [loop] in E. unfold bind in E.
    destruct (iteration test config acc h) as [[acc'|e] evs1] eqn:E1.
    + destruct (loop test rest acc' (h ++ evs1)) as [o2 evs2] eqn:E2.
      injection E as _ <-. rewrite forallb_app. apply andb_true_iff. split.
      * unfold iteration, try_catch, bind, ret in E1.
        destruct (test config h) as [[result|e] evs0] eqn:E0.
        -- assert (evs1 = evs0 ++ []) as ->
             by (destruct (isDeliverable result); congruence).
           rewrite app_nil_r. eapply Htest; [left; reflexivity | exact E0].
        -- injection E1 as _ <-. rewrite app_nil_r.
           eapply Htest; [left; reflexivity | exact E0].
      * eapply IH; [|exact E2]. intros c h' o' evs' Hin.
        apply Htest. right. exact Hin.
    + exfalso. unfold iteration, try_catch, bind, ret in E1.
      destruct (test config h) as [[result|e'] evs0].
      * destruct (isDeliverable result); discriminate E1.
      * discriminate E1.
Qed.

Lemma testMultipleEmailsWith_events (P : Event -> bool) test configs h o evs :
  P DateNow = true ->
  (forall config h o evs,
      In config configs -> test config h = (o, evs) -> forallb P evs = true) ->
  testMultipleEmailsWith env test configs h = (o, evs) ->
  forallb P evs = true.
Proof.
  intros Hclock Htest E. unfold testMultipleEmailsWith, bind in E.
  rewrite Date_now_run in E.
  destruct (loop test configs _ (h ++ [DateNow])) as [[acc|e] evs1] eqn:E1.
  - rewrite Date_now_run in E. cbn [ret] in E. injection E as _ <-.
    cbn [app forallb]. rewrite Hclock. rewrite forallb_app.
    rewrite (loop_events P test configs Htest _ _ E1).
    cbn [app forallb]. rewrite Hclock. reflexivity.
  - injection E as _ <-. cbn [app forallb]. rewrite Hclock.
    exact (loop_events P test configs Htest _ _ E1).
Qed.

(** What the callback of [forEach] accumulates. *)
Lemma classify_lists (l : list EmailTestResult) :
  forall acc,
    fst (fold_left classify l acc)
    = fst acc ++ List.map r_email (filter isDeliverable l)
    /\ snd (fold_left classify l acc)
       = snd acc
         ++ List.map
              (fun r =>
                 {| i_email := r_email r;
                    issues := filter (fun s => negb (includes s (lit "successfully")))
                                     (recommendations r) |})
              (filter (fun r => negb (isDeliverable r)) l).
Proof.
  induction l as [|r l IH]; intros acc.
  - cbn [fold_left filter List.map]. rewrite !app_nil_r. split; reflexivity.
  - cbn [fold_left filter]. destruct (IH (classify acc r)) as [H1 H2].
    rewrite H1, H2. unfold classify. fold (isDeliverable r).
    destruct (isDeliverable r); cbn [fst snd negb List.map];
      rewrite <- ?app_assoc; split; reflexivity.
Qed.

Lemma items_echo configs rs :
  Forall2 (fun config result =>
             exists h' evs',
               testEmailDeliverability env self config h'
               = (Returned result, evs'))
          configs rs ->
  List.map r_email rs = List.map email configs
  /\ List.map isValid rs
     = List.map (fun c => validateEmailFormat (email c)) configs.
Proof.
  intros Hitems.
  induction Hitems as [|config result cs rs' (h' & evs' & Hr) _ IH];
    [split; reflexivity|].
  destruct IH as [IH1 IH2].
  destruct (testEmailDeliverability_result env self config h')
    as (r & evs0 & Hrun & Hemail & Hvalid & _).
  rewrite Hr in Hrun. injection Hrun as <- _.
  cbn [List.map]. rewrite Hemail, Hvalid, IH1, IH2. split; reflexivity.
Qed.

(** X12.  [testMultipleEmails] keeps the order and the addresses of its input:
    the i-th result is about the i-th configuration, carries its address,
    and its [isValid] is the verdict of the format check on that address. *)
Theorem testMultipleEmails_keeps_order configs h :
  exists batch evs,
    testMultipleEmails env self configs h = (Returned batch, evs)
    /\ List.map r_email (results batch) = List.map email configs
    /\ List.map isValid (results batch)
       = List.map (fun c => validateEmailFormat (email c)) configs.
Proof.
  destruct (testMultipleEmails_items env self configs h)
    as (batch & evs & E & Hitems).
  exists batch, evs. split; [exact E|].
  apply items_echo. exact Hitems.
Qed.

End BatchRuns.

(** ** Validation of a list of addresses *)

Section Validation.

Import Tester.

Variable env : Env.
Variable self : EmailDeliverabilityTester.

Lemma validateEmails_structure emails h :
  exists batch evs,
    testMultipleEmails env self
      (List.map (fun email =>
                   {| email := email; provider := None; smtpConfig := None;
                      testMessage := None; skipActualDelivery := Some true |})
                emails) h
    = (Returned batch, evs)
    /\ validateEmails env self emails h
       = (Returned
            {| validEmails := fst (fold_left classify (results batch) ([], []));
               invalidEmails := snd (fold_left classify (results batch) ([], []));
               summary :=
                 {| s_total := List.length emails;
                    s_valid :=
                      List.length (fst (fold_left classify (results batch) ([], [])));
                    s_invalid :=
                      List.length (snd (fold_left classify (results batch) ([], [])))
                 |} |},
          evs).
Proof.
  destruct (testMultipleEmails_items env self
              (List.map (fun email =>
                           {| email := email; provider := None; smtpConfig := None;
                              testMessage := None;
                              skipActualDelivery := Some true |}) emails) h)
    as (batch & evs & E & _).
  exists batch, evs. split; [exact E|].
  unfold validateEmails, validateEmailsWith, bind.
  unfold testMultipleEmails in E. rewrite E. cbn [ret].
  rewrite app_nil_r. reflexivity.
Qed.

Lemma Forall2_of_map {A B C} (f : A -> B) (P : B -> C -> Prop)
      (l : list A) (l' : list C) :
  Forall2 P (List.map f l) l' -> Forall2 (fun a c => P (f a) c) l l'.
Proof.
  revert l'. induction l as [|a l IH]; intros l' H; inversion H; subst;
    constructor; auto.
Qed.

(** X13.  [validateEmails] sorts its input into the two lists without losing,
    adding or reordering an address.  The batch it runs is
    [testMultipleEmails] on one skip-mode configuration per address; the
    results of that batch are, position by position, the results of
    [testEmailDeliverability] on these addresses.  [validEmails] lists the
    addresses of the deliverable results of the batch and [invalidEmails]
    those of the others, each in the order of the input. *)
Theorem validateEmails_partitions emails h :
  let configOf := fun address =>
    {| email := address; provider := None; smtpConfig := None;
       testMessage := None; skipActualDelivery := Some true |} in
  exists v batch evs,
    validateEmails env self emails h = (Returned v, evs)
    /\ testMultipleEmails env self (List.map configOf emails) h
       = (Returned batch, evs)
    /\ Forall2 (fun address result =>
                  r_email result = address
                  /\ exists h' evs',
                       testEmailDeliverability env self (configOf address) h'
                       = (Returned result, evs'))
               emails (results batch)
    /\ validEmails v = List.map r_email (filter isDeliverable (results batch))
    /\ List.map i_email (invalidEmails v)
       = List.map r_email
           (filter (fun r => negb (isDeliverable r)) (results batch)).
Proof.
  intros configOf.
  destruct (validateEmails_structure emails h) as (batch & evs & E & Ev).
  fold configOf in E.
  eexists. exists batch, evs. split; [exact Ev|]. split; [exact E|].
  split.
  { destruct (testMultipleEmails_items env self (List.map configOf emails) h)
      as (batch' & evs' & E' & Hitems).
    rewrite E in E'. injection E' as <- _.
    apply Forall2_of_map in Hitems.
    eapply Forall2_impl; [|exact Hitems].
    intros address result (h' & evs0 & Hrun). split; [|exists h', evs0; exact Hrun].
    destruct (testEmailDeliverability_result env self (configOf address) h')
      as (r & evs1 & Hrun' & Hemail & _).
    rewrite Hrun in Hrun'. injection Hrun' as <- _. exact Hemail. }
  destruct (classify_lists (results batch) ([], [])) as [H1 H2].
  cbn [validEmails invalidEmails]. rewrite H1, H2. cbn [fst snd app].
  split; [reflexivity|]. rewrite map_map. reflexivity.
Qed.

(** X14.  [validateEmails] never reaches a delivery backend: whatever the tester
    and the addresses, its run consists of clock reads and DNS lookups
    only. *)
Theorem validateEmails_sends_nothing emails h :
  exists v evs,
    validateEmails env self emails h = (Returned v, evs)
    /\ forallb (fun ev => negb (backendEvent ev)) evs = true
    /\ forallb (fun ev => match ev with
                          | DateNow | ResolveMx _ | ResolveTxt _ => true
                          | _ => false
                          end) evs = true.
Proof.
  destruct (validateEmails_structure emails h) as (batch & evs & E & Ev).
  eexists. exists evs. split; [exact Ev|].
  assert (forall config h' o evs',
             In config
                (List.map (fun email =>
                             {| email := email; provider := None;
                                smtpConfig := None; testMessage := None;
                                skipActualDelivery := Some true |}) emails) ->
             testEmailDeliverability env self config h' = (o, evs') ->
             forallb (fun ev => match ev with
                                | DateNow | ResolveMx _ | ResolveTxt _ => true
                                | _ => false
                                end) evs' = true) as Hquiet.
  { intros config h' o evs' Hin Hrun.
    apply in_map_iff in Hin as (e & <- & _).
    destruct (skip_run_quiet env self
                {| email := e; provider := None; smtpConfig := None;
                   testMessage := None; skipActualDelivery := Some true |} h'
                eq_refl) as (r1 & evs1 & Hrun1 & Hq).
    rewrite Hrun in Hrun1. injection Hrun1 as _ <-. exact Hq. }
  split.
  - eapply forallb_weaken;
      [|eapply (testMultipleEmailsWith_events env _ _ _ _ eq_refl Hquiet); exact E].
    intros [] Hx; try discriminate Hx; reflexivity.
  - eapply (testMultipleEmailsWith_events env _ _ _ _ eq_refl Hquiet). exact E.
Qed.

(** X15.  Every entry of [invalidEmails] names at least one issue: the
    invalid-format line, the missing-domain line or the no-MX line. *)
Theorem invalidEmails_have_issues emails h :
  exists v evs,
    validateEmails env self emails h = (Returned v, evs)
    /\ Forall (fun entry =>
                 In msgInvalidFormat (issues entry)
                 \/ In msgNoDomain (issues entry)
                 \/ In msgNoMx (issues entry))
              (invalidEmails v).
Proof.
  destruct (validateEmails_structure emails h) as (batch & evs & E & Ev).
  eexists. exists evs. split; [exact Ev|].
  cbn [invalidEmails].
  destruct (classify_lists (results batch) ([], [])) as [_ H2].
  rewrite H2. cbn [snd app].
  match type of E with
  | testMultipleEmails _ _ ?cs _ = _ =>
      destruct (testMultipleEmails_items env self cs h)
        as (batch' & evs' & E' & Hitems)
  end.
  rewrite E in E'. injection E' as <- _.
  apply Forall_forall. intros entry Hin.
  apply in_map_iff in Hin as (r & <- & Hin).
  apply filter_In in Hin as [Hin Hnd]. cbn [issues].
  assert (exists config h' evs0,
             testEmailDeliverability env self config h' = (Returned r, evs0))
    as (config & h' & evs0 & Hrun).
  { clear - Hin Hitems. induction Hitems as [|c x cs xs Hx _ IH];
      [contradiction|].
    destruct Hin as [-> | Hin].
    - destruct Hx as (h' & evs0 & Hx). exists c, h', evs0. exact Hx.
    - apply IH. exact Hin. }
  destruct (testEmailDeliverability_result env self config h')
    as (r' & evs1 & Hrun' & _ & _ & Hrec & Hspf & Hdmarc).
  rewrite Hrun in Hrun'. injection Hrun' as <- _.
  destruct (recommendations_of_result r Hrec Hspf Hdmarc)
    as (_ & H1 & H2' & H3 & _).
  apply negb_true_iff in Hnd. unfold isDeliverable in Hnd.
  destruct (isValid r).
  - destruct (domainExists r).
    + destruct (mxRecords r) as [|m ms]; [|discriminate Hnd].
      right. right. apply filter_In. split; [apply H3; reflexivity | reflexivity].
    + right. left. apply filter_In. split; [apply H2'; reflexivity | reflexivity].
  - left. apply filter_In. split; [apply H1; reflexivity | reflexivity].
Qed.

End Validation.

(** ** Construction of a tester and the quick functions *)

Lemma orElse_nonempty (a : option jsstring) (b : jsstring) :
  nonempty b = true -> nonempty (Tester.orElse a b) = true.
Proof.
  intros Hb. unfold Tester.orElse. destruct a as [s|]; [|exact Hb].
  destruct (nonempty s) eqn:Hs; assumption.
Qed.

(** X16.  A constructed tester always has a non-empty default sender, and the
    sender given to the constructor is used when it is not empty.  It has
    an SES client exactly when a configuration is given or both credentials
    are set, not empty, in the environment.  The client's region is never
    empty; its credentials are those of the configuration when there is
    one (the environment is then not consulted for them) and those of the
    environment otherwise. *)
Theorem construct_invariants (processEnv : ProcessEnv)
        (awsConfig : option TesterSetup.AwsConfig) (fromEmail : option jsstring) :
  let tester := TesterSetup.construct processEnv awsConfig fromEmail in
  nonempty (Tester.defaultFromEmail tester) = true
  /\ (forall s, fromEmail = Some s -> nonempty s = true ->
                Tester.defaultFromEmail tester = s)
  /\ (Tester.isAwsSesConfigured tester = true <->
      awsConfig <> None
      \/ (isTruthy (processEnv (lit "AWS_ACCESS_KEY_ID")) = true
          /\ isTruthy (processEnv (lit "AWS_SECRET_ACCESS_KEY")) = true))
  /\ (forall client, Tester.sesClient tester = Some client ->
        nonempty (region client) = true
        /\ match awsConfig with
           | Some c =>
               accessKeyId client = TesterSetup.cfg_accessKeyId c
               /\ secretAccessKey client = TesterSetup.cfg_secretAccessKey c
           | None =>
               processEnv (lit "AWS_ACCESS_KEY_ID") = Some (accessKeyId client)
               /\ processEnv (lit "AWS_SECRET_ACCESS_KEY")
                  = Some (secretAccessKey client)
           end).
Proof.
  cbv zeta. unfold TesterSetup.construct, Tester.isAwsSesConfigured.
  cbn [Tester.defaultFromEmail Tester.sesClient].
  split; [apply orElse_nonempty; reflexivity|].
  split.
  { intros s -> Hs. cbn [orOption]. rewrite Hs.
    unfold Tester.orElse. rewrite Hs. reflexivity. }
  unfold TesterSetup.clientOf.
  destruct awsConfig as [c|].
  - split.
    + split; [intros _; left; discriminate | reflexivity].
    + intros client E. injection E as <-. cbn [region accessKeyId secretAccessKey].
      split; [apply orElse_nonempty; reflexivity | split; reflexivity].
  - destruct (processEnv (lit "AWS_ACCESS_KEY_ID")) as [key|];
      destruct (processEnv (lit "AWS_SECRET_ACCESS_KEY")) as [secret|];
      cbn [isTruthy].
    + destruct (nonempty key), (nonempty secret); cbn [andb]; split;
        try (split; [discriminate | intros [H | [H1 H2]]; congruence]);
        try (intros client E; discriminate E).
      * split; [intros _; right; split; reflexivity | reflexivity].
      * intros client E. injection E as <-.
        cbn [region accessKeyId secretAccessKey].
        split; [apply orElse_nonempty; reflexivity | split; reflexivity].
    + split; [|intros client E; discriminate E].
      split; [discriminate | intros [H | [H1 H2]]; congruence].
    + split; [|intros client E; discriminate E].
      split; [discriminate | intros [H | [H1 H2]]; congruence].
    + split; [|intros client E; discriminate E].
      split; [discriminate | intros [H | [H1 H2]]; congruence].
Qed.

(** X17.  [quickEmailValidation] never throws and never reaches a backend, but it
    also never reports an address as deliverable: it asks for both
    backends and gives no SMTP configuration, so an accepted address always
    gets the SMTP failure line, and a rejected one the invalid-format
    line. *)
Theorem quickEmailValidation_never_deliverable (processEnv : ProcessEnv)
        (env : Env) (address : jsstring) (h : History) :
  exists r evs,
    TesterSetup.quickEmailValidation processEnv env address h = (Returned r, evs)
    /\ Tester.r_email r = address
    /\ forallb (fun ev => negb (backendEvent ev)) evs = true
    /\ Tester.recommendations r <> [Tester.msgDeliverable]
    /\ (if validateEmailFormat address
        then In (Tester.msgSmtpFailed
                   (Some (lit "SMTP configuration not provided")))
                (Tester.recommendations r)
        else In Tester.msgInvalidFormat (Tester.recommendations r)).
Proof.
  unfold TesterSetup.quickEmailValidation. cbv zeta.
  set (tester := TesterSetup.construct processEnv None None).
  set (config := {| Tester.email := address; Tester.provider := None;
                    Tester.smtpConfig := None; Tester.testMessage := None;
                    Tester.skipActualDelivery := Some true |}).
  destruct (testEmailDeliverability_result env tester config h)
    as (r & evs & Hrun & Hemail & _).
  destruct (skip_run_quiet env tester config h eq_refl)
    as (r1 & evs1 & Hrun1 & Hq).
  rewrite Hrun in Hrun1. injection Hrun1 as _ <-.
  exists r, evs. split; [exact Hrun|]. split; [exact Hemail|]. split.
  { eapply forallb_weaken; [|exact Hq].
    intros [] Hx; try discriminate Hx; reflexivity. }
  change address with (Tester.email config).
  destruct (validateEmailFormat (Tester.email config)) eqn:Hv.
  - destruct (missing_smtpConfig_line env tester config h Hv eq_refl eq_refl)
      as (r2 & evs2 & Hrun2 & Hin & Hne).
    rewrite Hrun in Hrun2. injection Hrun2 as <- _. split; assumption.
  - rewrite (testEmailDeliverability_invalid env tester config h Hv) in Hrun.
    injection Hrun as <- _. cbn [Tester.recommendations].
    split; [discriminate | left; reflexivity].
Qed.

(** ** Runs of the sender *)

Section SenderRuns.

Import Sender.

Variable env : Env.
Variable self : EmailSender.

Lemma sendWithSmtp_outcome o h :
  exists r evs,
    sendWithSmtp env self o h = (Returned r, evs)
    /\ provider r = Smtp
    /\ (success r = true -> error r = None /\ existsb sendMailEvent evs = true)
    /\ (success r = false -> messageId r = None /\ exists msg, error r = Some msg)
    /\ forallb (fun ev => negb (sesEvent ev)) evs = true.
Proof.
  unfold sendWithSmtp.
  destruct (smtpTransporter self) as [t|].
  2:{ eexists. eexists. split; [reflexivity|].
      cbn. repeat split; try discriminate. eexists. reflexivity. }
  unfold try_catch, bind, verify, sendMail, perform, ret.
  destruct (transporter_verify env h t) as [[]|e1].
  2:{ eexists. eexists. split; [reflexivity|].
      cbn. repeat split; try discriminate. eexists. reflexivity. }
  destruct (transporter_sendMail env _ t _) as [info|e2].
  - eexists. eexists. split; [reflexivity|].
    cbn. repeat split; try discriminate.
  - eexists. eexists. split; [reflexivity|].
    cbn. repeat split; try discriminate. eexists. reflexivity.
Qed.

(** X18.  [sendWithSmtp] verifies the connection before it sends: its first
    event is [verify()]; when that throws, nothing is sent and the failure
    carries what was thrown; a message is handed to the transporter only
    after [verify()] returned, and then exactly one, built from the options
    with the default sender filled in. *)
Theorem sendWithSmtp_verifies_first o h t :
  smtpTransporter self = Some t ->
  exists r evs,
    sendWithSmtp env self o h = (Returned r, evs)
    /\ hd_error evs = Some (TransportVerify t)
    /\ (forall e, transporter_verify env h t = Thrown e ->
          evs = [TransportVerify t]
          /\ r = failure (errorMessage (lit "Unknown SMTP error") e) Smtp)
    /\ (existsb sendMailEvent evs = true ->
        transporter_verify env h t = Returned tt
        /\ evs = [TransportVerify t; TransportSendMail t (mailOptionsOf self o)])
    /\ mail_from (mailOptionsOf self o) = orElse (from o) (defaultFromEmail self).
Proof.
  intros Ht. unfold sendWithSmtp. rewrite Ht.
  unfold try_catch, bind, verify, sendMail, perform, ret.
  destruct (transporter_verify env h t) as [[]|e1].
  - destruct (transporter_sendMail env _ t _) as [info|e2];
      eexists; eexists; (split; [reflexivity|]);
      (split; [reflexivity|]); (split; [intros e E; discriminate E|]);
      (split; [intros _; split; reflexivity | reflexivity]).
  - eexists. eexists. split; [reflexivity|]. split; [reflexivity|].
    split; [intros e E; injection E as <-; split; reflexivity|].
    split; [intros E; discriminate E | reflexivity].
Qed.

(** X19.  Without attachments, [sendWithSes] is one call of the SES client and
    nothing else: a [SendEmailCommand] to the recipients of the options
    (one address or the list as given), from the sender of the options or
    else the default one, without body parts for an absent or empty text or
    HTML.  The result follows what the call did. *)
Theorem sendWithSes_plain o h client :
  sesClient self = Some client ->
  hasAttachments o = false ->
  exists params,
    ToAddresses params = toArray (to o)
    /\ Source params = orElse (from o) (defaultFromEmail self)
    /\ Data (Subject params) = subject o
    /\ (BodyText params = None <->
        text o = None \/ text o = Some [])
    /\ (BodyHtml params = None <->
        html o = None \/ html o = Some [])
    /\ sendWithSes env self o h
       = (Settled
            (Returned
               match ses_send env h client (SendEmailCommand params) with
               | Returned id => sent id AwsSes
               | Thrown e =>
                   failure (errorMessage (lit "Unknown AWS SES error") e) AwsSes
               end),
          [SesSend client (SendEmailCommand params)]).
Proof.
  intros Hc Ha. unfold sendWithSes. rewrite Hc, Ha.
  exists {| ToAddresses := toArray (to o);
            CcAddresses := addressList (cc o);
            BccAddresses := addressList (bcc o);
            BodyHtml := whenString (html o) utf8;
            BodyText := whenString (text o) utf8;
            Subject := utf8 (subject o);
            Source := orElse (from o) (defaultFromEmail self);
            ReplyToAddresses := whenString (replyTo o) (fun r => [r]) |}.
  cbn [ToAddresses Source Subject Data utf8 BodyText BodyHtml].
  split; [reflexivity|]. split; [reflexivity|]. split; [reflexivity|].
  split; [|split].
  - unfold whenString. destruct (text o) as [[|c s]|]; cbn [nonempty].
    + split; [intros _; right; reflexivity | reflexivity].
    + split; [discriminate | intros [E | E]; discriminate E].
    + split; [intros _; left; reflexivity | reflexivity].
  - unfold whenString. destruct (html o) as [[|c s]|]; cbn [nonempty].
    + split; [intros _; right; reflexivity | reflexivity].
    + split; [discriminate | intros [E | E]; discriminate E].
    + split; [intros _; left; reflexivity | reflexivity].
  - unfold try_await, andThen, settles, resolved, sesClient_send, perform.
    destruct (ses_send env h client _); reflexivity.
Qed.

(** X20.  With attachments, [sendWithSes] first creates a sendmail transport
    and hands it the message, and it never throws.  When the [info] that
    comes back has no [message], as with the sendmail transport of
    nodemailer, the promise made by hand stays pending: [sendWithSes] never
    completes and the SES client is not called.  The SES client is called
    only with the bytes of a [message] that [info] carried, once, with a
    [SendRawEmailCommand]; a result, when there is one, is tagged
    ['aws-ses'], and a success implies that call. *)
Theorem sendWithSes_attachments o h client :
  sesClient self = Some client ->
  hasAttachments o = true ->
  let sendmail := SendmailTransport (lit "unix") (lit "/usr/sbin/sendmail") in
  exists c evs,
    sendWithSes env self o h = (c, evs)
    /\ hd_error evs = Some (CreateTransport sendmail)
    /\ (forall e, c <> Settled (Thrown e))
    /\ (forall r, c = Settled (Returned r) ->
          provider r = AwsSes
          /\ (success r = true -> existsb sesEvent evs = true))
    /\ (c = Pending <->
        exists t info,
          nodemailer_createTransport env h sendmail = Returned t
          /\ transporter_sendMail env (h ++ [CreateTransport sendmail]) t
               (mailOptionsOf self o)
             = Returned info
          /\ info_message info = None)
    /\ (c = Pending -> existsb sesEvent evs = false)
    /\ (existsb sesEvent evs = true ->
        exists t info bytes,
          transporter_sendMail env (h ++ [CreateTransport sendmail]) t
            (mailOptionsOf self o)
          = Returned info
          /\ info_message info = Some bytes
          /\ evs = [CreateTransport sendmail;
                    TransportSendMail t (mailOptionsOf self o);
                    SesSend client (SendRawEmailCommand bytes)]).
Proof.
  intros Hc Ha sendmail. unfold sendWithSes. rewrite Hc, Ha.
  unfold sendRawEmailWithSes, try_await, andThen, settles, rawEmailOf, resolved,
    createTransport, sesClient_send, throw, perform.
  rewrite Hc. cbv beta iota zeta. fold sendmail.
  destruct (nodemailer_createTransport env h sendmail) as [t|e1] eqn:Et.
  2:{ eexists. eexists. split; [reflexivity|]. cbn.
      split; [reflexivity|]. split; [discriminate|].
      split; [intros r E; injection E as <-; split; [reflexivity|discriminate]|].
      split; [|split; discriminate].
      split; [discriminate|]. intros (t' & info' & Ht & _). discriminate Ht. }
  destruct (transporter_sendMail env _ t _) as [info|e2] eqn:Ei.
  2:{ eexists. eexists. split; [reflexivity|]. cbn.
      split; [reflexivity|]. split; [discriminate|].
      split; [intros r E; injection E as <-; split; [reflexivity|discriminate]|].
      split; [|split; discriminate].
      split; [discriminate|]. intros (t' & info' & Ht & Hi & _).
      injection Ht as <-. rewrite Ei in Hi. discriminate Hi. }
  destruct (info_message info) as [bytes|] eqn:Em.
  2:{ eexists. eexists. split; [reflexivity|]. cbn.
      split; [reflexivity|]. split; [discriminate|].
      split; [intros r E; discriminate E|].
      split; [|split; [reflexivity | discriminate]].
      split; [|reflexivity]. intros _. exists t, info. repeat split; assumption. }
  destruct (ses_send env _ client _) as [id|e3];
    (eexists; eexists; split; [reflexivity|]; cbn;
     split; [reflexivity|]; split; [discriminate|];
     split; [intros r E; injection E as <-; split; reflexivity|];
     split; [|split; [discriminate|]]).
  - split; [discriminate|]. intros (t' & info' & Ht & Hi & Hm).
    injection Ht as <-. rewrite Ei in Hi. injection Hi as <-. congruence.
  - intros _. exists t, info, bytes. repeat split; assumption.
  - split; [discriminate|]. intros (t' & info' & Ht & Hi & Hm).
    injection Ht as <-. rewrite Ei in Hi. injection Hi as <-. congruence.
  - intros _. exists t, info, bytes. repeat split; assumption.
Qed.

(** X21.  The promise of [send] is never rejected.  A result it returns is
    well formed and honest about its backend: a success has no error and
    was preceded by a call of the backend it is tagged with (an SES send,
    respectively an SMTP [sendMail]); a failure has an error message and no
    message id; and with an explicit provider the result is tagged with
    that provider.  [send] fails to complete only on options with
    attachments that it hands to a configured SES client, and then that
    client was not called. *)
Theorem send_result_is_honest o requested h :
  match send env self o requested h with
  | (Settled (Returned r), evs) =>
      (success r = true ->
       error r = None
       /\ match provider r with
          | AwsSes => existsb sesEvent evs = true
          | Smtp => existsb sendMailEvent evs = true
          end)
      /\ (success r = false -> messageId r = None /\ exists msg, error r = Some msg)
      /\ (forall p, requested = Some p -> provider r = p)
  | (Settled (Thrown _), _) => False
  | (Pending, evs) =>
      hasAttachments o = true
      /\ sesClient self <> None
      /\ requested <> Some Smtp
      /\ forallb (fun ev => negb (sesEvent ev)) evs = true
  end.
Proof.
  destruct requested as [[|]|].
  - pose proof (sendWithSes_outcome env self o
                  (h ++ snd (logCall self (Some AwsSes) h)
                     ++ [ConsoleLog lineExplicitSes])) as H.
    destruct (sendWithSes env self o
                (h ++ snd (logCall self (Some AwsSes) h)
                   ++ [ConsoleLog lineExplicitSes])) as [c evs] eqn:E.
    rewrite (send_explicit_ses env self o h E).
    destruct c as [[r|e]|]; [|contradiction|].
    + destruct H as (Hp & Hs & Hf & _).
      split; [|split; [exact Hf | intros p Ep; congruence]].
      intros Hok. destruct (Hs Hok) as [He Hev]. split; [exact He|].
      rewrite Hp, !existsb_app, Hev, !orb_true_r. reflexivity.
    + destruct H as (Ha & Hc & Hses & _).
      split; [exact Ha|]. split; [exact Hc|]. split; [discriminate|].
      rewrite !forallb_app, Hses. reflexivity.
  - destruct (sendWithSmtp_outcome o
                (h ++ snd (logCall self (Some Smtp) h)
                   ++ [ConsoleLog lineExplicitSmtp]))
      as (r & evs & E & Hp & Hs & Hf & _).
    rewrite (send_explicit_smtp env self o h E).
    split; [|split; [exact Hf | intros p Ep; congruence]].
    intros H. destruct (Hs H) as [He Hev]. split; [exact He|].
    rewrite Hp, !existsb_app, Hev, !orb_true_r. reflexivity.
  - assert (forall h',
               exists r evs,
                 smtpOrNone env self o h' = (Returned r, evs)
                 /\ (success r = true ->
                     error r = None
                     /\ provider r = Smtp /\ existsb sendMailEvent evs = true)
                 /\ (success r = false ->
                     messageId r = None /\ exists msg, error r = Some msg))
      as Hsmtp.
    { intros h'. destruct (smtpTransporter self) as [t|] eqn:Ht.
      - destruct (sendWithSmtp_outcome o (h' ++ [ConsoleLog lineUsingSmtp]))
          as (r & evs & E & Hp & Hs & Hf & _).
        exists r. eexists.
        split; [apply smtpOrNone_configured with (t := t); eassumption|].
        split; [|exact Hf]. intros H. destruct (Hs H) as [He Hev].
        split; [exact He|]. split; [exact Hp|].
        rewrite existsb_app, Hev, orb_true_r. reflexivity.
      - eexists. eexists. split; [apply smtpOrNone_missing; exact Ht|].
        cbn. split; [discriminate|]. intros _. split; [reflexivity|].
        eexists. reflexivity. }
    destruct (sesClient self) as [client|] eqn:Hc.
    + pose proof (sendWithSes_outcome env self o
                    (h ++ snd (logCall self None h) ++ [ConsoleLog lineTryingSes]))
        as H.
      destruct (sendWithSes env self o
                  (h ++ snd (logCall self None h) ++ [ConsoleLog lineTryingSes]))
        as [[[r1|e]|] evs1] eqn:E1; [|contradiction|].
      * destruct H as (Hp1 & Hs1 & Hf1 & _).
        destruct (success r1) eqn:Hs.
        -- rewrite (send_auto_ses env self o h Hc E1
                      (r := Returned r1) (evs := []))
             by (rewrite Hs; reflexivity).
           split; [|split; [congruence | discriminate]].
           intros _. destruct (Hs1 eq_refl) as [He Hev]. split; [exact He|].
           rewrite Hp1, !existsb_app, Hev, !orb_true_r. reflexivity.
        -- destruct (Hsmtp (h ++ snd (logCall self None h)
                              ++ [ConsoleLog lineTryingSes] ++ evs1))
             as (r & evs & E2 & Hs2 & Hf2).
           rewrite (send_auto_ses env self o h Hc E1 (r := Returned r) (evs := evs))
             by (rewrite Hs; exact E2).
           split; [|split; [exact Hf2 | discriminate]].
           intros H. destruct (Hs2 H) as (He & Hp & Hev). split; [exact He|].
           rewrite Hp, !existsb_app, Hev, !orb_true_r. reflexivity.
      * rewrite (send_auto_pending env self o h Hc E1).
        destruct H as (Ha & _ & Hses & _).
        split; [exact Ha|]. split; [discriminate|].
        split; [discriminate|].
        rewrite !forallb_app, Hses. reflexivity.
    + destruct (Hsmtp (h ++ snd (logCall self None h)))
        as (r & evs & E & Hs2 & Hf2).
      rewrite (send_auto_no_ses env self o h Hc E).
      split; [|split; [exact Hf2 | discriminate]].
      intros H. destruct (Hs2 H) as (He & Hp & Hev). split; [exact He|].
      rewrite Hp, !existsb_app, Hev, !orb_true_r. reflexivity.
Qed.

End SenderRuns.

Section SenderReach.

Import Sender.

Variable env : Env.
Variable self : EmailSender.

Lemma smtpOrNone_reach o h :
  exists r evs,
    smtpOrNone env self o h = (Returned r, evs)
    /\ forallb (fun ev => negb (sesEvent ev)) evs = true
    /\ (smtpTransporter self = None -> forallb consoleEvent evs = true).
Proof.
  destruct (smtpTransporter self) as [t|] eqn:Ht.
  - destruct (sendWithSmtp_outcome env self o (h ++ [ConsoleLog lineUsingSmtp]))
      as (r & evs & E & _ & _ & _ & Hev).
    exists r. eexists.
    split; [apply smtpOrNone_configured with (t := t); eassumption|].
    split; [|discriminate]. cbn [app forallb sesEvent negb andb]. exact Hev.
  - eexists. eexists. split; [apply smtpOrNone_missing; exact Ht|].
    split; [reflexivity | intros _; reflexivity].
Qed.

(** X22.  A backend that [getConfigStatus] reports as missing is never contacted
    by [send], whatever provider is asked for and however the call ends:
    without SES client there is no call of an SES client, and without SMTP
    transporter no connection is verified. *)
Theorem missing_backend_is_never_contacted o requested h :
  (SenderSetup.hasAwsSes (SenderSetup.getConfigStatus self) = false ->
   forallb (fun ev => negb (sesEvent ev)) (snd (send env self o requested h))
   = true)
  /\ (SenderSetup.hasSmtp (SenderSetup.getConfigStatus self) = false ->
      forallb (fun ev => negb (verifyEvent ev)) (snd (send env self o requested h))
      = true).
Proof.
  cbn [SenderSetup.getConfigStatus SenderSetup.hasAwsSes SenderSetup.hasSmtp].
  destruct requested as [[|]|].
  - pose proof (sendWithSes_outcome env self o
                  (h ++ snd (logCall self (Some AwsSes) h)
                     ++ [ConsoleLog lineExplicitSes])) as H.
    destruct (sendWithSes env self o
                (h ++ snd (logCall self (Some AwsSes) h)
                   ++ [ConsoleLog lineExplicitSes])) as [c evs] eqn:E.
    rewrite (send_explicit_ses env self o h E). cbn [snd]. split.
    + intros Hc. unfold sendWithSes in E.
      destruct (sesClient self); [discriminate Hc|].
      injection E as _ <-. reflexivity.
    + intros _. rewrite !forallb_app.
      destruct c as [[r|e]|]; [|contradiction|].
      * destruct H as (_ & _ & _ & Hev). rewrite Hev. reflexivity.
      * destruct H as (_ & _ & _ & Hev). rewrite Hev. reflexivity.
  - destruct (sendWithSmtp_outcome env self o
                (h ++ snd (logCall self (Some Smtp) h)
                   ++ [ConsoleLog lineExplicitSmtp]))
      as (r & evs & E & _ & _ & _ & Hev).
    rewrite (send_explicit_smtp env self o h E). cbn [snd]. split.
    + intros _. rewrite !forallb_app, Hev. reflexivity.
    + intros Hc. unfold sendWithSmtp in E.
      destruct (smtpTransporter self); [discriminate Hc|].
      injection E as _ <-. reflexivity.
  - destruct (sesClient self) as [client|] eqn:Hc.
    + split; [discriminate|]. intros Ht.
      assert (smtpTransporter self = None) as Hnone
          by (destruct (smtpTransporter self); [discriminate Ht | reflexivity]).
      pose proof (sendWithSes_outcome env self o
                    (h ++ snd (logCall self None h) ++ [ConsoleLog lineTryingSes]))
        as H.
      destruct (sendWithSes env self o
                  (h ++ snd (logCall self None h) ++ [ConsoleLog lineTryingSes]))
        as [[[r1|e]|] evs1] eqn:E1; [|contradiction|].
      * destruct H as (_ & _ & _ & Hev1).
        destruct (success r1) eqn:Hs.
        -- rewrite (send_auto_ses env self o h Hc E1
                      (r := Returned r1) (evs := []))
             by (rewrite Hs; reflexivity).
           cbn [snd]. rewrite !forallb_app, Hev1. reflexivity.
        -- destruct (smtpOrNone_reach o
                       (h ++ snd (logCall self None h)
                          ++ [ConsoleLog lineTryingSes] ++ evs1))
             as (r & evs & E2 & _ & Hquiet).
           rewrite (send_auto_ses env self o h Hc E1 (r := Returned r) (evs := evs))
             by (rewrite Hs; exact E2).
           cbn [snd]. rewrite !forallb_app, Hev1.
           rewrite (forallb_weaken consoleEvent _ evs); [reflexivity| |auto].
           intros [] Hx; try discriminate Hx; reflexivity.
      * rewrite (send_auto_pending env self o h Hc E1). cbn [snd].
        destruct H as (_ & _ & _ & Hev1).
        rewrite !forallb_app, Hev1. reflexivity.
    + destruct (smtpOrNone_reach o (h ++ snd (logCall self None h)))
        as (r & evs & E & Hses & Hquiet).
      rewrite (send_auto_no_ses env self o h Hc E). cbn [snd]. split.
      * intros _. rewrite forallb_app, Hses. reflexivity.
      * intros Ht.
        assert (smtpTransporter self = None) as Hnone
            by (destruct (smtpTransporter self); [discriminate Ht | reflexivity]).
        rewrite forallb_app.
        rewrite (forallb_weaken consoleEvent _ evs); [reflexivity| |auto].
        intros [] Hx; try discriminate Hx; reflexivity.
Qed.

End SenderReach.

(** ** Detection of the SMTP account in the environment *)

Section Detection.

Variable processEnv : ProcessEnv.
Variable Num : Type.
Variable parseInt : jsstring -> Num.
Variable is465 : Num -> bool.

Lemma isTruthy_orOption (a b : option jsstring) :
  isTruthy (orOption a b) = isTruthy a || isTruthy b.
Proof.
  destruct a as [s|]; cbn [orOption isTruthy]; [|reflexivity].
  destruct (nonempty s) eqn:Hs; cbn [isTruthy]; rewrite ?Hs; reflexivity.
Qed.

Lemma isTruthy_some (v : option jsstring) :
  isTruthy v = true -> exists s, v = Some s /\ nonempty s = true.
Proof.
  destruct v as [s|]; cbn [isTruthy]; [|discriminate].
  intros H. exists s. split; [reflexivity | exact H].
Qed.

(** X23.  Whenever [hasSmtpEnvVars] holds, [getSmtpConfigFromEnv] does not
    throw, and the configuration it returns has a non-empty host and
    credentials with a non-empty user and password. *)
Theorem detected_smtp_account_is_complete :
  SenderSetup.hasSmtpEnvVars processEnv = true ->
  exists config u p,
    SenderSetup.getSmtpConfigFromEnv processEnv parseInt is465 = Returned config
    /\ nonempty (SenderSetup.env_host config) = true
    /\ SenderSetup.env_auth config = Some {| user := u; pass := p |}
    /\ nonempty u = true /\ nonempty p = true.
Proof.
  unfold SenderSetup.hasSmtpEnvVars. intros H.
  apply andb_true_iff in H as [H Hp]. apply andb_true_iff in H as [Hh Hu].
  apply isTruthy_some in Hh as (host & Eh & Hh).
  apply isTruthy_some in Hu as (u & Eu & Hu).
  apply isTruthy_some in Hp as (p & Ep & Hp).
  unfold SenderSetup.getSmtpConfigFromEnv. cbv zeta.
  rewrite Eh, Eu, Ep, Hh, Hu, Hp. cbn [andb].
  eexists. exists u, p. split; [reflexivity|].
  cbn [SenderSetup.env_host SenderSetup.env_auth]. repeat split; assumption.
Qed.

(** X24.  [getSmtpConfigFromEnv] throws exactly when neither [SMTP_HOST] nor its
    alternate spelling [SMPTP_HOST] holds a non-empty value; otherwise the
    host it returns is [SMTP_HOST] when that one is not empty and
    [SMPTP_HOST] if not, TLS certificates are checked unless
    [SMTP_TLS_REJECT_UNAUTHORIZED] is exactly [false], and the connection is
    secure as soon as the port reads as 465. *)
Theorem getSmtpConfigFromEnv_host :
  match SenderSetup.getSmtpConfigFromEnv processEnv parseInt is465 with
  | Thrown e =>
      e = ErrorInstance (lit "SMTP host not found in environment variables")
      /\ isTruthy (processEnv (lit "SMTP_HOST")) = false
      /\ isTruthy (processEnv (lit "SMPTP_HOST")) = false
  | Returned config =>
      nonempty (SenderSetup.env_host config) = true
      /\ (if isTruthy (processEnv (lit "SMTP_HOST"))
          then processEnv (lit "SMTP_HOST")
          else processEnv (lit "SMPTP_HOST"))
         = Some (SenderSetup.env_host config)
      /\ (SenderSetup.env_rejectUnauthorized config = false <->
          processEnv (lit "SMTP_TLS_REJECT_UNAUTHORIZED") = Some (lit "false"))
      /\ (is465 (SenderSetup.env_port config) = true ->
          SenderSetup.env_secure config = true)
  end.
Proof.
  unfold SenderSetup.getSmtpConfigFromEnv. cbv zeta.
  destruct (processEnv (lit "SMTP_HOST")) as [h1|] eqn:E1; cbn [orOption isTruthy].
  - destruct (nonempty h1) eqn:H1.
    + rewrite H1.
      cbn [SenderSetup.env_host SenderSetup.env_rejectUnauthorized
           SenderSetup.env_port SenderSetup.env_secure].
      split; [exact H1|]. split; [reflexivity|]. split.
      * destruct (processEnv (lit "SMTP_TLS_REJECT_UNAUTHORIZED")) as [v|].
        -- unfold jsstring_eqb.
           destruct (list_eq_dec N.eq_dec v (lit "false")) as [->|Hne];
             cbn [negb]; split; try reflexivity; try discriminate.
           intros E. injection E as E. contradiction.
        -- split; discriminate.
      * intros ->. apply orb_true_r.
    + destruct (processEnv (lit "SMPTP_HOST")) as [h2|] eqn:E2.
      * destruct (nonempty h2) eqn:H2.
        -- cbn [SenderSetup.env_host SenderSetup.env_rejectUnauthorized
                SenderSetup.env_port SenderSetup.env_secure].
           split; [exact H2|]. split; [reflexivity|]. split.
           ++ destruct (processEnv (lit "SMTP_TLS_REJECT_UNAUTHORIZED")) as [v|].
              ** unfold jsstring_eqb.
                 destruct (list_eq_dec N.eq_dec v (lit "false")) as [->|Hne];
                   cbn [negb]; split; try reflexivity; try discriminate.
                 intros E. injection E as E. contradiction.
              ** split; discriminate.
           ++ intros ->. apply orb_true_r.
        -- repeat split; assumption.
      * repeat split.
  - destruct (processEnv (lit "SMPTP_HOST")) as [h2|] eqn:E2.
    + destruct (nonempty h2) eqn:H2.
      * cbn [SenderSetup.env_host SenderSetup.env_rejectUnauthorized
             SenderSetup.env_port SenderSetup.env_secure].
        split; [exact H2|]. split; [reflexivity|]. split.
        -- destruct (processEnv (lit "SMTP_TLS_REJECT_UNAUTHORIZED")) as [v|].
           ++ unfold jsstring_eqb.
              destruct (list_eq_dec N.eq_dec v (lit "false")) as [->|Hne];
                cbn [negb]; split; try reflexivity; try discriminate.
              intros E. injection E as E. contradiction.
           ++ split; discriminate.
        -- intros ->. apply orb_true_r.
      * repeat split; assumption.
    + repeat split.
Qed.

End Detection.

Lemma detected_smtp_account_is_complete_witness :
  exists config,
    SenderSetup.getSmtpConfigFromEnv Fixture.deployed Fixture.parsePort
      Fixture.portIs465
    = Returned config
    /\ SenderSetup.env_host config = lit "smtp.example.com"
    /\ SenderSetup.env_auth config
       = Some {| user := lit "mailer"; pass := lit "hunter2" |}
    /\ SenderSetup.env_secure config = true.
Proof.
  destruct (detected_smtp_account_is_complete Fixture.deployed Fixture.parsePort
              Fixture.portIs465 eq_refl)
    as (config & u & p & E & _).
  exists config. split; [exact E|].
  vm_compute in E. injection E as <-. repeat split.
Defined.

Lemma sendWithSmtp_verifies_first_witness :
  exists r evs,
    Sender.sendWithSmtp Scenario.offline Scenario.smtpSender Scenario.hello []
    = (Returned r, evs)
    /\ evs = [TransportVerify Scenario.relay]
    /\ Sender.error r = Some (lit "connect ECONNREFUSED").
Proof.
  destruct (sendWithSmtp_verifies_first Scenario.offline Scenario.smtpSender
              Scenario.hello [] (t := Scenario.relay) eq_refl)
    as (r & evs & E & _ & Hthrow & _).
  destruct (Hthrow (ErrorInstance (lit "connect ECONNREFUSED")) eq_refl)
    as [Hevs Hr].
  exists r, evs. split; [exact E|]. split; [exact Hevs|].
  rewrite Hr. reflexivity.
Defined.

Lemma sendWithSes_plain_witness :
  exists params,
    ToAddresses params = [lit "user@example.com"]
    /\ Source params = lit "no-reply@example.com"
    /\ BodyHtml params = None
    /\ Sender.sendWithSes Scenario.online Scenario.sesSender Scenario.hello []
       = (Settled (Returned (Sender.sent (Some (lit "ses-0001")) Sender.AwsSes)),
          [SesSend Scenario.client (SendEmailCommand params)]).
Proof.
  destruct (sendWithSes_plain Scenario.online Scenario.sesSender Scenario.hello []
              (client := Scenario.client) eq_refl eq_refl)
    as (params & Hto & Hfrom & _ & _ & Hhtml & Hrun).
  exists params. split; [exact Hto|]. split; [exact Hfrom|].
  split; [apply Hhtml; left; reflexivity | exact Hrun].
Defined.

Lemma sendWithSes_attachments_witness :
  exists evs,
    Sender.sendWithSes Scenario.online Scenario.fullSender Fixture.report []
    = (Pending, evs)
    /\ existsb sesEvent evs = false.
Proof.
  destruct (sendWithSes_attachments Scenario.online Scenario.fullSender
              Fixture.report [] (client := Scenario.client) eq_refl eq_refl)
    as (c & evs & E & _ & _ & _ & Hpending & Hquiet & _).
  assert (c = Pending) as ->.
  { apply Hpending. eexists. eexists. repeat split. }
  exists evs. split; [exact E | apply Hquiet; reflexivity].
Defined.

(** On the same options, transporters that hand back the message they
    built let the raw path reach the SES client. *)
Example sendWithSes_attachments_buffering :
  exists t,
    Sender.sendWithSes Fixture.buffering Scenario.fullSender Fixture.report []
    = (Settled (Returned (Sender.sent (Some (lit "ses-0001")) Sender.AwsSes)),
       [CreateTransport (SendmailTransport (lit "unix") (lit "/usr/sbin/sendmail"));
        TransportSendMail t
          (Sender.mailOptionsOf Scenario.fullSender Fixture.report);
        SesSend Scenario.client (SendRawEmailCommand [77; 73; 77; 69]%N)]).
Proof. eexists. vm_compute. reflexivity. Qed.

(** With the [info] of the sendmail transport, [send] with attachments
    does not complete, also when an SMTP transporter is configured: the
    fallback is not reached. *)
Example send_attachments_pending :
  exists evs,
    Sender.send Scenario.online Scenario.fullSender Fixture.report None []
    = (Pending, evs)
    /\ existsb sesEvent evs = false
    /\ existsb verifyEvent evs = false.
Proof. eexists. split; [vm_compute; reflexivity|]. split; reflexivity. Qed.

(** ** Invariants of a result and the record checkers *)

Section ResultInvariants.

Import Tester.

Variable env : Env.
Variable self : EmailDeliverabilityTester.

(** X25.  In every result, MX records come with an existing domain and a valid
    format: a result whose domain does not exist has no MX record, and a
    result whose format is invalid has no domain, no MX record, no SPF and
    no DMARC record.  So a result is deliverable exactly when it has an MX
    record. *)
Theorem result_invariants config h :
  exists r evs,
    testEmailDeliverability env self config h = (Returned r, evs)
    /\ (domainExists r = false -> mxRecords r = [])
    /\ (isValid r = false ->
        domainExists r = false /\ mxRecords r = []
        /\ spfRecord r = None /\ dmarcRecord r = None)
    /\ isDeliverable r = (0 <? List.length (mxRecords r))%nat.
Proof.
  destruct (validateEmailFormat (email config)) eqn:Hv.
  - destruct (testEmailDeliverability_valid env self config h Hv)
      as (r & evA & evS & Hrun & _ & Hvalid & Hmx & _).
    cbv zeta in Hrun, Hmx. rewrite checkDomainAndMX_run in Hmx.
    injection Hmx as Hmx.
    exists r. eexists. split; [exact Hrun|].
    unfold isDeliverable. rewrite Hvalid.
    destruct (dns_resolveMx env _ _) as [mx|e]; injection Hmx as <- <-.
    + repeat split; try discriminate. 
    + repeat split; try discriminate.
  - eexists. eexists. split; [apply testEmailDeliverability_invalid; exact Hv|].
    repeat split.
Qed.

(** X26.  When the TXT lookup returns, [checkSpfRecord] reports the first record
    one of whose chunks starts with [v=spf1] in any letter case, with its
    chunks joined; it reports [undefined] exactly when no chunk of any
    record does. *)
Theorem checkSpfRecord_finds_first domain h txtRecords :
  dns_resolveTxt env h domain = Returned txtRecords ->
  exists found,
    checkSpfRecord env domain h = (Returned found, [ResolveTxt domain])
    /\ (found = None <->
        forall record chunk,
          In record txtRecords -> In chunk record ->
          startsWith (toLowerCase chunk) (lit "v=spf1") = false)
    /\ (forall s, found = Some s ->
          exists before record after,
            txtRecords = before ++ record :: after
            /\ s = join record
            /\ (exists chunk, In chunk record
                  /\ startsWith (toLowerCase chunk) (lit "v=spf1") = true)
            /\ forall other chunk,
                 In other before -> In chunk other ->
                 startsWith (toLowerCase chunk) (lit "v=spf1") = false).
Proof.
  intros E. rewrite checkSpfRecord_run, E. eexists. split; [reflexivity|].
  clear E. induction txtRecords as [|record rest IH].
  - cbn [find joined]. split.
    + split; [intros _ record chunk [] | reflexivity].
    + intros s Es. discriminate Es.
  - cbn [find]. destruct (recordStartsWith (lit "v=spf1") record) eqn:Hm.
    + cbn [joined]. split.
      * split; [discriminate|]. intros Hnone. exfalso.
        unfold recordStartsWith in Hm. apply existsb_exists in Hm
          as (chunk & Hin & Hs).
        rewrite (Hnone record chunk (or_introl eq_refl) Hin) in Hs.
        discriminate Hs.
      * intros s Es. injection Es as <-.
        exists [], record, rest. split; [reflexivity|]. split; [reflexivity|].
        split; [|intros other chunk []].
        unfold recordStartsWith in Hm. apply existsb_exists in Hm. exact Hm.
    + destruct IH as [IHnone IHsome].
      assert (forall chunk, In chunk record ->
                startsWith (toLowerCase chunk) (lit "v=spf1") = false) as Hrec.
      { intros chunk Hin. unfold recordStartsWith in Hm.
        destruct (startsWith (toLowerCase chunk) (lit "v=spf1")) eqn:Hs;
          [|reflexivity].
        assert (existsb (fun txt => startsWith (toLowerCase txt) (lit "v=spf1"))
                        record = true) as Hx
            by (apply existsb_exists; exists chunk; split; assumption).
        rewrite Hx in Hm. discriminate Hm. }
      split.
      * rewrite IHnone. split.
        -- intros Hrest r c [<- | Hin] Hc; [apply Hrec; exact Hc|].
           apply (Hrest r c Hin Hc).
        -- intros Hall r c Hin Hc. apply (Hall r c (or_intror Hin) Hc).
      * intros s Es. destruct (IHsome s Es)
          as (before & rec & after & -> & Hs & Hmatch & Hbefore).
        exists (record :: before), rec, after.
        split; [reflexivity|]. split; [exact Hs|]. split; [exact Hmatch|].
        intros other chunk [<- | Hin] Hc; [apply Hrec; exact Hc|].
        apply (Hbefore other chunk Hin Hc).
Qed.

End ResultInvariants.

Lemma checkSpfRecord_finds_first_witness :
  Tester.checkSpfRecord Scenario.online (Some (lit "gmail.com")) []
  = (Returned (Some (lit "v=spf1 redirect=_spf.google.com")),
     [ResolveTxt (Some (lit "gmail.com"))]).
Proof.
  destruct (checkSpfRecord_finds_first Scenario.online
              (Some (lit "gmail.com")) []
              (txtRecords := [[lit "v=spf1 redirect=_spf.google.com"]]) eq_refl)
    as (found & E & _).
  rewrite E. vm_compute in E. injection E as <-. reflexivity.
Defined.

(** ** The quick SES test and the credentials of the environment *)

(** X27.  On an accepted address [quickEmailTestWithSes] never touches SMTP, and
    what it does depends on the environment alone: with both AWS
    credentials set and not empty it makes exactly one backend call, a
    [SendEmailCommand] to that address through a client holding those
    credentials; without them it makes no backend call at all and reports
    the failure [AWS SES not configured]. *)
Theorem quickEmailTestWithSes_credentials (processEnv : ProcessEnv)
        (env : Env) (address : jsstring) (h : History) :
  validateEmailFormat address = true ->
  exists r evs d,
    TesterSetup.quickEmailTestWithSes processEnv env address h = (Returned r, evs)
    /\ Tester.awsSes (Tester.deliverabilityTests r) = Some d
    /\ Tester.smtp (Tester.deliverabilityTests r) = None
    /\ if isTruthy (processEnv (lit "AWS_ACCESS_KEY_ID"))
          && isTruthy (processEnv (lit "AWS_SECRET_ACCESS_KEY"))
       then exists client params,
           filter backendEvent evs = [SesSend client (SendEmailCommand params)]
           /\ processEnv (lit "AWS_ACCESS_KEY_ID") = Some (accessKeyId client)
           /\ processEnv (lit "AWS_SECRET_ACCESS_KEY")
              = Some (secretAccessKey client)
           /\ ToAddresses params = [address]
       else filter backendEvent evs = []
            /\ d = {| Tester.success := false; Tester.messageId := None;
                      Tester.error := Some (lit "AWS SES not configured") |}.
Proof.
  intros Hv. unfold TesterSetup.quickEmailTestWithSes. cbv zeta.
  set (tester := TesterSetup.construct processEnv None None).
  set (config := {| Tester.email := address;
                    Tester.provider := Some Tester.AwsSes;
                    Tester.smtpConfig := None; Tester.testMessage := None;
                    Tester.skipActualDelivery := None |}).
  destruct (testEmailDeliverability_timed env tester config h Hv)
    as (r & evA & evS & Hrun & _ & HA & HS).
  cbv zeta in Hrun, HA, HS.
  change (Tester.wantsAwsSes (Tester.providerOf config)) with true in HA.
  change (Tester.wantsSmtp (Tester.providerOf config)) with false in HS.
  destruct HA as (d & Hd & HA). destruct HS as [Hs ->].
  exists r. eexists. exists d. split; [exact Hrun|].
  split; [exact Hd|]. split; [exact Hs|].
  cbn [app filter backendEvent]. rewrite filter_app.
  cbn [app filter backendEvent]. rewrite app_nil_r.
  unfold Tester.testAwsSesDelivery in HA.
  change (Tester.sesClient tester) with (TesterSetup.clientOf processEnv None) in HA.
  unfold TesterSetup.clientOf in HA.
  change (Tester.truthyBool (Tester.skipActualDelivery config)) with false in HA.
  destruct (processEnv (lit "AWS_ACCESS_KEY_ID")) as [key|];
    destruct (processEnv (lit "AWS_SECRET_ACCESS_KEY")) as [secret|];
    cbn [isTruthy andb];
    try (rewrite andb_false_r);
    try (injection HA as <- <-; split; reflexivity).
  destruct (nonempty key), (nonempty secret); cbn [andb] in *;
    try (injection HA as <- <-; split; reflexivity).
  unfold try_catch, bind, sesClient_send, perform, ret in HA.
  cbv beta iota zeta in HA.
  match type of HA with
  | context [SesSend ?c (SendEmailCommand ?p)] => exists c, p
  end.
  split; [|repeat split].
  destruct (ses_send env _ _ _); injection HA as _ <-; reflexivity.
Qed.

Lemma quickEmailTestWithSes_credentials_witness :
  exists r evs,
    TesterSetup.quickEmailTestWithSes Fixture.blank Scenario.online
      (lit "test@gmail.com") []
    = (Returned r, evs)
    /\ filter backendEvent evs = []
    /\ Tester.awsSes (Tester.deliverabilityTests r)
       = Some {| Tester.success := false; Tester.messageId := None;
                 Tester.error := Some (lit "AWS SES not configured") |}.
Proof.
  destruct (quickEmailTestWithSes_credentials Fixture.blank Scenario.online
              (lit "test@gmail.com") [] eq_refl)
    as (r & evs & d & Hrun & Hd & _ & Hquiet & ->).
  exists r, evs. split; [exact Hrun|]. split; [exact Hquiet | exact Hd].
Defined.
